(** * WalkWithUs backend: notification targeting, scheduled jobs, session
      authentication and booking limits of [server.py]

    A shallow embedding of the Python code.  MongoDB collections are lists of
    documents in insertion order (the order [find] and [find_one] read them
    in), documents are records with an [option] for every field the code
    reads with [.get], datetimes are seconds since the Unix epoch in UTC, and
    the effects of a job (push requests, e-mail calls, inserted documents)
    are returned next to the new database.

    Strings are Rocq strings, a character with the code [n] standing for
    the code point U+00[n] (0 to 255): [strip], [split] and [lower] act on
    them as Python's do, and [upper] does except on the three characters of
    this range that [str.upper] maps out of it or to two letters (see
    [PyStr.upper_char]). *)

From Stdlib Require Import String Ascii List ZArith Bool Lia Arith.
Import ListNotations.

Open Scope string_scope.
Open Scope Z_scope.

(* ================================================================== *)
(** * Part I: definitions                                               *)
(* ================================================================== *)

(** ** Python string built-ins used by the code *)

Module PyStr.

(** [c.upper()] for one character: a..z and, above U+007F, the letters
    U+00E0..U+00FE (all but the division sign U+00F7) lose 32.  Three
    characters are left as they are where Python changes them: U+00DF (to
    "SS"), U+00B5 (to U+039C) and U+00FF (to U+0178).  The model keeps one
    character of the range for each; the code compares upper-cased text
    with words of the letters A..Z, blanks and "/" only, in which neither a
    double S nor a character above U+007F occurs. *)
Definition upper_char (c : ascii) : ascii :=
  let n := nat_of_ascii c in
  if ((97 <=? n) && (n <=? 122))%nat then ascii_of_nat (n - 32)
  else if ((224 <=? n) && (n <=? 254) && negb (n =? 247))%nat then ascii_of_nat (n - 32)
  else c.

(** [s.upper()] *)
Fixpoint upper (s : string) : string :=
  match s with
  | EmptyString => EmptyString
  | String c s' => String (upper_char c) (upper s')
  end.

(** [c.isspace()]: tab, LF, VT, FF, CR, the four separators U+001C..U+001F,
    the blank, the next-line character U+0085 and the no-break space
    U+00A0. *)
Definition is_space (c : ascii) : bool :=
  let n := nat_of_ascii c in
  (((9 <=? n) && (n <=? 13)) || ((28 <=? n) && (n <=? 32))
   || (n =? 133) || (n =? 160))%nat.

Fixpoint lstrip (s : string) : string :=
  match s with
  | EmptyString => EmptyString
  | String c s' => if is_space c then lstrip s' else s
  end.

Fixpoint rstrip (s : string) : string :=
  match s with
  | EmptyString => EmptyString
  | String c s' =>
      match rstrip s' with
      | EmptyString => if is_space c then EmptyString else String c EmptyString
      | r => String c r
      end
  end.

(** [s.strip()] *)
Definition strip (s : string) : string := lstrip (rstrip s).

(** [x in [a, b, ...]] for strings. *)
Definition str_in (x : string) (l : list string) : bool :=
  existsb (String.eqb x) l.

(** [s.startswith(p)] *)
Definition startswith (s p : string) : bool := String.prefix p s.

(** [s.replace(old, "")] for a non-empty [old]: every occurrence found in a
    left-to-right scan is dropped.  [skip] counts the characters of the
    occurrence that are still to be dropped. *)
Fixpoint remove_all_from (old : string) (skip : nat) (s : string) : string :=
  match s with
  | EmptyString => EmptyString
  | String c s' =>
      match skip with
      | S k => remove_all_from old k s'
      | O =>
          if String.prefix old s
          then remove_all_from old (Nat.pred (String.length old)) s'
          else String c (remove_all_from old O s')
      end
  end.

Definition remove_all (old s : string) : string := remove_all_from old O s.

(** A string made of white space only ([s.split()] is then empty). *)
Fixpoint all_space (s : string) : bool :=
  match s with
  | EmptyString => true
  | String c s' => is_space c && all_space s'
  end.

(** Truthiness of a Python string. *)
Definition truthy (s : string) : bool :=
  match s with EmptyString => false | _ => true end.

(** Two strings that differ at most in the case of their letters. *)
Definition same_ignoring_case (a b : string) : Prop := upper a = upper b.

End PyStr.

Import PyStr.

(** ** Documents *)

(** A document of [db.users].  [None] is a field that is absent (or null). *)
Record User := mkUser {
  user_id : string;
  email : string;
  name : string;
  pseudonym : option string;
  role : string;
  age : option Z;
  sex : option string;
  city : option string;
  neighborhood : option string;
  notifications_enabled : option bool;
  email_notifications : option bool;
  status : option string;
  lastLoginAt : option Z
}.

(** The [conditions] dictionary of a walk. *)
Record WalkConditions := mkConditions {
  cond_sex : option (list string);
  cond_age_groups : option (list string);
  country_region : option string
}.

(** A document of [db.walks]. *)
Record Walk := mkWalk {
  walk_id : string;
  title : string;
  date : string;
  time : string;
  walk_city : string;
  walk_neighborhood : string;
  starting_point : string;
  max_participants : Z;
  conditions : option WalkConditions;
  organizer_id : string;
  organizer_name : string
}.

(** A document of [db.bookings]. *)
Record Booking := mkBooking {
  booking_id : string;
  b_walk_id : string;
  b_user_id : string;
  b_user_name : string;
  b_user_email : string;
  booked_at : Z;
  b_status : string
}.

(** A document of [db.push_tokens]. *)
Record PushTokenDoc := mkPushToken {
  pt_user_id : string;
  push_token : string;
  active : bool
}.

(** A document of [db.reminders_sent]. *)
Record ReminderSent := mkReminderSent {
  key : string;
  rs_walk_id : string;
  rs_sent_at : Z
}.

(** A document of [db.retention_notifications]; the message text stored
    with it is never read back. *)
Record RetentionNotification := mkRetention {
  rn_user_id : string;
  rn_sent_at : Z
}.

(** A document of [db.user_sessions]. *)
Record Session := mkSession {
  session_token : string;
  s_user_id : string;
  expires_at : Z
}.

Record DB := mkDB {
  users : list User;
  walks : list Walk;
  bookings : list Booking;
  push_tokens : list PushTokenDoc;
  reminders_sent : list ReminderSent;
  retention_notifications : list RetentionNotification;
  user_sessions : list Session
}.

(** What a job does to the outside world. *)
Inductive Event :=
| PushToUsers (kind : string) (about_walk : string)
              (user_ids : list string) (device_tokens : list string)
    (** a call [send_push_to_users(user_ids, ...)] and the Expo tokens the
        message is published to *)
| EmailCall (to : string) (subject : string) (sent : bool)
    (** a call [send_email_notification(to, subject, ...)] and its result *)
| RetentionPush (uid : string) (token : string).
    (** a retention message accepted by the push service *)

(** The filter [{"walk_id": wid, "status": "active"}] on bookings. *)
Definition is_active_on (wid : string) (b : Booking) : bool :=
  (b_walk_id b =? wid)%string && (b_status b =? "active")%string.

(** [cursor.to_list(n)] *)
Definition to_list {A : Type} (n : Z) (cursor : list A) : list A :=
  firstn (Z.to_nat n) cursor.

(** [collection.find_one(q)] *)
Definition find_one {A : Type} (q : A -> bool) (collection : list A) : option A :=
  find q collection.

(** ** Push delivery *)

Definition send_push_notification (tokens : list string) : list string :=
  match tokens with
  | [] => []
  | _ => filter (fun t => truthy t && startswith t "ExponentPushToken[") tokens
  end.

Definition send_push_to_users (d : DB) (kind about : string) (uids : list string)
  : Event :=
  let tokens :=
    to_list 1000
      (filter (fun t => str_in (pt_user_id t) uids && active t) (push_tokens d)) in
  PushToUsers kind about uids (send_push_notification (map push_token tokens)).

(** ** Notification helpers *)

Definition normalize_sex (sex_value : option string) : option string :=
  match sex_value with
  | None => None
  | Some s =>
      if negb (truthy s) then None
      else
        let sex_upper := strip (upper s) in
        if str_in sex_upper ["M"; "MALE"] then Some "M"
        else if str_in sex_upper ["F"; "FEMALE"] then Some "F"
        else if str_in sex_upper ["X"; "PREFER NOT TO SAY"; "N/A"; "OTHER"]
        then Some "X"
        else Some s
  end.

Definition truthy_opt (o : option string) : bool :=
  match o with Some s => truthy s | None => false end.

Definition normalize_sex_list (sex_list : option (list string)) : list string :=
  match sex_list with
  | None => []
  | Some l =>
      flat_map (fun s => match normalize_sex (Some s) with
                         | Some n => if truthy n then [n] else []
                         | None => []
                         end) l
  end.

(** The SendGrid settings read from the environment. *)
Record MailConfig := mkMailConfig {
  SENDGRID_API_KEY : option string;
  SENDGRID_FROM_EMAIL : option string
}.

(** Both branches only write a [MOCK EMAIL] log line and return [False]. *)
Definition send_email_notification (cfg : MailConfig) (to subject : string) : bool :=
  if negb (truthy_opt (SENDGRID_API_KEY cfg)) || negb (truthy_opt (SENDGRID_FROM_EMAIL cfg))
  then false
  else false.

(** ** The targeting engine of [notify_previous_participants] *)

(** The spellings the user query accepts for the normalized walk
    requirements (the loop that extends [sex_match_values]). *)
Definition sex_match_values (walk_sex_normalized : list string) : list string :=
  flat_map (fun sex =>
              if (sex =? "M")%string then ["M"; "Male"]
              else if (sex =? "F")%string then ["F"; "Female"]
              else if (sex =? "X")%string then ["X"; "Prefer not to say"; "N/A"; "Other"]
              else [])
           walk_sex_normalized.

(** One turn of the [if / elif] chain over the age bands. *)
Definition age_group_holds (age_group : string) (user_age : Z) : bool :=
  if (age_group =? "18-24")%string && ((18 <=? user_age) && (user_age <=? 24)) then true
  else if (age_group =? "25-34")%string && ((25 <=? user_age) && (user_age <=? 34)) then true
  else if (age_group =? "35-44")%string && ((35 <=? user_age) && (user_age <=? 44)) then true
  else if (age_group =? "45-54")%string && ((45 <=? user_age) && (user_age <=? 54)) then true
  else if (age_group =? "55-64")%string && ((55 <=? user_age) && (user_age <=? 64)) then true
  else if (age_group =? "65-74")%string && ((65 <=? user_age) && (user_age <=? 74)) then true
  else if (age_group =? "75+")%string && (user_age >=? 75) then true
  else false.

(** The loop [for age_group in walk_age_groups] with its flag. *)
Definition age_match (walk_age_groups : list string) (user_age : Z) : bool :=
  fold_left (fun flag age_group =>
               if age_group_holds age_group user_age then true else flag)
            walk_age_groups false.

Definition walk_sex_list (walk : Walk) : option (list string) :=
  match conditions walk with Some c => cond_sex c | None => None end.

Definition walk_age_groups (walk : Walk) : list string :=
  match conditions walk with
  | Some c => match cond_age_groups c with Some l => l | None => [] end
  | None => []
  end.

(** [base_query]: notifications enabled, same city, not the organizer, and
    the sex filter when [sex_match_values] is not empty. *)
Definition base_query (walk : Walk) (u : User) : bool :=
  let values := sex_match_values (normalize_sex_list (walk_sex_list walk)) in
  match notifications_enabled u with Some true => true | _ => false end
  && match city u with Some c => (c =? walk_city walk)%string | None => false end
  && negb (user_id u =? organizer_id walk)%string
  && match values with
     | [] => true
     | _ => match sex u with Some s => str_in s values | None => false end
     end.

Definition potential_users (d : DB) (walk : Walk) : list User :=
  to_list 10000 (filter (base_query walk) (users d)).

(** The list [users] of the function: the potential users, filtered by age
    when the walk lists age groups. *)
Definition matched_users (d : DB) (walk : Walk) : list User :=
  match walk_age_groups walk with
  | [] => potential_users d walk
  | groups =>
      filter (fun u => match age u with
                       | None => false
                       | Some user_age => age_match groups user_age
                       end)
             (potential_users d walk)
  end.

(** [user.get("email_notifications", True)] *)
Definition wants_email (u : User) : bool :=
  match email_notifications u with Some b => b | None => true end.

Definition notify_previous_participants (cfg : MailConfig) (d : DB) (walk : Walk)
  : list Event :=
  match matched_users d walk with
  | [] => []
  | us =>
      let email_subject := "New Walk: " ++ title walk in
      send_push_to_users d "new_walk" (walk_id walk) (map user_id us)
      :: map (fun u => EmailCall (email u) email_subject
                         (send_email_notification cfg (email u) email_subject))
             (filter wants_email us)
  end.

(** The users a list of events addresses with a push of a given kind. *)
Definition pushed_user_ids (kind : string) (evs : list Event) : list string :=
  flat_map (fun e => match e with
                     | PushToUsers k _ uids _ => if (k =? kind)%string then uids else []
                     | _ => []
                     end) evs.

(** The addresses to which an e-mail really went out. *)
Definition emails_sent (evs : list Event) : list string :=
  flat_map (fun e => match e with
                     | EmailCall to _ true => [to]
                     | _ => []
                     end) evs.

(** The addresses for which [send_email_notification] was called. *)
Definition emails_attempted (evs : list Event) : list string :=
  flat_map (fun e => match e with
                     | EmailCall to _ _ => [to]
                     | _ => []
                     end) evs.

(** ** Age bands of the admin statistics ([get_admin_statistics]) *)

Definition stats_age_group (user_age : option Z) : string :=
  match user_age with
  | None => "Unknown"
  | Some a =>
      if a =? 0 then "Unknown"
      else if a <? 25 then "18-24"
      else if a <? 35 then "25-34"
      else if a <? 45 then "35-44"
      else if a <? 55 then "45-54"
      else if a <? 65 then "55-64"
      else if a <? 75 then "65-74"
      else "75+"
  end.

Definition age_bands : list string :=
  ["18-24"; "25-34"; "35-44"; "45-54"; "55-64"; "65-74"; "75+"].

(** ** Dates: [datetime.now(timezone.utc)], [timedelta], [strftime] *)

Definition seconds_per_day : Z := 86400.

(** [timedelta(days=n)] in seconds. *)
Definition timedelta_days (n : Z) : Z := n * seconds_per_day.

(** The UTC calendar day of an instant, counted from 1970-01-01. *)
Definition utc_day (now : Z) : Z := now / seconds_per_day.

(** Year, month and day of a day number in the proleptic Gregorian
    calendar (the conversion [datetime] performs). *)
Definition civil_from_days (day_number : Z) : Z * Z * Z :=
  let z := day_number + 719468 in
  let era := z / 146097 in
  let doe := z - era * 146097 in
  let yoe := (doe - doe / 1460 + doe / 36524 - doe / 146096) / 365 in
  let doy := doe - (365 * yoe + yoe / 4 - yoe / 100) in
  let mp := (5 * doy + 2) / 153 in
  let d := doy - (153 * mp + 2) / 5 + 1 in
  let m := if mp <? 10 then mp + 3 else mp - 9 in
  let y := yoe + era * 400 + (if m <=? 2 then 1 else 0) in
  (y, m, d).

Definition digit (n : Z) : string :=
  String (ascii_of_nat (48 + Z.to_nat (n mod 10))) EmptyString.

Definition pad2 (n : Z) : string := digit (n / 10) ++ digit n.
Definition pad4 (n : Z) : string := pad2 (n / 100) ++ pad2 n.

(** ["%Y-%m-%d"] of a day number (years 0 to 9999). *)
Definition format_day (day_number : Z) : string :=
  let '(y, m, d) := civil_from_days day_number in
  pad4 y ++ "-" ++ pad2 m ++ "-" ++ pad2 d.

(** [t.strftime("%Y-%m-%d")] for a UTC instant. *)
Definition strftime_ymd (t : Z) : string := format_day (utc_day t).

(** ** The 24-hour reminder job *)

Definition active_bookings_of (d : DB) (wid : string) : list Booking :=
  to_list 1000 (filter (is_active_on wid) (bookings d)).

(** [list(set(...))]: every element once. *)
Definition unique (l : list string) : list string := nodup string_dec l.

Definition send_walk_reminder (cfg : MailConfig) (d : DB) (wid : string) : list Event :=
  match find_one (fun w => (walk_id w =? wid)%string) (walks d) with
  | None => []
  | Some walk =>
      match active_bookings_of d wid with
      | [] => []
      | bs =>
          let uids := unique (map b_user_id bs) in
          let us :=
            to_list 1000
              (filter (fun u => str_in (user_id u) uids
                                && match notifications_enabled u with
                                   | Some true => true
                                   | _ => false
                                   end)
                      (users d)) in
          let email_subject := "Reminder: " ++ title walk ++ " Tomorrow" in
          send_push_to_users d "walk_reminder" wid uids
          :: map (fun u => EmailCall (email u) email_subject
                             (send_email_notification cfg (email u) email_subject))
                 (filter wants_email us)
      end
  end.

Definition tomorrow_date (now : Z) : string :=
  strftime_ymd (now + timedelta_days 1).

Definition reminder_key (wid day : string) : string :=
  "reminder_sent_" ++ wid ++ "_" ++ day.

Definition has_reminder (d : DB) (k : string) : bool :=
  match find_one (fun r => (key r =? k)%string) (reminders_sent d) with
  | Some _ => true
  | None => false
  end.

Definition insert_reminder (d : DB) (r : ReminderSent) : DB :=
  mkDB (users d) (walks d) (bookings d) (push_tokens d)
       (reminders_sent d ++ [r]) (retention_notifications d) (user_sessions d).

(** The walks the job looks at. *)
Definition walks_tomorrow (now : Z) (d : DB) : list Walk :=
  to_list 1000 (filter (fun w => (date w =? tomorrow_date now)%string) (walks d)).

(** The body of [for walk in walks]: skip a walk that has its record,
    otherwise send the reminder and insert the record. *)
Definition reminder_step (cfg : MailConfig) (now : Z)
           (st : DB * list Event) (walk : Walk) : DB * list Event :=
  let '(d, evs) := st in
  let k := reminder_key (walk_id walk) (tomorrow_date now) in
  if has_reminder d k then (d, evs)
  else
    (insert_reminder d (mkReminderSent k (walk_id walk) now),
     (evs ++ send_walk_reminder cfg d (walk_id walk))%list).

Definition check_and_send_24h_reminders (cfg : MailConfig) (now : Z) (d : DB)
  : DB * list Event :=
  fold_left (reminder_step cfg now) (walks_tomorrow now d) (d, []).

(** ** The retention job *)

(** What [push_client.publish] does with a message: it returns a ticket, or
    raises [DeviceNotRegisteredError], or raises [PushServerError]. *)
Inductive PublishOutcome := Accepted | DeviceNotRegistered | ServerError.

(** [db.push_tokens.delete_one({"user_id": uid})] *)
Fixpoint delete_one_token (uid : string) (l : list PushTokenDoc) : list PushTokenDoc :=
  match l with
  | [] => []
  | t :: l' => if (pt_user_id t =? uid)%string then l' else t :: delete_one_token uid l'
  end.

Definition recent_retention (now : Z) (d : DB) (uid : string) : option RetentionNotification :=
  find_one (fun r => (rn_user_id r =? uid)%string
                     && (rn_sent_at r >=? now - timedelta_days 3))
           (retention_notifications d).

(** [user.get("name", "").split()[0] if user.get("name") else None] raises
    [IndexError] for a name made of white space only. *)
Definition first_name_raises (u : User) : bool :=
  truthy (name u) && all_space (name u).

Definition insert_retention (d : DB) (r : RetentionNotification) : DB :=
  mkDB (users d) (walks d) (bookings d) (push_tokens d)
       (reminders_sent d) (retention_notifications d ++ [r]) (user_sessions d).

Definition remove_token (d : DB) (uid : string) : DB :=
  mkDB (users d) (walks d) (bookings d) (delete_one_token uid (push_tokens d))
       (reminders_sent d) (retention_notifications d) (user_sessions d).

(** [send_retention_notification]: the new database, the events and the
    boolean the function returns.  [publish] stands for the push service. *)
Definition send_retention_notification
           (publish : string -> PublishOutcome) (now : Z) (d : DB) (u : User)
  : DB * list Event * bool :=
  let uid := user_id u in
  match find_one (fun t => (pt_user_id t =? uid)%string) (push_tokens d) with
  | None => (d, [], false)
  | Some push_token_doc =>
      if negb (truthy (push_token push_token_doc)) then (d, [], false)
      else
        match recent_retention now d uid with
        | Some _ => (d, [], false)
        | None =>
            if first_name_raises u then (d, [], false)
            else
              match publish (push_token push_token_doc) with
              | Accepted =>
                  (insert_retention d (mkRetention uid now),
                   [RetentionPush uid (push_token push_token_doc)], true)
              | DeviceNotRegistered => (remove_token d uid, [], false)
              | ServerError => (d, [], false)
              end
        end
  end.

(** The query of the job, cut at 100 documents. *)
Definition inactive_users (now : Z) (d : DB) : list User :=
  let three_days_ago := now - timedelta_days 3 in
  to_list 100
    (filter (fun u => match lastLoginAt u with
                      | Some t => t <? three_days_ago
                      | None => true
                      end
                      && match notifications_enabled u with
                         | Some false => false
                         | _ => true
                         end)
            (users d)).

Definition retention_step (publish : string -> PublishOutcome) (now : Z)
           (st : DB * list Event) (u : User) : DB * list Event :=
  let '(d, evs) := st in
  let '(d', evs', _) := send_retention_notification publish now d u in
  (d', (evs ++ evs')%list).

Definition check_and_send_retention_notifications
           (publish : string -> PublishOutcome) (now : Z) (d : DB)
  : DB * list Event :=
  fold_left (retention_step publish now) (inactive_users now d) (d, []).

(** Successive runs of the job, each at its own instant and with the push
    service of that moment; the log pairs every event with its run's
    instant, in the order of sending. *)
Definition retention_run (st : DB * list (Z * Event))
           (run : Z * (string -> PublishOutcome)) : DB * list (Z * Event) :=
  let '(d, log) := st in
  let '(now, publish) := run in
  let '(d', evs) := check_and_send_retention_notifications publish now d in
  (d', (log ++ map (pair now) evs)%list).

Definition retention_runs (runs : list (Z * (string -> PublishOutcome))) (d : DB)
  : DB * list (Z * Event) :=
  fold_left retention_run runs (d, []).



Definition retention_pushes_to (uid : string) (evs : list Event) : list Event :=
  filter (fun e => match e with
                   | RetentionPush u _ => (u =? uid)%string
                   | _ => false
                   end) evs.

(** ** Session authentication *)

(** The result of a request handler: a value, or a raised [HTTPException]. *)
Inductive Result (A : Type) :=
| Ok (a : A)
| HTTPException (status_code : Z) (detail : string).
Arguments Ok {A} a.
Arguments HTTPException {A} status_code detail.

(** What the dependencies read of a request. *)
Record Request := mkRequest {
  cookie_session_token : option string;
  authorization : option string
}.

Definition get_session_token (request : Request) : option string :=
  if truthy_opt (cookie_session_token request) then cookie_session_token request
  else
    match authorization request with
    | Some auth_header =>
        if truthy auth_header && startswith auth_header "Bearer "
        then Some (remove_all "Bearer " auth_header)
        else None
    | None => None
    end.

Definition get_current_user (request : Request) (now : Z) (d : DB) : Result User :=
  match get_session_token request with
  | None => HTTPException 401 "Not authenticated"
  | Some token =>
      if negb (truthy token) then HTTPException 401 "Not authenticated"
      else
        match find_one (fun s => (session_token s =? token)%string) (user_sessions d) with
        | None => HTTPException 401 "Invalid session"
        | Some session =>
            if expires_at session <? now then HTTPException 401 "Session expired"
            else
              match find_one (fun u => (user_id u =? s_user_id session)%string) (users d) with
              | None => HTTPException 404 "User not found"
              | Some user_doc =>
                  let user_status :=
                    match status user_doc with Some s => s | None => "active" end in
                  if (user_status =? "blocked")%string
                  then HTTPException 403
                         "Your account has been blocked. Please contact support."
                  else if (user_status =? "suspended")%string
                  then HTTPException 403
                         "Your account has been temporarily suspended. Please contact support."
                  else Ok user_doc
              end
        end
  end.

(** An operation declared with [Depends(get_current_user)]: the handler
    runs only on the user the dependency returns. *)
Definition with_current_user {A : Type} (request : Request) (now : Z) (d : DB)
           (handler : User -> Result A * DB) : Result A * DB :=
  match get_current_user request now d with
  | Ok current_user => handler current_user
  | HTTPException code detail => (HTTPException code detail, d)
  end.

(** ** Booking endpoints *)

Definition HARD_LIMIT : Z := 10.

(** [db.bookings.count_documents({"walk_id": wid, "status": "active"})] *)
Definition current_participants (d : DB) (wid : string) : Z :=
  Z.of_nat (length (filter (is_active_on wid) (bookings d))).

Definition insert_booking (d : DB) (b : Booking) : DB :=
  mkDB (users d) (walks d) (bookings d ++ [b]) (push_tokens d)
       (reminders_sent d) (retention_notifications d) (user_sessions d).

Definition display_name (u : User) : string :=
  if truthy_opt (pseudonym u)
  then match pseudonym u with Some p => p | None => name u end
  else name u.

(** The handler of [POST /bookings], its awaited operations following one
    another with no operation of another request in between (for the
    operations one by one see [booking_step]); [uuid_hex] is the identifier
    drawn by [uuid.uuid4().hex[:12]]. *)
Definition create_booking (wid : string) (now : Z) (uuid_hex : string) (d : DB)
           (current_user : User) : Result Booking * DB :=
  match find_one (fun w => (walk_id w =? wid)%string) (walks d) with
  | None => (HTTPException 404 "Walk not found", d)
  | Some walk =>
      if current_participants d wid >=? HARD_LIMIT
      then (HTTPException 400
              "This walk has reached the maximum limit of 10 participants", d)
      else
        match find_one (fun b => (b_walk_id b =? wid)%string
                                 && (b_user_id b =? user_id current_user)%string
                                 && (b_status b =? "active")%string)
                       (bookings d) with
        | Some _ => (HTTPException 400 "Already booked this walk", d)
        | None =>
            let booking :=
              mkBooking ("booking_" ++ uuid_hex) wid (user_id current_user)
                        (display_name current_user) (email current_user) now "active" in
            (Ok booking, insert_booking d booking)
        end
  end.

(** [update_one(q, {"$set": {"status": "cancelled"}})]: the first match is
    updated; the boolean is [matched_count > 0]. *)
Fixpoint cancel_first (q : Booking -> bool) (l : list Booking) : list Booking * bool :=
  match l with
  | [] => ([], false)
  | b :: l' =>
      if q b
      then (mkBooking (booking_id b) (b_walk_id b) (b_user_id b) (b_user_name b)
                      (b_user_email b) (booked_at b) "cancelled" :: l', true)
      else let '(r, m) := cancel_first q l' in (b :: r, m)
  end.

(** The handler of [DELETE /bookings/{booking_id}]. *)
Definition cancel_booking (bid : string) (d : DB) (current_user : User)
  : Result string * DB :=
  let '(bs, matched) :=
    cancel_first (fun b => (booking_id b =? bid)%string
                           && (b_user_id b =? user_id current_user)%string)
                 (bookings d) in
  if matched
  then (Ok "Booking cancelled successfully",
        mkDB (users d) (walks d) bs (push_tokens d)
             (reminders_sent d) (retention_notifications d) (user_sessions d))
  else (HTTPException 404 "Booking not found", d).

(** *** The booking handlers between their awaits

    The handlers are coroutines: each database operation is awaited, and
    while one request waits the event loop runs the operations of others.
    No transaction spans the operations of [create_booking], and the only
    unique index of [db.bookings] is the one on [booking_id].  A task is a
    request, with the user [get_current_user] has returned for it, at the
    operation it awaits next; what the handler does between two awaits
    belongs to the step of the operation before. *)
Inductive BookingTask :=
| AwaitWalk (wid : string) (now : Z) (uuid_hex : string) (current_user : User)
| AwaitCount (wid : string) (now : Z) (uuid_hex : string) (current_user : User)
| AwaitExisting (wid : string) (now : Z) (uuid_hex : string) (current_user : User)
| AwaitInsert (wid : string) (now : Z) (uuid_hex : string) (current_user : User)
| AwaitCancel (bid : string) (current_user : User)
| Booked (result : Result Booking)
| CancelDone (result : Result string).

(** One awaited operation of a task, on the database of that moment. *)
Definition booking_step (d : DB) (t : BookingTask) : DB * BookingTask :=
  match t with
  | AwaitWalk wid now uuid_hex current_user =>
      match find_one (fun w => (walk_id w =? wid)%string) (walks d) with
      | None => (d, Booked (HTTPException 404 "Walk not found"))
      | Some _ => (d, AwaitCount wid now uuid_hex current_user)
      end
  | AwaitCount wid now uuid_hex current_user =>
      if current_participants d wid >=? HARD_LIMIT
      then (d, Booked (HTTPException 400
                         "This walk has reached the maximum limit of 10 participants"))
      else (d, AwaitExisting wid now uuid_hex current_user)
  | AwaitExisting wid now uuid_hex current_user =>
      match find_one (fun b => (b_walk_id b =? wid)%string
                               && (b_user_id b =? user_id current_user)%string
                               && (b_status b =? "active")%string)
                     (bookings d) with
      | Some _ => (d, Booked (HTTPException 400 "Already booked this walk"))
      | None => (d, AwaitInsert wid now uuid_hex current_user)
      end
  | AwaitInsert wid now uuid_hex current_user =>
      let booking :=
        mkBooking ("booking_" ++ uuid_hex) wid (user_id current_user)
                  (display_name current_user) (email current_user) now "active" in
      (insert_booking d booking, Booked (Ok booking))
  | AwaitCancel bid current_user =>
      (snd (cancel_booking bid d current_user),
       CancelDone (fst (cancel_booking bid d current_user)))
  | Booked result => (d, Booked result)
  | CancelDone result => (d, CancelDone result)
  end.

(** A request as it reaches its handler. *)
Definition arrives (t : BookingTask) : bool :=
  match t with
  | AwaitWalk _ _ _ _ | AwaitCancel _ _ => true
  | _ => false
  end.

Fixpoint set_nth {A : Type} (i : nat) (x : A) (l : list A) : list A :=
  match l, i with
  | [], _ => []
  | _ :: l', O => x :: l'
  | y :: l', S j => y :: set_nth j x l'
  end.

(** The event loop: [schedule] names, one after the other, the task whose
    awaited operation runs next. *)
Definition run_bookings (schedule : list nat) (d : DB) (tasks : list BookingTask)
  : DB * list BookingTask :=
  fold_left (fun st i =>
               match nth_error (snd st) i with
               | Some t =>
                   (fst (booking_step (fst st) t),
                    set_nth i (snd (booking_step (fst st) t)) (snd st))
               | None => st
               end)
            schedule (d, tasks).

(** A handler whose operations follow one another with no operation of
    another request in between ([create_booking] has four). *)
Definition booking_alone (d : DB) (t : BookingTask) : DB * BookingTask :=
  let st1 := booking_step d t in
  let st2 := booking_step (fst st1) (snd st1) in
  let st3 := booking_step (fst st2) (snd st2) in
  booking_step (fst st3) (snd st3).

(** Requests handled one at a time. *)
Definition bookings_one_at_a_time (d : DB) (tasks : list BookingTask) : DB :=
  fold_left (fun d t => fst (booking_alone d t)) tasks d.

(** ** The wording of the specification, for comparison with the code *)

(** [s] is [word] in some letter case, with white space around it. *)
Definition spelled_as (s word : string) : Prop :=
  exists pre w post,
    all_space pre = true /\ all_space post = true /\
    same_ignoring_case w word /\ s = pre ++ w ++ post.

Definition spelled_as_one_of (s : string) (names : list string) : Prop :=
  exists word, In word names /\ spelled_as s word.

Definition male_names : list string := ["M"; "Male"].
Definition female_names : list string := ["F"; "Female"].
Definition other_names : list string := ["X"; "Prefer not to say"; "N/A"; "Other"].

(** "whose sex matches one of the walk's sex conditions after normalization
    (when the walk lists sex conditions)": both sides are normalized, as
    [get_walks] does for the walks it shows to a user. *)
Definition spec_sex_ok (walk : Walk) (u : User) : bool :=
  match walk_sex_list walk with
  | None | Some [] => true
  | Some l =>
      match normalize_sex (sex u) with
      | Some n => str_in n (normalize_sex_list (Some l))
      | None => false
      end
  end.

(** "when the walk lists age_groups, whose age is set and falls inside at
    least one of the listed bands" *)
Definition spec_age_ok (walk : Walk) (u : User) : bool :=
  match walk_age_groups walk with
  | [] => true
  | groups =>
      match age u with
      | Some a => existsb (fun g => age_group_holds g a) groups
      | None => false
      end
  end.

(** The users the specification says are alerted about a new walk. *)
Definition spec_alerted (walk : Walk) (u : User) : bool :=
  match notifications_enabled u with Some true => true | _ => false end
  && match city u with Some c => (c =? walk_city walk)%string | None => false end
  && negb (user_id u =? organizer_id walk)%string
  && spec_sex_ok walk u
  && spec_age_ok walk u.

(** The spellings of a stored sex value that the user query accepts for a
    normalized requirement. *)
Definition stored_spellings (normalized : string) : list string :=
  if (normalized =? "M")%string then male_names
  else if (normalized =? "F")%string then female_names
  else if (normalized =? "X")%string then other_names
  else [].

(** ** Updating the informational neighborhood fields *)

Definition set_user_neighborhood (n : option string) (u : User) : User :=
  mkUser (user_id u) (email u) (name u) (pseudonym u) (role u) (age u) (sex u)
         (city u) n (notifications_enabled u) (email_notifications u)
         (status u) (lastLoginAt u).

Definition set_walk_neighborhood (n : string) (w : Walk) : Walk :=
  mkWalk (walk_id w) (title w) (date w) (time w) (walk_city w) n
         (starting_point w) (max_participants w) (conditions w)
         (organizer_id w) (organizer_name w).

Definition set_users (d : DB) (us : list User) : DB :=
  mkDB us (walks d) (bookings d) (push_tokens d)
       (reminders_sent d) (retention_notifications d) (user_sessions d).

(** ** Sample data *)

Definition sample_user (uid : string) (sx : option string) (c : string)
           (a : option Z) (st : option string) : User :=
  mkUser uid (uid ++ "@example.org") uid None "user" a sx (Some c) None
         (Some true) None st None.

Definition alice : User := sample_user "alice" (Some "F") "Paris" (Some 30) None.
Definition bob : User := sample_user "bob" (Some "M") "Paris" (Some 40) None.
Definition carol : User := sample_user "carol" (Some "male") "Paris" (Some 28) None.
Definition erin : User := sample_user "erin" (Some "X") "Lyon" None (Some "suspended").

Definition sample_walk (wid day : string) (limit : Z) (c : option WalkConditions) : Walk :=
  mkWalk wid ("Walk " ++ wid) day "10:00" "Paris" "Montmartre" "Metro" limit c
         "alice" "alice".

Definition auth_db : DB :=
  mkDB [alice; bob; erin] [] [] [] [] []
       [mkSession "tok_alice" "alice" 2000;
        mkSession "tok_bob" "bob" 500;
        mkSession "tok_erin" "erin" 2000].

Definition cookie (t : string) : Request := mkRequest (Some t) None.
Definition bearer (t : string) : Request := mkRequest None (Some ("Bearer " ++ t)).

Definition sample_booking (wid uid : string) : Booking :=
  mkBooking ("booking_" ++ uid) wid uid uid (uid ++ "@example.org") 0 "active".

(** A walk that allows 50 participants and has nine active bookings. *)
Definition nine_db : DB :=
  mkDB [alice; bob] [sample_walk "w1" "2025-11-04" 50 None]
       (map (sample_booking "w1")
            ["u0"; "u1"; "u2"; "u3"; "u4"; "u5"; "u6"; "u7"; "u8"])
       [] [] [] [].

(** A walk that allows 50 participants and has ten active bookings. *)
Definition full_db : DB :=
  mkDB [alice; bob] [sample_walk "w1" "2025-11-04" 50 None]
       (map (sample_booking "w1")
            ["u0"; "u1"; "u2"; "u3"; "u4"; "u5"; "u6"; "u7"; "u8"; "u9"])
       [] [] [] [mkSession "tok_bob" "bob" 2000].

(** ** The selection of [notify_previous_participants], condition by condition *)

Definition accepted_sex_values (walk : Walk) : list string :=
  sex_match_values (normalize_sex_list (walk_sex_list walk)).

(** What [base_query] asks of a user document. *)
Definition base_conditions (walk : Walk) (u : User) : Prop :=
  notifications_enabled u = Some true /\
  city u = Some (walk_city walk) /\
  user_id u <> organizer_id walk /\
  (accepted_sex_values walk <> [] ->
   exists s, sex u = Some s /\ In s (accepted_sex_values walk)).

(** What the age loop asks of a user when the walk lists age groups. *)
Definition age_condition (walk : Walk) (u : User) : Prop :=
  walk_age_groups walk <> [] ->
  exists a g, age u = Some a /\ In g (walk_age_groups walk) /\ age_group_holds g a = true.

Definition men_walk : Walk :=
  sample_walk "w9" "2025-11-04" 10 (Some (mkConditions (Some ["M"]) None None)).

Definition adults_walk : Walk :=
  sample_walk "w8" "2025-11-04" 10
              (Some (mkConditions (Some ["Female"; "m"]) (Some ["25-34"; "35-44"]) None)).

Definition targeting_db : DB :=
  mkDB [alice; bob; carol; erin] [] [] [mkPushToken "bob" "ExponentPushToken[b1]" true]
       [] [] [].

Definition mail_configured : MailConfig :=
  mkMailConfig (Some "SG.key") (Some "walks@example.org").

Definition nonbinary_walk : Walk :=
  sample_walk "w7" "2025-11-04" 10 (Some (mkConditions (Some ["Nonbinary"]) None None)).

(** ** The outcome of a run of the reminder job *)

(** The record the job inserts for a walk. *)
Definition reminder_record (now : Z) (wid : string) : ReminderSent :=
  mkReminderSent (reminder_key wid (tomorrow_date now)) wid now.

(** What a run over the walks [ws] does, starting from [d]: the walks [ids]
    are reminded, in this order. *)
Definition reminder_outcome (cfg : MailConfig) (now : Z) (ws : list Walk)
           (d d' : DB) (evs : list Event) (ids : list string) : Prop :=
  d' = mkDB (users d) (walks d) (bookings d) (push_tokens d)
            (reminders_sent d ++ map (reminder_record now) ids)
            (retention_notifications d) (user_sessions d) /\
  evs = flat_map (send_walk_reminder cfg d) ids /\
  NoDup ids /\
  forall id, In id ids <->
             (exists w, In w ws /\ walk_id w = id) /\
             has_reminder d (reminder_key id (tomorrow_date now)) = false.

(** 2025-11-03 09:00 UTC. *)
Definition nov3_morning : Z := 1762160400.

(** Two walks on 2025-11-04, one of them with two active and one cancelled
    booking, and a walk on another day. *)
Definition reminder_db : DB :=
  mkDB [alice; bob; carol]
       [sample_walk "w1" "2025-11-04" 10 None;
        sample_walk "w2" "2025-11-05" 10 None;
        sample_walk "w3" "2025-11-04" 10 None]
       [sample_booking "w1" "bob"; sample_booking "w1" "carol";
        mkBooking "booking_x" "w1" "alice" "alice" "alice@example.org" 0 "cancelled";
        sample_booking "w2" "bob"]
       [mkPushToken "bob" "ExponentPushToken[b1]" true;
        mkPushToken "carol" "ExponentPushToken[c1]" false]
       [] [] [].

(** An identifier with a six-digit number. *)
Definition numbered (prefix : string) (i : Z) : string :=
  prefix ++ pad4 (i / 100) ++ pad2 i.

(** The integers [start], [start + 1], ..., [len] of them. *)
Fixpoint count_from (start : Z) (len : nat) : list Z :=
  match len with
  | O => []
  | S n => start :: count_from (start + 1) n
  end.

(** 1001 walks on 2025-11-04; Bob has booked the last one. *)
Definition crowded_db : DB :=
  mkDB [alice; bob]
       (map (fun i => sample_walk (numbered "walk_" i) "2025-11-04" 10 None)
            (count_from 0 1001))
       [sample_booking "walk_001000" "bob"]
       [mkPushToken "bob" "ExponentPushToken[b1]" true]
       [] [] [].

(** One walk on 2025-11-04 with 1001 active bookings. *)
Definition busy_db : DB :=
  mkDB [alice; bob]
       [sample_walk "w5" "2025-11-04" 10 None]
       (map (fun i => sample_booking "w5" (numbered "user_" i)) (count_from 0 1001))
       [] [] [] [].

(** A walk without conditions, and a city with 10001 users to tell of it. *)
Definition open_walk : Walk := sample_walk "w6" "2025-11-04" 10 None.

Definition populous_db : DB :=
  mkDB (map (fun i => sample_user (numbered "user_" i) (Some "F") "Paris" (Some 30) None)
            (count_from 0 10001))
       [] [] [] [] [] [].

(** Dan last logged in on 2025-10-28 and has a push token; Eve never logged
    in and has none; Fay logged in an hour ago. *)
Definition dan : User :=
  mkUser "dan" "dan@example.org" "Dan Walker" None "user" None None None None
         None None None (Some 1761642000).
Definition eve : User :=
  mkUser "eve" "eve@example.org" "Eve" None "user" None None None None
         (Some true) None None None.
Definition fay : User :=
  mkUser "fay" "fay@example.org" "Fay" None "user" None None None None
         (Some true) None None (Some 1762156800).

Definition retention_db : DB :=
  mkDB [dan; eve; fay] [] [] [mkPushToken "dan" "ExponentPushToken[d1]" true] [] [] [].

Definition always_accepted (token : string) : PublishOutcome := Accepted.

(* ================================================================== *)
(** * Part I, continued: more of [server.py]                            *)
(* ================================================================== *)

(** ** Badges *)

Definition BADGE_LEVELS : list Z := [10; 50; 100; 200; 500].

(** [for level in reversed(BADGE_LEVELS): if total_walks >= level: return level] *)
Definition get_badge_level (total_walks : Z) : Z :=
  match find (fun level => total_walks >=? level) (rev BADGE_LEVELS) with
  | Some level => level
  | None => 0
  end.

(** The flag [should_celebrate] of [get_badge_info], from the user's total
    and the [last_celebrated_badge] of the user document (0 when absent). *)
Definition should_celebrate (total_walks last_celebrated_badge : Z) : bool :=
  let current_badge_level := get_badge_level total_walks in
  (current_badge_level >? last_celebrated_badge) && (current_badge_level >? 0).

(** ** Sending a push message in chunks ([send_push_notification]) *)

(** What [push_client.publish_multiple(chunk)] does: it returns one response
    per message ([None]: success, [Some message]: failure), or raises
    [PushServerError], or raises something else. *)
Inductive PublishMultiple :=
| Responses (rs : list (option string))
| RaisesPushServerError (exc : string)
| RaisesOther (exc : string).

(** [range(0, stop, step)] *)
Definition range_step (stop step : nat) : list nat :=
  map (fun k => (k * step)%nat) (seq 0 ((stop + step - 1) / step)).

(** [messages[i:i + chunk_size] for i in range(0, len(messages), chunk_size)] *)
Definition chunks {A : Type} (chunk_size : nat) (messages : list A) : list (list A) :=
  map (fun i => firstn chunk_size (skipn i messages))
      (range_step (length messages) chunk_size).

(** The result dictionary of [send_push_notification], and the calls made
    to the push service. *)
Record PushReport := mkPushReport {
  sent : nat;
  failed : nat;
  errors : list string;
  calls : list (list string)
}.

Definition count_success (rs : list (option string)) : nat :=
  length (filter (fun r => match r with None => true | Some _ => false end) rs).

Definition failure_messages (rs : list (option string)) : list string :=
  flat_map (fun r => match r with None => [] | Some m => [m] end) rs.

(** The loop over the chunks.  [total] is [len(valid_tokens)], which the
    outer handler adds to [failed_count] when a call raises anything but
    [PushServerError]; the loop ends there. *)
Fixpoint publish_chunks (service : list string -> PublishMultiple) (total : nat)
         (todo : list (list string)) (acc : PushReport) : PushReport :=
  match todo with
  | [] => acc
  | chunk :: rest =>
      match service chunk with
      | Responses rs =>
          publish_chunks service total rest
            (mkPushReport (sent acc + count_success rs)
                          (failed acc + length (failure_messages rs))
                          (errors acc ++ failure_messages rs)
                          (calls acc ++ [chunk]))
      | RaisesPushServerError exc =>
          publish_chunks service total rest
            (mkPushReport (sent acc) (failed acc + length chunk)
                          (errors acc ++ [exc]) (calls acc ++ [chunk]))
      | RaisesOther exc =>
          mkPushReport (sent acc) (failed acc + total)
                       (errors acc ++ [exc]) (calls acc ++ [chunk])
      end
  end.

(** [send_push_notification] with its counters: no call when there is no
    token or no valid token. *)
Definition send_push_notification_report (service : list string -> PublishMultiple)
           (tokens : list string) : PushReport :=
  let valid_tokens := send_push_notification tokens in
  publish_chunks service (length valid_tokens) (chunks 100 valid_tokens)
                 (mkPushReport 0 0 [] []).

(** [send_push_to_user]: the tokens a message to one user is published to. *)
Definition send_push_to_user (d : DB) (uid : string) : list string :=
  let tokens :=
    to_list 10 (filter (fun t => (pt_user_id t =? uid)%string && active t) (push_tokens d)) in
  send_push_notification (map push_token tokens).

(** The service answers every message, or refuses the call. *)
Definition answers_every_message (service : list string -> PublishMultiple) : Prop :=
  forall chunk,
    match service chunk with
    | Responses rs => length rs = length chunk
    | RaisesPushServerError _ => True
    | RaisesOther _ => False
    end.

(** A push service that accepts every message. *)
Definition accepting_service (chunk : list string) : PublishMultiple :=
  Responses (map (fun _ => None) chunk).

(** ** Registering and unregistering push tokens *)

(** The filter [{"user_id": uid, "push_token": token}] on push tokens. *)
Definition same_user_token (uid token : string) (t : PushTokenDoc) : bool :=
  (pt_user_id t =? uid)%string && (push_token t =? token)%string.

(** [update_one({"user_id": uid, "push_token": token}, {"$set": {"active": a}})]:
    the first matching document is updated; the boolean tells whether one
    matched. *)
Fixpoint set_active_first (uid token : string) (a : bool) (l : list PushTokenDoc)
  : list PushTokenDoc * bool :=
  match l with
  | [] => ([], false)
  | t :: l' =>
      if same_user_token uid token t
      then (mkPushToken uid token a :: l', true)
      else let '(r, m) := set_active_first uid token a l' in (t :: r, m)
  end.

Definition set_push_tokens (d : DB) (l : list PushTokenDoc) : DB :=
  mkDB (users d) (walks d) (bookings d) l
       (reminders_sent d) (retention_notifications d) (user_sessions d).

(** The handler of [POST /push/register]: the upsert sets [active] on the
    document of the user and token, or inserts it.  (The platform and the
    dates stored with it are never read.) *)
Definition register_push_token (token : string) (d : DB) (current_user : User)
  : Result string * DB :=
  if negb (truthy token) then (HTTPException 400 "Push token required", d)
  else if negb (startswith token "ExponentPushToken[")
  then (HTTPException 400 "Invalid Expo push token format", d)
  else
    let '(l, matched) :=
      set_active_first (user_id current_user) token true (push_tokens d) in
    (Ok "Push token registered",
     set_push_tokens d
       (if matched then l
        else (push_tokens d ++ [mkPushToken (user_id current_user) token true])%list)).

(** The handler of [DELETE /push/unregister]. *)
Definition unregister_push_token (token : string) (d : DB) (current_user : User)
  : Result string * DB :=
  (Ok "Push token unregistered",
   set_push_tokens d
     (fst (set_active_first (user_id current_user) token false (push_tokens d)))).

(** The device tokens of a push request. *)
Definition device_tokens_of (e : Event) : list string :=
  match e with
  | PushToUsers _ _ _ tokens => tokens
  | _ => []
  end.

(** The documents of a user and token. *)
Definition token_docs (uid token : string) (l : list PushTokenDoc) : list PushTokenDoc :=
  filter (same_user_token uid token) l.

(** ** Logging out *)

(** [db.user_sessions.delete_one({"session_token": token})] *)
Fixpoint delete_one_session (token : string) (l : list Session) : list Session :=
  match l with
  | [] => []
  | s :: l' =>
      if (session_token s =? token)%string then l' else s :: delete_one_session token l'
  end.

Definition set_user_sessions (d : DB) (l : list Session) : DB :=
  mkDB (users d) (walks d) (bookings d) (push_tokens d)
       (reminders_sent d) (retention_notifications d) l.

(** The handler of [POST /auth/logout]; it always answers "Logged out
    successfully". *)
Definition logout (request : Request) (d : DB) : DB :=
  match get_session_token request with
  | Some token =>
      if truthy token
      then set_user_sessions d (delete_one_session token (user_sessions d))
      else d
  | None => d
  end.

(** ** Administrators *)

(** [c.lower()] for one character (A..Z and, above U+007F, the letters
    U+00C0..U+00DE, all but the multiplication sign U+00D7, gain 32), and
    [s.lower()]. *)
Definition lower_char (c : ascii) : ascii :=
  let n := nat_of_ascii c in
  if ((65 <=? n) && (n <=? 90))%nat then ascii_of_nat (n + 32)
  else if ((192 <=? n) && (n <=? 222) && negb (n =? 215))%nat then ascii_of_nat (n + 32)
  else c.

Fixpoint lower (s : string) : string :=
  match s with
  | EmptyString => EmptyString
  | String c s' => String (lower_char c) (lower s')
  end.

Definition ADMIN_EMAILS : list string :=
  ["abdelkaderbeldjoudi@gmail.com"; "abdelkaderbeldjoudi8@gmail.com"].

(** [user.email.lower() in [e.lower() for e in ADMIN_EMAILS]] *)
Definition is_admin (user : User) : bool :=
  str_in (lower (email user)) (map lower ADMIN_EMAILS).

(** The dependency [require_admin], on the result of [get_current_user]. *)
Definition require_admin (current_user : Result User) : Result User :=
  match current_user with
  | Ok u =>
      if negb (role u =? "admin")%string
      then HTTPException 403 "Admin access required"
      else Ok u
  | HTTPException code detail => HTTPException code detail
  end.

Definition with_status (st : string) (u : User) : User :=
  mkUser (user_id u) (email u) (name u) (pseudonym u) (role u) (age u) (sex u)
         (city u) (neighborhood u) (notifications_enabled u) (email_notifications u)
         (Some st) (lastLoginAt u).

Definition with_role (r : string) (u : User) : User :=
  mkUser (user_id u) (email u) (name u) (pseudonym u) r (age u) (sex u)
         (city u) (neighborhood u) (notifications_enabled u) (email_notifications u)
         (status u) (lastLoginAt u).

(** [update_one(q, {"$set": ...})] on users: the first match is updated. *)
Fixpoint update_first_user (q : User -> bool) (f : User -> User) (l : list User)
  : list User :=
  match l with
  | [] => []
  | u :: l' => if q u then f u :: l' else u :: update_first_user q f l'
  end.

(** A document of [db.moderation_log]. *)
Record ModerationEntry := mkModeration {
  action : string;
  target_user_id : string;
  target_user_email : string;
  new_status : string;
  reason : option string;
  admin_id : string;
  admin_email : string;
  m_created_at : Z
}.

(** The handler of [PUT /admin/users/{user_id}/status].  (The fields
    [status_updated_at], [status_updated_by] and [status_reason] that are set
    with the status are never read.) *)
Definition update_user_status (target : string) (st : string) (why : option string)
           (now : Z) (d : DB) (log : list ModerationEntry) (current_user : User)
  : Result string * (DB * list ModerationEntry) :=
  if negb (is_admin current_user)
  then (HTTPException 403 "Admin access required", (d, log))
  else if negb (str_in st ["active"; "suspended"; "blocked"])
  then (HTTPException 400
          "Invalid status. Must be one of: ['active', 'suspended', 'blocked']", (d, log))
  else if (target =? user_id current_user)%string
  then (HTTPException 400 "Cannot change your own status", (d, log))
  else
    match find_one (fun u => (user_id u =? target)%string) (users d) with
    | None => (HTTPException 404 "User not found", (d, log))
    | Some user =>
        (Ok ("User status updated to " ++ st),
         (set_users d (update_first_user (fun u => (user_id u =? target)%string)
                                         (with_status st) (users d)),
          (log ++ [mkModeration "user_status_change" target (email user) st why
                                (user_id current_user) (email current_user) now])%list))
    end.

(** The handler of [POST /auth/make-admin]: [modified_count] is 0 when no
    document has the e-mail, and when the first one already is an admin. *)
Definition make_admin (address : string) (d : DB) (current_user : User)
  : Result string * DB :=
  match find_one (fun u => (email u =? address)%string) (users d) with
  | None => (HTTPException 404 "User not found", d)
  | Some u =>
      if (role u =? "admin")%string then (HTTPException 404 "User not found", d)
      else
        (Ok ("User " ++ address ++ " is now an admin"),
         set_users d (update_first_user (fun u => (email u =? address)%string)
                                        (with_role "admin") (users d)))
  end.

(** ** Deleting a walk *)

(** [db.walks.delete_one({"walk_id": wid})] *)
Fixpoint delete_one_walk (wid : string) (l : list Walk) : list Walk :=
  match l with
  | [] => []
  | w :: l' => if (walk_id w =? wid)%string then l' else w :: delete_one_walk wid l'
  end.

(** The handler of [DELETE /walks/{walk_id}]: the walk goes, and with it
    every booking on it ([delete_many]). *)
Definition delete_walk (wid : string) (d : DB) (current_user : User)
  : Result string * DB :=
  match find_one (fun w => (walk_id w =? wid)%string) (walks d) with
  | None => (HTTPException 404 "Walk not found", d)
  | Some walk =>
      if negb (organizer_id walk =? user_id current_user)%string
         && negb (role current_user =? "admin")%string
      then (HTTPException 403 "Only the organizer or app admin can delete this walk", d)
      else
        (Ok "Walk deleted successfully",
         mkDB (users d) (delete_one_walk wid (walks d))
              (filter (fun b => negb (b_walk_id b =? wid)%string) (bookings d))
              (push_tokens d) (reminders_sent d) (retention_notifications d)
              (user_sessions d))
  end.

(** An administrator by e-mail address (in another case than the list has
    it), whose role is "user". *)
Definition root_admin : User :=
  mkUser "root" "AbdelkaderBeldjoudi@gmail.com" "Root" None "user" None None None None
         (Some true) None None None.

(** ** The condition filters of [get_walks] *)

(** The block of the loop of [get_walks] under
    [if not skip_condition_filters]: [false] where the code says
    [continue], [true] where the walk goes on to be listed. *)
Definition passes_condition_filters (current_user : User) (walk : Walk) : bool :=
  let sex_passes :=
    match conditions walk with
    | Some c =>
        match cond_sex c with
        | Some (_ :: _) =>
            let walk_sex_normalized := normalize_sex_list (cond_sex c) in
            let user_sex_normalized := normalize_sex (sex current_user) in
            match user_sex_normalized with
            | Some s => str_in s walk_sex_normalized
            | None => false
            end
        | _ => true
        end
    | None => true
    end in
  let age_passes :=
    match conditions walk with
    | Some c =>
        match cond_age_groups c with
        | Some (g :: gs) =>
            match age current_user with
            | None => false
            | Some user_age => age_match (g :: gs) user_age
            end
        | _ => true
        end
    | None => true
    end in
  if negb sex_passes then false
  else if negb age_passes then false
  else true.

(** ** Reviews *)

(** A document of [db.reviews]. *)
Record WalkReview := mkReview {
  review_id : string;
  rv_walk_id : string;
  rv_walk_title : string;
  rv_user_id : string;
  rv_user_name : string;
  rating : Z;
  comment : option string;
  rv_created_at : Z
}.

(** [user_pseudonym or current_user.name], the pseudonym being read from
    the stored user document. *)
Definition stored_display_name (d : DB) (current_user : User) : string :=
  let user_pseudonym :=
    match find_one (fun u => (user_id u =? user_id current_user)%string) (users d) with
    | Some user_doc => pseudonym user_doc
    | None => None
    end in
  match user_pseudonym with
  | Some p => if truthy p then p else name current_user
  | None => name current_user
  end.

(** The handler of [POST /reviews], its awaited operations following one
    another with no operation of another request in between (for the
    operations one by one see [review_step]). *)
Definition create_review (wid : string) (stars : Z) (text : option string)
           (now : Z) (uuid_hex : string) (d : DB) (reviews : list WalkReview)
           (current_user : User) : Result WalkReview * list WalkReview :=
  if (stars <? 1) || (stars >? 5)
  then (HTTPException 400 "Rating must be between 1 and 5", reviews)
  else
    match find_one (fun w => (walk_id w =? wid)%string) (walks d) with
    | None => (HTTPException 404 "Walk not found", reviews)
    | Some walk =>
        match find_one (fun b => (b_walk_id b =? wid)%string
                                 && (b_user_id b =? user_id current_user)%string)
                       (bookings d) with
        | None => (HTTPException 403 "You can only review walks you have booked", reviews)
        | Some _ =>
            match find_one (fun r => (rv_walk_id r =? wid)%string
                                     && (rv_user_id r =? user_id current_user)%string)
                           reviews with
            | Some _ => (HTTPException 400 "You have already reviewed this walk", reviews)
            | None =>
                let review :=
                  mkReview ("review_" ++ uuid_hex) wid (title walk)
                           (user_id current_user) (stored_display_name d current_user)
                           stars
                           (match text with
                            | Some c => if truthy c then Some (strip c) else None
                            | None => None
                            end)
                           now in
                (Ok review, (reviews ++ [review])%list)
            end
        end
    end.

(** *** [create_review] between its awaits

    The handler awaits five database operations, and the operations of
    other requests can run between them; [db.reviews] has no unique index
    on walk and user. *)

(** The body of a [POST /reviews] with the user found for the request, the
    instant and the identifier drawn. *)
Record ReviewRequest := mkReviewRequest {
  rq_user : User;
  rq_walk_id : string;
  rq_rating : Z;
  rq_comment : option string;
  rq_now : Z;
  rq_uuid_hex : string
}.

(** A request at the operation it awaits next, with the locals of the
    handler that are read later. *)
Inductive ReviewTask :=
| ReviewArrives (rq : ReviewRequest)
| AwaitBooking (rq : ReviewRequest) (walk : Walk)
| AwaitExistingReview (rq : ReviewRequest) (walk : Walk)
| AwaitPseudonym (rq : ReviewRequest) (walk : Walk)
| AwaitInsertReview (rq : ReviewRequest) (walk : Walk) (shown_name : string)
| Reviewed (result : Result WalkReview).

(** One awaited operation of a task, on the database and the reviews of
    that moment; the check of the rating comes before the first await. *)
Definition review_step (d : DB) (reviews : list WalkReview) (t : ReviewTask)
  : list WalkReview * ReviewTask :=
  match t with
  | ReviewArrives rq =>
      if (rq_rating rq <? 1) || (rq_rating rq >? 5)
      then (reviews, Reviewed (HTTPException 400 "Rating must be between 1 and 5"))
      else
        match find_one (fun w => (walk_id w =? rq_walk_id rq)%string) (walks d) with
        | None => (reviews, Reviewed (HTTPException 404 "Walk not found"))
        | Some walk => (reviews, AwaitBooking rq walk)
        end
  | AwaitBooking rq walk =>
      match find_one (fun b => (b_walk_id b =? rq_walk_id rq)%string
                               && (b_user_id b =? user_id (rq_user rq))%string)
                     (bookings d) with
      | None =>
          (reviews, Reviewed (HTTPException 403 "You can only review walks you have booked"))
      | Some _ => (reviews, AwaitExistingReview rq walk)
      end
  | AwaitExistingReview rq walk =>
      match find_one (fun r => (rv_walk_id r =? rq_walk_id rq)%string
                               && (rv_user_id r =? user_id (rq_user rq))%string)
                     reviews with
      | Some _ =>
          (reviews, Reviewed (HTTPException 400 "You have already reviewed this walk"))
      | None => (reviews, AwaitPseudonym rq walk)
      end
  | AwaitPseudonym rq walk =>
      (reviews, AwaitInsertReview rq walk (stored_display_name d (rq_user rq)))
  | AwaitInsertReview rq walk shown_name =>
      let review :=
        mkReview ("review_" ++ rq_uuid_hex rq) (rq_walk_id rq) (title walk)
                 (user_id (rq_user rq)) shown_name (rq_rating rq)
                 (match rq_comment rq with
                  | Some c => if truthy c then Some (strip c) else None
                  | None => None
                  end)
                 (rq_now rq) in
      ((reviews ++ [review])%list, Reviewed (Ok review))
  | Reviewed result => (reviews, Reviewed result)
  end.

(** The event loop: each entry of [schedule] names the task whose awaited
    operation runs next, and the walks, bookings and users of that moment
    (other endpoints change them). *)
Definition run_reviews (schedule : list (nat * DB)) (reviews : list WalkReview)
           (tasks : list ReviewTask) : list WalkReview * list ReviewTask :=
  fold_left (fun st turn =>
               match nth_error (snd st) (fst turn) with
               | Some t =>
                   (fst (review_step (snd turn) (fst st) t),
                    set_nth (fst turn) (snd (review_step (snd turn) (fst st) t)) (snd st))
               | None => st
               end)
            schedule (reviews, tasks).

(** A handler whose five operations follow one another on one database,
    with no operation of another request in between. *)
Definition review_alone (d : DB) (reviews : list WalkReview) (t : ReviewTask)
  : list WalkReview * ReviewTask :=
  let st1 := review_step d reviews t in
  let st2 := review_step d (fst st1) (snd st1) in
  let st3 := review_step d (fst st2) (snd st2) in
  let st4 := review_step d (fst st3) (snd st3) in
  review_step d (fst st4) (snd st4).

(** The rating a task in flight is going to store. *)
Definition task_rating_in_range (t : ReviewTask) : Prop :=
  match t with
  | ReviewArrives _ | Reviewed _ => True
  | AwaitBooking rq _ | AwaitExistingReview rq _ | AwaitPseudonym rq _
  | AwaitInsertReview rq _ _ => 1 <= rq_rating rq <= 5
  end.

(** The handler of [GET /walks/reviewable]. *)
Definition get_reviewable_walks (d : DB) (reviews : list WalkReview)
           (current_user : User) : list Walk :=
  let bookings :=
    to_list 1000 (filter (fun b => (b_user_id b =? user_id current_user)%string)
                         (bookings d)) in
  let booked_walk_ids := map b_walk_id bookings in
  match booked_walk_ids with
  | [] => []
  | _ =>
      let existing_reviews :=
        to_list 1000 (filter (fun r => (rv_user_id r =? user_id current_user)%string)
                             reviews) in
      let reviewed_walk_ids := map rv_walk_id existing_reviews in
      let reviewable_walk_ids :=
        filter (fun wid => negb (str_in wid reviewed_walk_ids)) booked_walk_ids in
      match reviewable_walk_ids with
      | [] => []
      | _ => to_list 100 (filter (fun w => str_in (walk_id w) reviewable_walk_ids)
                                 (walks d))
      end
  end.

(** Ratings from 1 to 5, and no two reviews of one walk by one user. *)
Definition reviews_well_formed (reviews : list WalkReview) : Prop :=
  (forall r, In r reviews -> 1 <= rating r <= 5) /\
  NoDup (map (fun r => (rv_walk_id r, rv_user_id r)) reviews).

(** The reviews a user has written. *)
Definition reviews_of (reviews : list WalkReview) (u : User) : list WalkReview :=
  filter (fun r => (rv_user_id r =? user_id u)%string) reviews.

(** ** Feedback *)

(** An element of the array [replies] of a feedback document. *)
Record FeedbackReply := mkReply {
  reply_id : string;
  fr_feedback_id : string;
  fr_from_user_id : string;
  fr_from_user_name : string;
  fr_message : string;
  fr_created_at : Z
}.

(** A document of [db.feedback]; a document without the key [replies] has
    the empty list here. *)
Record Feedback := mkFeedback {
  feedback_id : string;
  f_walk_id : string;
  f_walk_title : string;
  from_user_id : string;
  from_user_name : string;
  to_organizer_id : string;
  to_organizer_name : string;
  message : string;
  f_created_at : Z;
  replies : list FeedbackReply
}.

(** [len(s)] *)
Definition len (s : string) : Z := Z.of_nat (String.length s).

(** The handler of [POST /feedback]. *)
Definition create_feedback (wid : string) (text : string) (now : Z) (uuid_hex : string)
           (d : DB) (feedback : list Feedback) (current_user : User)
  : Result Feedback * list Feedback :=
  match find_one (fun w => (walk_id w =? wid)%string) (walks d) with
  | None => (HTTPException 404 "Walk not found", feedback)
  | Some walk =>
      if (organizer_id walk =? user_id current_user)%string
      then (HTTPException 400 "Cannot send feedback to yourself", feedback)
      else if negb (truthy text) || (len (strip text) <? 5)
      then (HTTPException 400 "Message must be at least 5 characters", feedback)
      else if len text >? 2000
      then (HTTPException 400 "Message must be less than 2000 characters", feedback)
      else
        let item :=
          mkFeedback ("feedback_" ++ uuid_hex) wid (title walk)
                     (user_id current_user) (stored_display_name d current_user)
                     (organizer_id walk) (organizer_name walk) (strip text) now [] in
        (Ok item, (feedback ++ [item])%list)
  end.

(** [update_one({"feedback_id": fid}, {"$push": {"replies": reply}})] *)
Fixpoint push_reply (fid : string) (reply : FeedbackReply) (l : list Feedback)
  : list Feedback :=
  match l with
  | [] => []
  | f :: l' =>
      if (feedback_id f =? fid)%string
      then mkFeedback (feedback_id f) (f_walk_id f) (f_walk_title f) (from_user_id f)
                      (from_user_name f) (to_organizer_id f) (to_organizer_name f)
                      (message f) (f_created_at f) (replies f ++ [reply]) :: l'
      else f :: push_reply fid reply l'
  end.

(** The handler of [POST /feedback/{feedback_id}/reply]. *)
Definition reply_to_feedback (fid : string) (text : string) (now : Z) (uuid_hex : string)
           (d : DB) (feedback : list Feedback) (current_user : User)
  : Result FeedbackReply * list Feedback :=
  match find_one (fun f => (feedback_id f =? fid)%string) feedback with
  | None => (HTTPException 404 "Feedback not found", feedback)
  | Some item =>
      if negb (user_id current_user =? to_organizer_id item)%string
         && negb (user_id current_user =? from_user_id item)%string
      then (HTTPException 403 "You can only reply to feedback you received or sent",
            feedback)
      else if negb (truthy text) || (len (strip text) <? 1)
      then (HTTPException 400 "Reply message cannot be empty", feedback)
      else if len text >? 1000
      then (HTTPException 400 "Reply message too long (max 1000 characters)", feedback)
      else
        let reply :=
          mkReply ("reply_" ++ uuid_hex) fid (user_id current_user)
                  (stored_display_name d current_user) (strip text) now in
        (Ok reply, push_reply fid reply feedback)
  end.

(** What holds of a stored feedback: nobody writes to himself, the message
    has 5 to 2000 characters, and each reply has 1 to 1000 characters and
    comes from the sender or from the organizer addressed. *)
Definition feedback_in_order (f : Feedback) : Prop :=
  from_user_id f <> to_organizer_id f /\
  5 <= len (message f) <= 2000 /\
  forall r, In r (replies f) ->
            (fr_from_user_id r = from_user_id f \/ fr_from_user_id r = to_organizer_id f) /\
            1 <= len (fr_message r) <= 1000.

(** A request to one of the two writing feedback endpoints, with the user
    [get_current_user] has found for it. *)
Inductive FeedbackRequest :=
| PostFeedback (current_user : User) (wid text : string) (now : Z) (uuid_hex : string)
| PostReply (current_user : User) (fid text : string) (now : Z) (uuid_hex : string).

Definition serve_feedback (d : DB) (feedback : list Feedback) (r : FeedbackRequest)
  : list Feedback :=
  match r with
  | PostFeedback current_user wid text now uuid_hex =>
      snd (create_feedback wid text now uuid_hex d feedback current_user)
  | PostReply current_user fid text now uuid_hex =>
      snd (reply_to_feedback fid text now uuid_hex d feedback current_user)
  end.

(** Requests served one after the other, each over the walks and users of
    its moment, starting from the stored feedback [feedback]. *)
Definition serve_feedback_requests (requests : list (DB * FeedbackRequest))
           (feedback : list Feedback) : list Feedback :=
  fold_left (fun fs dr => serve_feedback (fst dr) fs (snd dr)) requests feedback.

(** ** Bookings, once more *)

(** A booking after [{"$set": {"status": "cancelled"}}]. *)
Definition cancelled (b : Booking) : Booking :=
  mkBooking (booking_id b) (b_walk_id b) (b_user_id b) (b_user_name b)
            (b_user_email b) (booked_at b) "cancelled".

(** ** The manual trigger of the retention notifications *)

(** An element of [results["details"]]; [detail_last_login] is the instant
    that is shown with [str], [None] where the code writes "never". *)
Record RetentionDetail := mkDetail {
  detail_user : string;
  detail_status : string;
  detail_last_login : option Z
}.

Record RetentionResults := mkResults {
  total_inactive_users : Z;
  notifications_sent : Z;
  notifications_skipped : Z;
  details : list RetentionDetail
}.

Definition count_sent (results : RetentionResults) (entry : RetentionDetail)
  : RetentionResults :=
  mkResults (total_inactive_users results) (notifications_sent results + 1)
            (notifications_skipped results) (details results ++ [entry]).

Definition count_skipped (results : RetentionResults) (entry : RetentionDetail)
  : RetentionResults :=
  mkResults (total_inactive_users results) (notifications_sent results)
            (notifications_skipped results + 1) (details results ++ [entry]).

(** One turn of the loop [for user in inactive_users] of the endpoint. *)
Definition test_retention_step (publish : string -> PublishOutcome) (now : Z)
           (st : DB * list Event * RetentionResults) (user : User)
  : DB * list Event * RetentionResults :=
  let '(d, evs, results) := st in
  let user_name := name user in
  let last_login := lastLoginAt user in
  let has_token :=
    match find_one (fun t => (pt_user_id t =? user_id user)%string) (push_tokens d) with
    | Some push_token_doc => truthy (push_token push_token_doc)
    | None => false
    end in
  if has_token
  then
    let '(d', evs', success) := send_retention_notification publish now d user in
    if success
    then (d', (evs ++ evs')%list,
          count_sent results (mkDetail user_name "sent" last_login))
    else (d', (evs ++ evs')%list,
          count_skipped results
                        (mkDetail user_name "skipped (already sent recently)" last_login))
  else (d, evs,
        count_skipped results (mkDetail user_name "skipped (no push token)" last_login)).

(** The handler of [POST /admin/test-retention-notifications]. *)
Definition test_retention_notifications (publish : string -> PublishOutcome) (now : Z)
           (d : DB) (current_user : User)
  : Result RetentionResults * (DB * list Event) :=
  if negb (is_admin current_user)
  then (HTTPException 403 "Admin access required", (d, []))
  else
    let inactive := inactive_users now d in
    let results := mkResults (Z.of_nat (length inactive)) 0 0 [] in
    let '(d', evs, results') :=
      fold_left (test_retention_step publish now) inactive (d, [], results) in
    (Ok results', (d', evs)).

(** ** Retention statistics *)

Record RetentionStats := mkStats {
  total_users : Z;
  users_with_login_tracking : Z;
  active_users_3_days : Z;
  inactive_users_3_days : Z;
  users_with_push_tokens : Z;
  total_retention_notifications_sent : Z;
  notifications_sent_last_7_days : Z
}.

(** [count_documents(q)] *)
Definition count_documents {A : Type} (q : A -> bool) (collection : list A) : Z :=
  Z.of_nat (length (filter q collection)).

(** The handler of [GET /admin/retention-stats]. *)
Definition get_retention_stats (now : Z) (d : DB) (current_user : User)
  : Result RetentionStats :=
  if negb (is_admin current_user)
  then HTTPException 403 "Admin access required"
  else
    let three_days_ago := now - timedelta_days 3 in
    let week_ago := now - timedelta_days 7 in
    Ok (mkStats
          (count_documents (fun _ => true) (users d))
          (count_documents (fun u => match lastLoginAt u with
                                     | Some _ => true
                                     | None => false
                                     end) (users d))
          (count_documents (fun u => match lastLoginAt u with
                                     | Some t => t >=? three_days_ago
                                     | None => false
                                     end) (users d))
          (count_documents (fun u => match lastLoginAt u with
                                     | Some t => t <? three_days_ago
                                     | None => true
                                     end) (users d))
          (count_documents (fun _ => true) (push_tokens d))
          (count_documents (fun _ => true) (retention_notifications d))
          (count_documents (fun r => rn_sent_at r >=? week_ago)
                           (retention_notifications d))).

(** ** Creating a walk *)

(** The body of [POST /walks], as far as a [Walk] carries it. *)
Record WalkCreate := mkWalkCreate {
  wc_title : string;
  wc_date : string;
  wc_time : string;
  wc_city : string;
  wc_neighborhood : string;
  wc_starting_point : string;
  wc_max_participants : Z;
  wc_conditions : option WalkConditions
}.

Definition insert_walk (d : DB) (w : Walk) : DB :=
  mkDB (users d) (walks d ++ [w]) (bookings d) (push_tokens d)
       (reminders_sent d) (retention_notifications d) (user_sessions d).

(** The handler of [POST /walks]: the walk is stored, then
    [notify_previous_participants] runs on it.  (The stored document also
    has [ending_point], [duration_hours], [description] and the two
    timestamps, which nothing here reads.) *)
Definition create_walk (walk_data : WalkCreate) (uuid_hex : string) (cfg : MailConfig)
           (d : DB) (current_user : User) : Walk * DB * list Event :=
  let walk :=
    mkWalk ("walk_" ++ uuid_hex) (wc_title walk_data) (wc_date walk_data)
           (wc_time walk_data) (wc_city walk_data) (wc_neighborhood walk_data)
           (wc_starting_point walk_data) (wc_max_participants walk_data)
           (wc_conditions walk_data) (user_id current_user)
           (display_name current_user) in
  let d' := insert_walk d walk in
  (walk, d', notify_previous_participants cfg d' walk).

(** A walk in Paris for women and men from 25 to 44. *)
Definition sample_walk_data : WalkCreate :=
  mkWalkCreate "Canal walk" "2025-11-09" "09:30" "Paris" "Villette" "Metro Jaures" 10
               (Some (mkConditions (Some ["F"; "M"]) (Some ["25-34"; "35-44"]) None)).

(** ** The e-mail pattern of [is_valid_email] *)

(** An item of a character class: [c] or [lo-hi]. *)
Inductive ClassItem :=
| One (c : ascii)
| Range (lo hi : ascii).

(** The regular expressions the pattern is made of. *)
Inductive Regex :=
| Void
| Eps
| Class (items : list ClassItem)
| Cat (r1 r2 : Regex)
| Alt (r1 r2 : Regex)
| Star (r : Regex).

(** [r+] *)
Definition Plus (r : Regex) : Regex := Cat r (Star r).

(** [r{2,}] *)
Definition AtLeast2 (r : Regex) : Regex := Cat r (Cat r (Star r)).

Definition in_item (c : ascii) (item : ClassItem) : bool :=
  match item with
  | One x => Ascii.eqb x c
  | Range lo hi =>
      ((nat_of_ascii lo <=? nat_of_ascii c) && (nat_of_ascii c <=? nat_of_ascii hi))%nat
  end.

Definition in_class (items : list ClassItem) (c : ascii) : bool :=
  existsb (in_item c) items.

Fixpoint nullable (r : Regex) : bool :=
  match r with
  | Void => false
  | Eps => true
  | Class _ => false
  | Cat r1 r2 => nullable r1 && nullable r2
  | Alt r1 r2 => nullable r1 || nullable r2
  | Star _ => true
  end.

(** What is left of [r] after the character [c]. *)
Fixpoint derivative (c : ascii) (r : Regex) : Regex :=
  match r with
  | Void => Void
  | Eps => Void
  | Class items => if in_class items c then Eps else Void
  | Cat r1 r2 =>
      Alt (Cat (derivative c r1) r2) (if nullable r1 then derivative c r2 else Void)
  | Alt r1 r2 => Alt (derivative c r1) (derivative c r2)
  | Star r1 => Cat (derivative c r1) (Star r1)
  end.

(** Whether [r] matches all of [s]. *)
Fixpoint fullmatch (r : Regex) (s : string) : bool :=
  match s with
  | EmptyString => nullable r
  | String c s' => fullmatch (derivative c r) s'
  end.

(** [s] without the line feed that ends it, if one does. *)
Fixpoint without_final_newline (s : string) : option string :=
  match s with
  | EmptyString => None
  | String c s' =>
      match s' with
      | EmptyString => if Ascii.eqb c "010" then Some EmptyString else None
      | _ => option_map (String c) (without_final_newline s')
      end
  end.

(** [re.match('^' r '$', s) is not None] for an [r] that matches no line
    feed: [$] holds at the end of the string and just before a line feed
    that ends it. *)
Definition re_match_to_dollar (r : Regex) (s : string) : bool :=
  fullmatch r s
  || match without_final_newline s with
     | Some s' => fullmatch r s'
     | None => false
     end.

(** [[a-zA-Z0-9._%+-]] *)
Definition local_class : list ClassItem :=
  [Range "a" "z"; Range "A" "Z"; Range "0" "9"; One "."; One "_"; One "%"; One "+";
   One "-"].

(** [[a-zA-Z0-9.-]] *)
Definition domain_class : list ClassItem :=
  [Range "a" "z"; Range "A" "Z"; Range "0" "9"; One "."; One "-"].

(** [[a-zA-Z]] *)
Definition letter_class : list ClassItem := [Range "a" "z"; Range "A" "Z"].

(** [[a-zA-Z0-9._%+-]+@[a-zA-Z0-9.-]+\.[a-zA-Z]{2,}] *)
Definition email_pattern : Regex :=
  Cat (Plus (Class local_class))
      (Cat (Class [One "@"])
           (Cat (Plus (Class domain_class))
                (Cat (Class [One "."]) (AtLeast2 (Class letter_class))))).

Definition is_valid_email (email : string) : bool :=
  re_match_to_dollar email_pattern email.

(** The strings a regular expression stands for. *)
Inductive in_language : Regex -> string -> Prop :=
| lang_eps : in_language Eps EmptyString
| lang_class items c :
    in_class items c = true -> in_language (Class items) (String c EmptyString)
| lang_cat r1 r2 s1 s2 :
    in_language r1 s1 -> in_language r2 s2 -> in_language (Cat r1 r2) (s1 ++ s2)
| lang_alt_l r1 r2 s : in_language r1 s -> in_language (Alt r1 r2) s
| lang_alt_r r1 r2 s : in_language r2 s -> in_language (Alt r1 r2) s
| lang_star_nil r : in_language (Star r) EmptyString
| lang_star_cons r s1 s2 :
    in_language r s1 -> in_language (Star r) s2 -> in_language (Star r) (s1 ++ s2).

(** Every character of [s] is in the class. *)
Fixpoint all_in_class (items : list ClassItem) (s : string) : bool :=
  match s with
  | EmptyString => true
  | String c s' => in_class items c && all_in_class items s'
  end.

(** How often the character [c] occurs in [s]. *)
Fixpoint count_char (c : ascii) (s : string) : nat :=
  match s with
  | EmptyString => O
  | String x s' => ((if Ascii.eqb x c then 1 else 0) + count_char c s')%nat
  end.

(** ** Badges *)

(** [count_documents({"organizer_id": uid, "date": {"$lt": today}})] *)
Definition organized_count (today : string) (d : DB) (uid : string) : Z :=
  count_documents (fun w => (organizer_id w =? uid)%string && String.ltb (date w) today)
                  (walks d).

(** The walks of the past among those the user has an active booking on. *)
Definition participated_count (today : string) (d : DB) (uid : string) : Z :=
  let participated_bookings :=
    to_list 10000
            (filter (fun b => (b_user_id b =? uid)%string && (b_status b =? "active")%string)
                    (bookings d)) in
  let participated_walk_ids := map b_walk_id participated_bookings in
  match participated_walk_ids with
  | [] => 0
  | _ =>
      count_documents (fun w => str_in (walk_id w) participated_walk_ids
                                && String.ltb (date w) today)
                      (walks d)
  end.

Record UserBadge := mkUserBadge {
  ub_user_id : string;
  ub_total_walks : Z;
  ub_badge_level : Z
}.

(** The handler of [GET /badge/user/{user_id}]; [today] is
    [date.today().isoformat()]. *)
Definition get_user_badge (today : string) (d : DB) (uid : string) : UserBadge :=
  let total_walks := organized_count today d uid + participated_count today d uid in
  let badge_level := get_badge_level total_walks in
  mkUserBadge uid total_walks badge_level.

(** ** The tallies of [get_admin_statistics] *)

(** [d[k] = d.get(k, 0) + 1] on a dict, whose keys keep the order of their
    first insertion. *)
Fixpoint dict_increment (k : string) (dict : list (string * Z)) : list (string * Z) :=
  match dict with
  | [] => [(k, 1)]
  | (k', n) :: rest =>
      if (k' =? k)%string then (k', n + 1) :: rest
      else (k', n) :: dict_increment k rest
  end.

(** [d.get(k, 0)] *)
Fixpoint dict_get (k : string) (dict : list (string * Z)) : Z :=
  match dict with
  | [] => 0
  | (k', n) :: rest => if (k' =? k)%string then n else dict_get k rest
  end.

(** [x or "Unknown"] *)
Definition or_unknown (x : option string) : string :=
  match x with
  | Some s => if truthy s then s else "Unknown"
  | None => "Unknown"
  end.

Record UserStatistics := mkUserStatistics {
  users_by_sex : list (string * Z);
  users_by_age_group : list (string * Z);
  users_by_city : list (string * Z)
}.

(** The loop [for user in users] of [get_admin_statistics]. *)
Definition user_statistics (users : list User) : UserStatistics :=
  fold_left (fun acc user =>
               mkUserStatistics
                 (dict_increment (or_unknown (sex user)) (users_by_sex acc))
                 (dict_increment (stats_age_group (age user)) (users_by_age_group acc))
                 (dict_increment (or_unknown (city user)) (users_by_city acc)))
            users (mkUserStatistics [] [] []).

(** [ratings_distribution[rating] += 1] on the dict with the keys 1 to 5. *)
Fixpoint add_rating (stars : Z) (dict : list (Z * Z)) : list (Z * Z) :=
  match dict with
  | [] => []
  | (k, n) :: rest => if k =? stars then (k, n + 1) :: rest else (k, n) :: add_rating stars rest
  end.

(** The loop [for review in reviews] that fills [ratings_distribution]. *)
Definition ratings_distribution (reviews : list WalkReview) : list (Z * Z) :=
  fold_left (fun dict review =>
               if negb (rating review =? 0) && ((1 <=? rating review) && (rating review <=? 5))
               then add_rating (rating review) dict
               else dict)
            reviews [(1, 0); (2, 0); (3, 0); (4, 0); (5, 0)].

(** The sum of the values of a dict. *)
Definition dict_total {K : Type} (dict : list (K * Z)) : Z :=
  fold_right (fun kv total => snd kv + total) 0 dict.


(** ** The participants of a walk *)

(** An element of the answer of [get_walk_participants] (without [picture]
    and [country_of_birth], which [User] does not carry). *)
Record ParticipantInfo := mkParticipant {
  p_user_id : string;
  p_name : string;
  p_pseudonym : option string;
  p_email : string;
  p_age : option Z;
  p_sex : option string;
  p_booked_at : Z;
  p_badge_level : Z;
  p_total_walks : Z
}.

(** [{user["user_id"]: user for user in users_list}.get(uid)]: of two
    documents with one key, the later one stays. *)
Definition user_map_get (users_list : list User) (uid : string) : option User :=
  find (fun u => (user_id u =? uid)%string) (rev users_list).

(** The handler of [GET /walks/{walk_id}/participants]. *)
Definition get_walk_participants (today wid : string) (d : DB) (current_user : User)
  : Result (list ParticipantInfo) :=
  match find_one (fun w => (walk_id w =? wid)%string) (walks d) with
  | None => HTTPException 404 "Walk not found"
  | Some _ =>
      match active_bookings_of d wid with
      | [] => Ok []
      | bookings =>
          let user_ids := unique (map b_user_id bookings) in
          let users_list :=
            to_list 1000 (filter (fun u => str_in (user_id u) user_ids) (users d)) in
          Ok (flat_map
                (fun booking =>
                   match user_map_get users_list (b_user_id booking) with
                   | Some user =>
                       let total_walks :=
                         organized_count today d (user_id user)
                         + participated_count today d (user_id user) in
                       [mkParticipant (user_id user) (name user) (pseudonym user)
                                      (email user) (age user) (sex user)
                                      (booked_at booking)
                                      (get_badge_level total_walks) total_walks]
                   | None => []
                   end)
                bookings)
      end
  end.

(* ================================================================== *)
(** * Part II: properties                                               *)
(* ================================================================== *)

(** ** Strings *)

Lemma upper_app (a b : string) : upper (a ++ b) = upper a ++ upper b.
Proof. induction a as [|c a IH]; simpl; [reflexivity | now rewrite IH]. Qed.

Lemma is_space_upper_char (c : ascii) : is_space (upper_char c) = is_space c.
Proof.
  destruct c as [b0 b1 b2 b3 b4 b5 b6 b7].
  destruct b0, b1, b2, b3, b4, b5, b6, b7; reflexivity.
Qed.

Lemma upper_char_space (c : ascii) : is_space c = true -> upper_char c = c.
Proof.
  destruct c as [b0 b1 b2 b3 b4 b5 b6 b7].
  destruct b0, b1, b2, b3, b4, b5, b6, b7; intros H; try reflexivity; discriminate H.
Qed.

Lemma upper_all_space (s : string) : all_space s = true -> upper s = s.
Proof.
  induction s as [|c s IH]; simpl; [reflexivity|].
  intros H. apply andb_prop in H as [Hc Hs].
  now rewrite (upper_char_space c Hc), (IH Hs).
Qed.

Lemma lstrip_app_space (pre s : string) :
  all_space pre = true -> lstrip (pre ++ s) = lstrip s.
Proof.
  induction pre as [|c pre IH]; simpl; [reflexivity|].
  intros H. apply andb_prop in H as [Hc Hs]. rewrite Hc. now apply IH.
Qed.

Lemma rstrip_all_space (s : string) : all_space s = true -> rstrip s = "".
Proof.
  induction s as [|c s IH]; simpl; [reflexivity|].
  intros H. apply andb_prop in H as [Hc Hs]. now rewrite (IH Hs), Hc.
Qed.

Lemma rstrip_app_space (s post : string) :
  all_space post = true -> rstrip (s ++ post) = rstrip s.
Proof.
  intros H. induction s as [|c s IH]; simpl.
  - now apply rstrip_all_space.
  - now rewrite IH.
Qed.

Lemma rstrip_app_keep (a b : string) :
  rstrip b <> "" -> rstrip (a ++ b) = a ++ rstrip b.
Proof.
  intros Hb. induction a as [|c a IH]; simpl; [reflexivity|].
  rewrite IH. destruct (a ++ rstrip b) eqn:E; [|reflexivity].
  destruct a; simpl in E; [contradiction | discriminate].
Qed.

Lemma strip_padded (pre core post : string) :
  all_space pre = true -> all_space post = true ->
  lstrip core = core -> rstrip core = core -> core <> "" ->
  strip (pre ++ core ++ post) = core.
Proof.
  intros Hpre Hpost Hl Hr Hne. unfold strip.
  rewrite rstrip_app_keep; rewrite (rstrip_app_space core post Hpost), Hr; [|assumption].
  now rewrite lstrip_app_space.
Qed.

Lemma lstrip_decompose (s : string) :
  exists pre, all_space pre = true /\ s = pre ++ lstrip s.
Proof.
  induction s as [|c s [pre [Hp Hs]]]; simpl.
  - exists "". now split.
  - destruct (is_space c) eqn:Hc.
    + exists (String c pre). simpl. rewrite Hc, Hp. split; [reflexivity | now f_equal].
    + exists "". now split.
Qed.

Lemma rstrip_decompose (s : string) :
  exists post, all_space post = true /\ s = rstrip s ++ post.
Proof.
  induction s as [|c s [post [Hp Hs]]]; simpl.
  - exists "". now split.
  - destruct (rstrip s) eqn:E.
    + simpl in Hs. destruct (is_space c) eqn:Hc.
      * exists (String c post). simpl. rewrite Hc, Hp. split; [reflexivity | now f_equal].
      * exists post. split; [assumption | simpl; now f_equal].
    + exists post. split; [assumption | simpl; now f_equal].
Qed.

Lemma strip_decompose (s : string) :
  exists pre post,
    all_space pre = true /\ all_space post = true /\ s = pre ++ strip s ++ post.
Proof.
  destruct (rstrip_decompose s) as [post [Hpost Hs]].
  destruct (lstrip_decompose (rstrip s)) as [pre [Hpre Hr]].
  exists pre, post. repeat split; try assumption.
  unfold strip. rewrite Hs at 1. rewrite Hr at 1.
  clear. induction pre as [|c pre IH]; simpl; [reflexivity | now rewrite IH].
Qed.

Lemma lstrip_upper (s : string) : lstrip (upper s) = upper (lstrip s).
Proof.
  induction s as [|c s IH]; simpl; [reflexivity|].
  rewrite is_space_upper_char. destruct (is_space c); [assumption | reflexivity].
Qed.

Lemma rstrip_upper (s : string) : rstrip (upper s) = upper (rstrip s).
Proof.
  induction s as [|c s IH]; simpl; [reflexivity|].
  rewrite IH, is_space_upper_char.
  destruct (rstrip s); simpl; [destruct (is_space c)|]; reflexivity.
Qed.

Lemma strip_upper (s : string) : strip (upper s) = upper (strip s).
Proof. unfold strip. now rewrite rstrip_upper, lstrip_upper. Qed.

(** ** [normalize_sex] *)

Lemma truthy_padded (pre w post : string) : w <> "" -> truthy (pre ++ w ++ post) = true.
Proof.
  intros Hw. destruct pre; simpl; [|reflexivity].
  destruct w; [contradiction | reflexivity].
Qed.

(** The key the function compares, for a padded spelling of a word that has
    no white space at either end. *)
Lemma key_of_spelling (s word : string) :
  spelled_as s word ->
  lstrip (upper word) = upper word -> rstrip (upper word) = upper word ->
  upper word <> "" ->
  truthy s = true /\ strip (upper s) = upper word.
Proof.
  intros (pre & w & post & Hpre & Hpost & Hw & ->) Hl Hr Hne.
  unfold same_ignoring_case in Hw. split.
  - apply truthy_padded. intros ->. now apply Hne.
  - rewrite !upper_app, (upper_all_space pre Hpre), (upper_all_space post Hpost), Hw.
    now apply strip_padded.
Qed.

Ltac spelling_key H :=
  apply key_of_spelling in H; [destruct H as [?Ht ?Hk] | reflexivity | reflexivity | discriminate].

Lemma normalize_sex_male (s : string) :
  spelled_as_one_of s male_names -> normalize_sex (Some s) = Some "M".
Proof.
  intros (word & Hin & Hs). unfold normalize_sex.
  simpl in Hin. destruct Hin as [<- | [<- | []]]; spelling_key Hs;
    rewrite Ht, Hk; reflexivity.
Qed.

Lemma normalize_sex_female (s : string) :
  spelled_as_one_of s female_names -> normalize_sex (Some s) = Some "F".
Proof.
  intros (word & Hin & Hs). unfold normalize_sex.
  simpl in Hin. destruct Hin as [<- | [<- | []]]; spelling_key Hs;
    rewrite Ht, Hk; reflexivity.
Qed.

Lemma normalize_sex_other (s : string) :
  spelled_as_one_of s other_names -> normalize_sex (Some s) = Some "X".
Proof.
  intros (word & Hin & Hs). unfold normalize_sex.
  simpl in Hin. destruct Hin as [<- | [<- | [<- | [<- | []]]]]; spelling_key Hs;
    rewrite Ht, Hk; reflexivity.
Qed.

(** A key found in one of the three lists comes from a padded spelling of
    the name it stands for. *)
Lemma spelling_of_key (s word : string) :
  strip (upper s) = upper word -> spelled_as s word.
Proof.
  intros Hk. destruct (strip_decompose s) as (pre & post & Hpre & Hpost & Hs).
  exists pre, (strip s), post. repeat split; try assumption.
  unfold same_ignoring_case. now rewrite <- strip_upper.
Qed.

Lemma str_in_true (x : string) (l : list string) : str_in x l = true <-> In x l.
Proof.
  unfold str_in. rewrite existsb_exists. split.
  - intros (y & Hy & E). apply String.eqb_eq in E. now subst.
  - intros H. exists x. split; [assumption | apply String.eqb_refl].
Qed.

Lemma in_by_computation (x : string) (l : list string) : str_in x l = true -> In x l.
Proof. apply str_in_true. Qed.

Lemma not_in_by_computation (x : string) (l : list string) :
  str_in x l = false -> ~ In x l.
Proof. intros E H. apply str_in_true in H. congruence. Qed.

Lemma normalize_sex_unrecognised (s : string) :
  s <> "" ->
  ~ spelled_as_one_of s (male_names ++ female_names ++ other_names) ->
  normalize_sex (Some s) = Some s.
Proof.
  intros Hne Hno. unfold normalize_sex.
  destruct s as [|c s]; [contradiction|]. cbn [truthy negb].
  set (k := strip (upper (String c s))).
  assert (Hk : forall word, In word (male_names ++ female_names ++ other_names) ->
                            k <> upper word).
  { intros word Hin E. apply Hno. exists word. split; [assumption|].
    now apply spelling_of_key. }
  destruct (str_in k ["M"; "MALE"]) eqn:E1.
  { apply str_in_true in E1. simpl in E1.
    destruct E1 as [E | [E | []]]; symmetry in E;
      [apply (Hk "M") in E | apply (Hk "Male") in E]; try contradiction; simpl; tauto. }
  destruct (str_in k ["F"; "FEMALE"]) eqn:E2.
  { apply str_in_true in E2. simpl in E2.
    destruct E2 as [E | [E | []]]; symmetry in E;
      [apply (Hk "F") in E | apply (Hk "Female") in E]; try contradiction; simpl; tauto. }
  destruct (str_in k ["X"; "PREFER NOT TO SAY"; "N/A"; "OTHER"]) eqn:E3.
  { apply str_in_true in E3. simpl in E3.
    destruct E3 as [E | [E | [E | [E | []]]]]; symmetry in E;
      [apply (Hk "X") in E | apply (Hk "Prefer not to say") in E
       | apply (Hk "N/A") in E | apply (Hk "Other") in E];
      try contradiction; simpl; tauto. }
  reflexivity.
Qed.

Lemma normalize_sex_idempotent (o : option string) :
  normalize_sex (normalize_sex o) = normalize_sex o.
Proof.
  destruct o as [s|]; [|reflexivity].
  unfold normalize_sex at 2 3.
  destruct (truthy s) eqn:Ht; cbn [negb]; [|reflexivity].
  destruct (str_in (strip (upper s)) ["M"; "MALE"]) eqn:E1; [reflexivity|].
  destruct (str_in (strip (upper s)) ["F"; "FEMALE"]) eqn:E2; [reflexivity|].
  destruct (str_in (strip (upper s)) ["X"; "PREFER NOT TO SAY"; "N/A"; "OTHER"]) eqn:E3;
    [reflexivity|].
  unfold normalize_sex. now rewrite Ht, E1, E2, E3.
Qed.

(** C6.  [normalize_sex] maps "M" and "Male", in any letter case and with
    white space around them, to "M"; "F" and "Female" to "F"; "X", "Prefer
    not to say", "N/A" and "Other" to "X"; it returns every other non-empty
    value unchanged; and applying it twice is the same as applying it once. *)
Theorem normalize_sex_spec :
  (forall s, spelled_as_one_of s male_names -> normalize_sex (Some s) = Some "M") /\
  (forall s, spelled_as_one_of s female_names -> normalize_sex (Some s) = Some "F") /\
  (forall s, spelled_as_one_of s other_names -> normalize_sex (Some s) = Some "X") /\
  (forall s, s <> "" ->
             ~ spelled_as_one_of s (male_names ++ female_names ++ other_names) ->
             normalize_sex (Some s) = Some s) /\
  (forall o, normalize_sex (normalize_sex o) = normalize_sex o).
Proof.
  repeat split.
  - exact normalize_sex_male.
  - exact normalize_sex_female.
  - exact normalize_sex_other.
  - exact normalize_sex_unrecognised.
  - exact normalize_sex_idempotent.
Qed.

Lemma normalize_sex_spec_witness :
  normalize_sex (Some "  mAlE ") = Some "M" /\
  normalize_sex (Some "prefer NOT to say") = Some "X" /\
  normalize_sex (Some "Nonbinary") = Some "Nonbinary".
Proof.
  destruct normalize_sex_spec as (HM & _ & HX & HU & _). split; [|split].
  - apply HM. exists "Male". split; [simpl; auto|].
    exists "  ", "mAlE", " ". repeat split; reflexivity.
  - apply HX. exists "Prefer not to say". split; [simpl; auto|].
    exists "", "prefer NOT to say", "". repeat split; reflexivity.
  - apply HU; [discriminate|].
    intros (word & Hin & Hs). simpl in Hin.
    destruct Hin as [<- | [<- | [<- | [<- | [<- | [<- | [<- | [<- | []]]]]]]]];
      spelling_key Hs; discriminate Hk.
Defined.

(** A no-break space before the letter and a next-line character after it
    are stripped as the blank is. *)
Example normalize_sex_no_break_space :
  normalize_sex (Some (String "160" (String "m" (String "133" "")))) = Some "M" /\
  strip (String "160" (String "m" (String "133" ""))) = "m".
Proof. split; reflexivity. Qed.

Example normalize_sex_blank : normalize_sex (Some "   ") = Some "   ".
Proof. reflexivity. Qed.

Example normalize_sex_empty : normalize_sex (Some "") = None /\ normalize_sex None = None.
Proof. split; reflexivity. Qed.

Example normalize_sex_list_mixed :
  normalize_sex_list (Some ["Male"; ""; "f"; "Other"; "Nonbinary"])
  = ["M"; "F"; "X"; "Nonbinary"].
Proof. reflexivity. Qed.

(** ** Age bands *)

Lemma age_group_holds_cases (g : string) (a : Z) :
  age_group_holds g a = true ->
  (g = "18-24" /\ 18 <= a <= 24) \/ (g = "25-34" /\ 25 <= a <= 34) \/
  (g = "35-44" /\ 35 <= a <= 44) \/ (g = "45-54" /\ 45 <= a <= 54) \/
  (g = "55-64" /\ 55 <= a <= 64) \/ (g = "65-74" /\ 65 <= a <= 74) \/
  (g = "75+" /\ 75 <= a).
Proof.
  unfold age_group_holds. intros H.
  repeat match type of H with
         | (if ?c then _ else _) = true =>
             let E := fresh "E" in
             destruct c eqn:E;
             [ clear H; rewrite !andb_true_iff, ?Z.leb_le, ?Z.geb_le in E;
               destruct E as [E ?]; apply String.eqb_eq in E; subst g; tauto
             | ]
         end.
  discriminate H.
Qed.

Lemma age_group_holds_intro (g : string) (a : Z) :
  (g = "18-24" /\ 18 <= a <= 24) \/ (g = "25-34" /\ 25 <= a <= 34) \/
  (g = "35-44" /\ 35 <= a <= 44) \/ (g = "45-54" /\ 45 <= a <= 54) \/
  (g = "55-64" /\ 55 <= a <= 64) \/ (g = "65-74" /\ 65 <= a <= 74) \/
  (g = "75+" /\ 75 <= a) ->
  age_group_holds g a = true.
Proof.
  unfold age_group_holds.
  intros [[-> H] | [[-> H] | [[-> H] | [[-> H] | [[-> H] | [[-> H] | [-> H]]]]]]];
    cbn [String.eqb Ascii.eqb Bool.eqb andb];
    repeat match goal with
           | |- context [?x <=? ?y] => destruct (Z.leb_spec x y); try lia
           | |- context [?x >=? ?y] => destruct (Z.geb_spec x y); try lia
           end; reflexivity.
Qed.

(** C5.  The seven age bands do not overlap: for every integer age, the
    matching predicate of the targeting engine holds for at most one band. *)
Theorem age_bands_disjoint (user_age : Z) (g1 g2 : string) :
  age_group_holds g1 user_age = true ->
  age_group_holds g2 user_age = true ->
  g1 = g2.
Proof.
  intros H1 H2.
  apply age_group_holds_cases in H1. apply age_group_holds_cases in H2.
  destruct H1 as [[-> H1] | [[-> H1] | [[-> H1] | [[-> H1] | [[-> H1] | [[-> H1] | [-> H1]]]]]]];
    destruct H2 as [[-> H2] | [[-> H2] | [[-> H2] | [[-> H2] | [[-> H2] | [[-> H2] | [-> H2]]]]]]];
    try reflexivity; lia.
Qed.

Lemma age_bands_disjoint_witness :
  age_group_holds "35-44" 40 = true /\ "35-44" = "35-44".
Proof.
  split; [reflexivity|].
  apply (age_bands_disjoint 40 "35-44" "35-44"); reflexivity.
Defined.

Example age_bands_count_40 :
  filter (fun g => age_group_holds g 40) age_bands = ["35-44"].
Proof. reflexivity. Qed.

Example age_bands_count_17 :
  filter (fun g => age_group_holds g 17) age_bands = [].
Proof. reflexivity. Qed.

(** ** Age bands of the statistics against those of the targeting engine *)

(** From 18 years on, the statistics put an age into the band whose
    matching predicate holds for it. *)
Lemma stats_age_group_adult (a : Z) (g : string) :
  18 <= a -> (stats_age_group (Some a) = g <-> age_group_holds g a = true).
Proof.
  intros Ha. split.
  - intros <-. apply age_group_holds_intro. unfold stats_age_group.
    destruct (Z.eqb_spec a 0); [lia|].
    repeat match goal with
           | |- context [?x <? ?y] => destruct (Z.ltb_spec x y)
           end; intuition lia.
  - intros H. apply age_group_holds_cases in H. unfold stats_age_group.
    destruct (Z.eqb_spec a 0); [lia|].
    repeat match goal with
           | |- context [?x <? ?y] => destruct (Z.ltb_spec x y)
           end;
      destruct H as [[-> H] | [[-> H] | [[-> H] | [[-> H] | [[-> H] | [[-> H] | [-> H]]]]]]];
      try reflexivity; lia.
Qed.

(** C10, at the age of 17: the statistics count the user in the band
    "18-24", and no band's matching predicate holds for that age. *)
Theorem stats_age_group_minor :
  stats_age_group (Some 17) = "18-24" /\
  age_group_holds "18-24" 17 = false /\
  forall g, age_group_holds g 17 = false.
Proof.
  repeat split.
  intros g. destruct (age_group_holds g 17) eqn:E; [|reflexivity].
  apply age_group_holds_cases in E. lia.
Qed.

(** ** Session authentication *)

Lemma find_one_none {A : Type} (q : A -> bool) (l : list A) :
  (forall x, In x l -> q x = false) -> find_one q l = None.
Proof.
  intros H. unfold find_one. induction l as [|x l IH]; simpl; [reflexivity|].
  rewrite (H x (or_introl eq_refl)). apply IH. intros y Hy. apply H. now right.
Qed.

Lemma find_one_some {A : Type} (q : A -> bool) (l : list A) (x : A) :
  In x l -> q x = true -> exists y, find_one q l = Some y /\ In y l /\ q y = true.
Proof.
  intros Hin Hq. unfold find_one. destruct (find q l) as [y|] eqn:E.
  - exists y. apply find_some in E. tauto.
  - now rewrite (find_none _ _ E x Hin) in Hq.
Qed.

(** C7.  [get_current_user] raises 401 when the request carries no session
    token, when no stored session has the token, and when the session found
    for it expired before [now]; it raises 403 when the user stored for the
    session is blocked or suspended (and 404 when no user is stored for
    it).  In every other case, that is for a token with a stored session
    that has not expired and whose user is stored and neither blocked nor
    suspended, it returns that user, and an operation that depends on it
    runs its handler on that user; it returns a user in no other case, and
    an operation that depends on it then fails with the same error and
    leaves the database alone. *)
Theorem get_current_user_spec (request : Request) (now : Z) (d : DB) :
  (get_session_token request = None \/ get_session_token request = Some "" ->
   get_current_user request now d = HTTPException 401 "Not authenticated") /\
  (forall token,
      get_session_token request = Some token -> token <> "" ->
      (forall s, In s (user_sessions d) -> session_token s <> token) ->
      get_current_user request now d = HTTPException 401 "Invalid session") /\
  (forall token session,
      get_session_token request = Some token -> token <> "" ->
      find_one (fun s => (session_token s =? token)%string) (user_sessions d) = Some session ->
      expires_at session < now ->
      get_current_user request now d = HTTPException 401 "Session expired") /\
  (forall token session user_doc,
      get_session_token request = Some token -> token <> "" ->
      find_one (fun s => (session_token s =? token)%string) (user_sessions d) = Some session ->
      now <= expires_at session ->
      find_one (fun u => (user_id u =? s_user_id session)%string) (users d) = Some user_doc ->
      status user_doc = Some "suspended" \/ status user_doc = Some "blocked" ->
      exists detail, get_current_user request now d = HTTPException 403 detail) /\
  (forall token session,
      get_session_token request = Some token -> token <> "" ->
      find_one (fun s => (session_token s =? token)%string) (user_sessions d) = Some session ->
      now <= expires_at session ->
      find_one (fun u => (user_id u =? s_user_id session)%string) (users d) = None ->
      get_current_user request now d = HTTPException 404 "User not found") /\
  (forall token session user_doc,
      get_session_token request = Some token -> token <> "" ->
      find_one (fun s => (session_token s =? token)%string) (user_sessions d) = Some session ->
      now <= expires_at session ->
      find_one (fun u => (user_id u =? s_user_id session)%string) (users d) = Some user_doc ->
      status user_doc <> Some "suspended" -> status user_doc <> Some "blocked" ->
      get_current_user request now d = Ok user_doc /\
      forall (A : Type) (handler : User -> Result A * DB),
        with_current_user request now d handler = handler user_doc) /\
  (forall current_user,
      get_current_user request now d = Ok current_user ->
      exists token session,
        get_session_token request = Some token /\ token <> "" /\
        find_one (fun s => (session_token s =? token)%string) (user_sessions d) = Some session /\
        now <= expires_at session /\
        find_one (fun u => (user_id u =? s_user_id session)%string) (users d)
        = Some current_user /\
        status current_user <> Some "suspended" /\
        status current_user <> Some "blocked") /\
  (forall (A : Type) (handler : User -> Result A * DB),
      match get_current_user request now d with
      | Ok current_user => with_current_user request now d handler = handler current_user
      | HTTPException code detail =>
          with_current_user request now d handler = (HTTPException code detail, d)
      end).
Proof.
  assert (Htr : forall t, t <> "" -> truthy t = true) by (intros [|c t] H; [contradiction|reflexivity]).
  assert (Hok : forall token session user_doc,
             get_session_token request = Some token -> token <> "" ->
             find_one (fun s => (session_token s =? token)%string) (user_sessions d)
             = Some session ->
             now <= expires_at session ->
             find_one (fun u => (user_id u =? s_user_id session)%string) (users d)
             = Some user_doc ->
             status user_doc <> Some "suspended" -> status user_doc <> Some "blocked" ->
             get_current_user request now d = Ok user_doc).
  { intros token session user_doc Ht Hne Hs Hexp Hu Hsus Hblo. unfold get_current_user.
    rewrite Ht, (Htr _ Hne), Hs, Hu. cbn [negb].
    destruct (Z.ltb_spec (expires_at session) now); [lia|].
    destruct (status user_doc) as [st|]; [|reflexivity].
    destruct (String.eqb_spec st "blocked") as [->|_]; [now elim Hblo|].
    destruct (String.eqb_spec st "suspended") as [->|_]; [now elim Hsus|].
    reflexivity. }
  split; [|split; [|split; [|split; [|split; [|split; [|split]]]]]].
  - unfold get_current_user. intros [-> | ->]; reflexivity.
  - intros token Ht Hne Hno. unfold get_current_user. rewrite Ht, (Htr _ Hne). cbn [negb].
    rewrite find_one_none; [reflexivity|].
    intros s Hs. apply String.eqb_neq. now apply Hno.
  - intros token session Ht Hne Hs Hexp. unfold get_current_user.
    rewrite Ht, (Htr _ Hne), Hs. cbn [negb].
    destruct (Z.ltb_spec (expires_at session) now); [reflexivity | lia].
  - intros token session user_doc Ht Hne Hs Hexp Hu Hst. unfold get_current_user.
    rewrite Ht, (Htr _ Hne), Hs, Hu. cbn [negb].
    destruct (Z.ltb_spec (expires_at session) now); [lia|].
    destruct Hst as [-> | ->]; cbn; eexists; reflexivity.
  - intros token session Ht Hne Hs Hexp Hu. unfold get_current_user.
    rewrite Ht, (Htr _ Hne), Hs, Hu. cbn [negb].
    destruct (Z.ltb_spec (expires_at session) now); [lia | reflexivity].
  - intros token session user_doc Ht Hne Hs Hexp Hu Hsus Hblo.
    pose proof (Hok token session user_doc Ht Hne Hs Hexp Hu Hsus Hblo) as E.
    split; [exact E|]. intros A handler. unfold with_current_user. now rewrite E.
  - intros current_user. unfold get_current_user.
    destruct (get_session_token request) as [token|]; [|discriminate].
    destruct (truthy token) eqn:Et; cbn [negb]; [|discriminate].
    destruct (find_one _ (user_sessions d)) as [session|] eqn:Es; [|discriminate].
    destruct (Z.ltb_spec (expires_at session) now); [discriminate|].
    destruct (find_one _ (users d)) as [user_doc|] eqn:Eu; [|discriminate].
    destruct (status user_doc) as [st|] eqn:Est.
    + destruct (String.eqb_spec st "blocked"); [discriminate|].
      destruct (String.eqb_spec st "suspended"); [discriminate|].
      intros [= <-]. exists token, session. rewrite Est.
      repeat split; try assumption; try congruence.
      intros ->. discriminate Et.
    + cbn. intros [= <-]. exists token, session. rewrite Est.
      repeat split; try assumption; try discriminate.
      intros ->. discriminate Et.
  - intros A handler. unfold with_current_user.
    destruct (get_current_user request now d); reflexivity.
Qed.

Lemma get_current_user_spec_witness :
  get_current_user (mkRequest None None) 1000 auth_db
  = HTTPException 401 "Not authenticated" /\
  get_current_user (cookie "tok_unknown") 1000 auth_db
  = HTTPException 401 "Invalid session" /\
  get_current_user (cookie "tok_bob") 1000 auth_db
  = HTTPException 401 "Session expired" /\
  (exists detail,
      get_current_user (bearer "tok_erin") 1000 auth_db = HTTPException 403 detail) /\
  (get_current_user (bearer "tok_alice") 1000 auth_db = Ok alice /\
   forall (A : Type) (handler : User -> Result A * DB),
     with_current_user (bearer "tok_alice") 1000 auth_db handler = handler alice) /\
  (exists token session,
      get_session_token (bearer "tok_alice") = Some token /\ token <> "" /\
      find_one (fun s => (session_token s =? token)%string) (user_sessions auth_db)
      = Some session /\
      1000 <= expires_at session /\
      find_one (fun u => (user_id u =? s_user_id session)%string) (users auth_db)
      = Some alice /\
      status alice <> Some "suspended" /\ status alice <> Some "blocked").
Proof.
  split; [|split; [|split; [|split; [|split]]]].
  - destruct (get_current_user_spec (mkRequest None None) 1000 auth_db) as (H & _).
    apply H. now left.
  - destruct (get_current_user_spec (cookie "tok_unknown") 1000 auth_db) as (_ & H & _).
    apply (H "tok_unknown"); [reflexivity | discriminate |].
    intros s [<- | [<- | [<- | []]]]; discriminate.
  - destruct (get_current_user_spec (cookie "tok_bob") 1000 auth_db) as (_ & _ & H & _).
    apply (H "tok_bob" (mkSession "tok_bob" "bob" 500));
      [reflexivity | discriminate | reflexivity | simpl; lia].
  - destruct (get_current_user_spec (bearer "tok_erin") 1000 auth_db)
      as (_ & _ & _ & H & _).
    apply (H "tok_erin" (mkSession "tok_erin" "erin" 2000) erin);
      [reflexivity | discriminate | reflexivity | simpl; lia | reflexivity | now left].
  - destruct (get_current_user_spec (bearer "tok_alice") 1000 auth_db)
      as (_ & _ & _ & _ & _ & H & _).
    apply (H "tok_alice" (mkSession "tok_alice" "alice" 2000) alice);
      [reflexivity | discriminate | reflexivity | simpl; lia | reflexivity
       | discriminate | discriminate].
  - destruct (get_current_user_spec (bearer "tok_alice") 1000 auth_db)
      as (_ & _ & _ & _ & _ & _ & H & _).
    apply (H alice). reflexivity.
Defined.

Example get_session_token_cookie_first :
  get_session_token (mkRequest (Some "c") (Some "Bearer h")) = Some "c".
Proof. reflexivity. Qed.

Example get_session_token_bearer_twice :
  get_session_token (mkRequest None (Some "Bearer Bearer abc")) = Some "abc" /\
  get_session_token (mkRequest (Some "") (Some "Bearer tok")) = Some "tok".
Proof. split; reflexivity. Qed.

Example get_session_token_bare_bearer :
  get_session_token (mkRequest None (Some "Bearer ")) = Some "" /\
  get_session_token (mkRequest None (Some "Basic abc")) = None.
Proof. split; reflexivity. Qed.

(** ** The hard limit of [create_booking] *)

Lemma current_participants_insert (d : DB) (b : Booking) (wid : string) :
  current_participants (insert_booking d b) wid
  = current_participants d wid + (if is_active_on wid b then 1 else 0).
Proof.
  unfold current_participants, insert_booking; simpl.
  rewrite filter_app, length_app. simpl.
  destruct (is_active_on wid b); simpl; lia.
Qed.

Lemma create_booking_count (wid : string) (now : Z) (uuid_hex : string) (d : DB)
      (u : User) (wid' : string) :
  current_participants (snd (create_booking wid now uuid_hex d u)) wid'
  <= Z.max HARD_LIMIT (current_participants d wid').
Proof.
  unfold create_booking.
  destruct (find_one _ (walks d)); [|simpl; lia].
  destruct (Z.geb_spec (current_participants d wid) HARD_LIMIT) as [Hge|Hlt]; [simpl; lia|].
  destruct (find_one _ (bookings d)); [simpl; lia|].
  cbn [snd]. rewrite current_participants_insert. unfold is_active_on. cbn.
  destruct (String.eqb_spec wid wid') as [->|Hne]; cbn.
  - lia.
  - lia.
Qed.

Lemma cancel_first_count (q : Booking -> bool) (wid : string) (l : list Booking) :
  (length (filter (is_active_on wid) (fst (cancel_first q l)))
   <= length (filter (is_active_on wid) l))%nat.
Proof.
  induction l as [|b l IH]; simpl; [lia|].
  destruct (q b).
  - cbn [fst filter]. unfold is_active_on at 1. cbn.
    rewrite andb_false_r. destruct (is_active_on wid b); simpl; lia.
  - destruct (cancel_first q l) as [r m]. cbn [fst filter] in *.
    destruct (is_active_on wid b); simpl; lia.
Qed.

Lemma cancel_booking_count (bid : string) (d : DB) (u : User) (wid : string) :
  current_participants (snd (cancel_booking bid d u)) wid <= current_participants d wid.
Proof.
  unfold cancel_booking.
  pose proof (cancel_first_count
                (fun b => (booking_id b =? bid)%string && (b_user_id b =? user_id u)%string)
                wid (bookings d)) as H.
  destruct (cancel_first _ (bookings d)) as [bs matched]. cbn [fst] in H.
  destruct matched; cbn [snd]; [|lia].
  unfold current_participants. cbn. lia.
Qed.

Lemma booking_alone_create (wid : string) (now : Z) (uuid_hex : string) (d : DB)
      (u : User) :
  booking_alone d (AwaitWalk wid now uuid_hex u)
  = (snd (create_booking wid now uuid_hex d u),
     Booked (fst (create_booking wid now uuid_hex d u))).
Proof.
  unfold booking_alone, create_booking. cbn [booking_step].
  destruct (find_one _ (walks d)); cbn [fst snd booking_step]; [|reflexivity].
  destruct (current_participants d wid >=? HARD_LIMIT); cbn [fst snd booking_step];
    [reflexivity|].
  destruct (find_one _ (bookings d)); reflexivity.
Qed.

Lemma booking_alone_cancel (bid : string) (d : DB) (u : User) :
  booking_alone d (AwaitCancel bid u)
  = (snd (cancel_booking bid d u), CancelDone (fst (cancel_booking bid d u))).
Proof. reflexivity. Qed.

Lemma booking_alone_count (d : DB) (t : BookingTask) (wid : string) :
  arrives t = true ->
  current_participants (fst (booking_alone d t)) wid
  <= Z.max HARD_LIMIT (current_participants d wid).
Proof.
  destruct t; try discriminate; intros _.
  - rewrite booking_alone_create. apply create_booking_count.
  - rewrite booking_alone_cancel. cbn [fst].
    pose proof (cancel_booking_count bid d current_user wid). lia.
Qed.

Lemma bookings_one_at_a_time_limit (tasks : list BookingTask) (d : DB) :
  (forall t, In t tasks -> arrives t = true) ->
  (forall wid, current_participants d wid <= HARD_LIMIT) ->
  forall wid, current_participants (bookings_one_at_a_time d tasks) wid <= HARD_LIMIT.
Proof.
  unfold bookings_one_at_a_time. revert d.
  induction tasks as [|t tasks IH]; intros d Harr Hd wid; cbn [fold_left].
  - apply Hd.
  - apply IH; [intros t' Ht'; apply Harr; now right|].
    intros w. pose proof (booking_alone_count d t w (Harr t (or_introl eq_refl))).
    specialize (Hd w). lia.
Qed.

Lemma run_bookings_turn (i : nat) (schedule : list nat) (d d' : DB)
      (tasks : list BookingTask) (t t' : BookingTask) :
  nth_error tasks i = Some t -> booking_step d t = (d', t') ->
  run_bookings (i :: schedule) d tasks = run_bookings schedule d' (set_nth i t' tasks).
Proof.
  intros Ht Hstep. unfold run_bookings. cbn [fold_left fst snd]. now rewrite Ht, Hstep.
Qed.

Lemma create_booking_interleaved (d : DB) (wid : string) (walk : Walk)
      (now1 now2 : Z) (hex1 hex2 : string) (u1 u2 : User) :
  find_one (fun w => (walk_id w =? wid)%string) (walks d) = Some walk ->
  current_participants d wid < HARD_LIMIT ->
  find_one (fun b => (b_walk_id b =? wid)%string && (b_user_id b =? user_id u1)%string
                     && (b_status b =? "active")%string) (bookings d) = None ->
  find_one (fun b => (b_walk_id b =? wid)%string && (b_user_id b =? user_id u2)%string
                     && (b_status b =? "active")%string) (bookings d) = None ->
  run_bookings [0; 1; 0; 1; 0; 1; 0; 1]%nat d
               [AwaitWalk wid now1 hex1 u1; AwaitWalk wid now2 hex2 u2]
  = (insert_booking
       (insert_booking d (mkBooking ("booking_" ++ hex1) wid (user_id u1) (display_name u1)
                                    (email u1) now1 "active"))
       (mkBooking ("booking_" ++ hex2) wid (user_id u2) (display_name u2) (email u2) now2
                  "active"),
     [Booked (Ok (mkBooking ("booking_" ++ hex1) wid (user_id u1) (display_name u1)
                            (email u1) now1 "active"));
      Booked (Ok (mkBooking ("booking_" ++ hex2) wid (user_id u2) (display_name u2)
                            (email u2) now2 "active"))]).
Proof.
  intros Hw Hc H1 H2. apply Z.ltb_lt in Hc. rewrite Z.ltb_antisym in Hc.
  apply negb_true_iff in Hc. rewrite <- Z.geb_leb in Hc.
  assert (Swalk : forall now hex u,
             booking_step d (AwaitWalk wid now hex u) = (d, AwaitCount wid now hex u))
    by (intros; cbn [booking_step]; now rewrite Hw).
  assert (Scount : forall now hex u,
             booking_step d (AwaitCount wid now hex u) = (d, AwaitExisting wid now hex u))
    by (intros; cbn [booking_step]; now rewrite Hc).
  assert (S1 : booking_step d (AwaitExisting wid now1 hex1 u1)
               = (d, AwaitInsert wid now1 hex1 u1))
    by (cbn [booking_step]; now rewrite H1).
  assert (S2 : booking_step d (AwaitExisting wid now2 hex2 u2)
               = (d, AwaitInsert wid now2 hex2 u2))
    by (cbn [booking_step]; now rewrite H2).
  erewrite (run_bookings_turn 0); [cbn [set_nth] | reflexivity | apply Swalk].
  erewrite (run_bookings_turn 1); [cbn [set_nth] | reflexivity | apply Swalk].
  erewrite (run_bookings_turn 0); [cbn [set_nth] | reflexivity | apply Scount].
  erewrite (run_bookings_turn 1); [cbn [set_nth] | reflexivity | apply Scount].
  erewrite (run_bookings_turn 0); [cbn [set_nth] | reflexivity | exact S1].
  erewrite (run_bookings_turn 1); [cbn [set_nth] | reflexivity | exact S2].
  erewrite (run_bookings_turn 0); [cbn [set_nth] | reflexivity | reflexivity].
  erewrite (run_bookings_turn 1); [cbn [set_nth] | reflexivity | reflexivity].
  reflexivity.
Qed.

(** C9.  A [create_booking] whose count finds 10 or more active bookings
    raises 400 and leaves the database as it is, whatever the walk's
    [max_participants], and requests handled one at a time keep every walk
    at 10 active bookings or fewer.  But the count, the search for a
    booking of the user and the insertion are three awaited operations:
    when the handlers of two requests for a walk with 9 active bookings
    take turns, both count 9, both insert, and the walk has 11 active
    bookings, above the limit the handler sets itself. *)
Theorem create_booking_race_exceeds_limit :
  (forall wid now uuid_hex d current_user walk,
      In walk (walks d) -> walk_id walk = wid ->
      current_participants d wid >= 10 ->
      booking_step d (AwaitCount wid now uuid_hex current_user)
      = (d, Booked (HTTPException
                      400 "This walk has reached the maximum limit of 10 participants")) /\
      booking_alone d (AwaitWalk wid now uuid_hex current_user)
      = (d, Booked (HTTPException
                      400 "This walk has reached the maximum limit of 10 participants"))) /\
  (forall d tasks,
      (forall t, In t tasks -> arrives t = true) ->
      (forall wid, current_participants d wid <= 10) ->
      forall wid, current_participants (bookings_one_at_a_time d tasks) wid <= 10) /\
  (forall d wid walk now1 now2 hex1 hex2 u1 u2,
      find_one (fun w => (walk_id w =? wid)%string) (walks d) = Some walk ->
      current_participants d wid = 9 ->
      find_one (fun b => (b_walk_id b =? wid)%string && (b_user_id b =? user_id u1)%string
                         && (b_status b =? "active")%string) (bookings d) = None ->
      find_one (fun b => (b_walk_id b =? wid)%string && (b_user_id b =? user_id u2)%string
                         && (b_status b =? "active")%string) (bookings d) = None ->
      let after := run_bookings [0; 1; 0; 1; 0; 1; 0; 1]%nat d
                                [AwaitWalk wid now1 hex1 u1; AwaitWalk wid now2 hex2 u2] in
      (exists b1 b2, snd after = [Booked (Ok b1); Booked (Ok b2)]) /\
      current_participants (fst after) wid = 11 /\
      current_participants (fst after) wid > HARD_LIMIT).
Proof.
  split; [|split].
  - intros wid now uuid_hex d u walk Hin Hid Hfull.
    assert (E : (current_participants d wid >=? HARD_LIMIT) = true).
    { unfold HARD_LIMIT. destruct (Z.geb_spec (current_participants d wid) 10);
        [reflexivity | lia]. }
    split; [cbn [booking_step]; now rewrite E|].
    rewrite booking_alone_create. unfold create_booking.
    destruct (find_one_some (fun w => (walk_id w =? wid)%string) (walks d) walk Hin)
      as (w & -> & _ & _); [now apply String.eqb_eq|].
    now rewrite E.
  - intros d tasks Harr Hd wid. now apply bookings_one_at_a_time_limit.
  - intros d wid walk now1 now2 hex1 hex2 u1 u2 Hw Hc H1 H2. cbv zeta.
    rewrite (create_booking_interleaved d wid walk now1 now2 hex1 hex2 u1 u2 Hw)
      by (assumption || (unfold HARD_LIMIT; lia)).
    cbn [fst snd]. split; [now eexists _, _|].
    rewrite !current_participants_insert. unfold is_active_on. cbn [b_walk_id b_status].
    rewrite !String.eqb_refl. cbn [andb]. unfold HARD_LIMIT. lia.
Qed.

Lemma create_booking_race_exceeds_limit_witness :
  max_participants (sample_walk "w1" "2025-11-04" 50 None) = 50 /\
  booking_alone full_db (AwaitWalk "w1" 1000 "abc" bob)
  = (full_db,
     Booked (HTTPException 400 "This walk has reached the maximum limit of 10 participants")) /\
  current_participants nine_db "w1" = 9 /\
  current_participants
    (bookings_one_at_a_time nine_db [AwaitWalk "w1" 1000 "abc" alice;
                                     AwaitWalk "w1" 1001 "abd" bob]) "w1" <= 10 /\
  current_participants
    (fst (run_bookings [0; 1; 0; 1; 0; 1; 0; 1]%nat nine_db
                       [AwaitWalk "w1" 1000 "abc" alice; AwaitWalk "w1" 1001 "abd" bob]))
    "w1" = 11.
Proof.
  destruct create_booking_race_exceeds_limit as (Hfull & Hseq & Hrace).
  split; [reflexivity|]. split; [|split; [reflexivity|split]].
  - apply (Hfull "w1" 1000 "abc" full_db bob (sample_walk "w1" "2025-11-04" 50 None));
      [now left | reflexivity | vm_compute; discriminate].
  - apply Hseq.
    + intros t [<- | [<- | []]]; reflexivity.
    + intros wid. unfold current_participants, nine_db; cbn [bookings map filter].
      unfold is_active_on, sample_booking; cbn [b_walk_id b_status].
      destruct (String.eqb "w1" wid); cbn; lia.
  - apply (Hrace nine_db "w1" (sample_walk "w1" "2025-11-04" 50 None) 1000 1001 "abc" "abd"
                 alice bob); reflexivity.
Defined.

Example create_booking_ninth_then_tenth :
  let d := mkDB [alice; bob] [sample_walk "w1" "2025-11-04" 50 None]
                (map (sample_booking "w1") ["u0"; "u1"; "u2"; "u3"; "u4"; "u5"; "u6"; "u7"; "u8"])
                [] [] [] [] in
  current_participants (snd (create_booking "w1" 1000 "abc" d bob)) "w1" = 10 /\
  current_participants
    (snd (create_booking "w1" 1001 "abd" (snd (create_booking "w1" 1000 "abc" d bob)) alice))
    "w1" = 10.
Proof. split; reflexivity. Qed.

(** ** The targeting engine *)

Lemma age_match_flag (groups : list string) (a : Z) (flag : bool) :
  fold_left (fun f g => if age_group_holds g a then true else f) groups flag
  = flag || existsb (fun g => age_group_holds g a) groups.
Proof.
  revert flag. induction groups as [|g groups IH]; intros flag; simpl.
  - now rewrite orb_false_r.
  - rewrite IH. destruct (age_group_holds g a), flag; reflexivity.
Qed.

Lemma age_match_exists (groups : list string) (a : Z) :
  age_match groups a = true <->
  exists g, In g groups /\ age_group_holds g a = true.
Proof.
  unfold age_match. rewrite age_match_flag. simpl. apply existsb_exists.
Qed.

Lemma in_to_list {A : Type} (n : Z) (l : list A) (x : A) :
  In x (to_list n l) -> In x l.
Proof.
  unfold to_list. intros H. rewrite <- (firstn_skipn (Z.to_nat n) l).
  apply in_or_app. now left.
Qed.

Lemma to_list_all {A : Type} (n : Z) (l : list A) :
  Z.of_nat (length l) <= n -> to_list n l = l.
Proof. intros H. unfold to_list. apply firstn_all2. lia. Qed.

Lemma base_query_conditions (walk : Walk) (u : User) :
  base_query walk u = true <-> base_conditions walk u.
Proof.
  unfold base_query, base_conditions, accepted_sex_values.
  set (values := sex_match_values _).
  rewrite !andb_true_iff, negb_true_iff, String.eqb_neq. split.
  - intros [[[Hn Hc] Ho] Hs]. repeat split.
    + destruct (notifications_enabled u) as [[|]|]; congruence.
    + destruct (city u) as [c|]; [|discriminate]. apply String.eqb_eq in Hc. now subst.
    + assumption.
    + intros Hv. destruct values as [|v values']; [contradiction|].
      destruct (sex u) as [s|]; [|discriminate].
      exists s. split; [reflexivity | now apply str_in_true].
  - intros (Hn & Hc & Ho & Hs). rewrite Hn, Hc. repeat split.
    + apply String.eqb_refl.
    + assumption.
    + destruct values as [|v values']; [reflexivity|].
      destruct Hs as (s & -> & Hin); [discriminate|]. now apply str_in_true.
Qed.

Lemma matched_users_age (d : DB) (walk : Walk) (u : User) :
  In u (matched_users d walk) <->
  In u (potential_users d walk) /\ age_condition walk u.
Proof.
  unfold matched_users, age_condition.
  destruct (walk_age_groups walk) as [|g groups] eqn:E.
  - split; [intros H; split; [assumption | congruence] | tauto].
  - rewrite filter_In. split.
    + intros [Hin Ha]. split; [assumption|]. intros _.
      destruct (age u) as [a|]; [|discriminate].
      apply age_match_exists in Ha as (g' & Hg & Hh). now exists a, g'.
    + intros [Hin Ha]. split; [assumption|].
      destruct Ha as (a & g' & -> & Hg & Hh); [discriminate|].
      apply age_match_exists. now exists g'.
Qed.

Lemma normalize_sex_list_In (l : list string) (n : string) :
  In n (normalize_sex_list (Some l)) <->
  exists w, In w l /\ normalize_sex (Some w) = Some n /\ truthy n = true.
Proof.
  unfold normalize_sex_list. rewrite in_flat_map. split.
  - intros (w & Hw & Hn). exists w. split; [assumption|].
    destruct (normalize_sex (Some w)) as [m|]; [|contradiction].
    destruct (truthy m) eqn:Et; [|contradiction].
    destruct Hn as [<- | []]. now split.
  - intros (w & Hw & Hn & Ht). exists w. split; [assumption|].
    rewrite Hn, Ht. now left.
Qed.

Lemma stored_spellings_truthy (n s : string) : In s (stored_spellings n) -> truthy n = true.
Proof.
  unfold stored_spellings.
  destruct (String.eqb_spec n "M") as [->|_]; [reflexivity|].
  destruct (String.eqb_spec n "F") as [->|_]; [reflexivity|].
  destruct (String.eqb_spec n "X") as [->|_]; [reflexivity|].
  intros [].
Qed.

Lemma accepted_sex_values_In (walk : Walk) (s : string) :
  In s (accepted_sex_values walk) <->
  exists l w n,
    walk_sex_list walk = Some l /\ In w l /\
    normalize_sex (Some w) = Some n /\ In s (stored_spellings n).
Proof.
  unfold accepted_sex_values.
  change (sex_match_values (normalize_sex_list (walk_sex_list walk)))
    with (flat_map stored_spellings (normalize_sex_list (walk_sex_list walk))).
  rewrite in_flat_map. split.
  - intros (n & Hn & Hs). destruct (walk_sex_list walk) as [l|]; [|contradiction].
    apply normalize_sex_list_In in Hn as (w & Hw & Hn & _). now exists l, w, n.
  - intros (l & w & n & -> & Hw & Hn & Hs). exists n. split; [|assumption].
    apply normalize_sex_list_In. exists w. repeat split; try assumption.
    now apply stored_spellings_truthy with s.
Qed.

Lemma filter_map_commute {A : Type} (p : A -> bool) (f : A -> A) (l : list A) :
  (forall x, p (f x) = p x) -> filter p (map f l) = map f (filter p l).
Proof.
  intros H. induction l as [|x l IH]; simpl; [reflexivity|].
  rewrite H. destruct (p x); simpl; now rewrite IH.
Qed.

Lemma matched_users_neighborhood (d : DB) (walk : Walk) (f : User -> option string) :
  matched_users (set_users d (map (fun u => set_user_neighborhood (f u) u) (users d))) walk
  = map (fun u => set_user_neighborhood (f u) u) (matched_users d walk).
Proof.
  unfold matched_users, potential_users, to_list. cbn [users set_users].
  rewrite filter_map_commute by reflexivity. rewrite firstn_map.
  destruct (walk_age_groups walk); [reflexivity|].
  now rewrite filter_map_commute by reflexivity.
Qed.

Lemma pushed_user_ids_emails (kind : string) (f : User -> Event) (l : list User) :
  (forall u, exists to subject sent, f u = EmailCall to subject sent) ->
  pushed_user_ids kind (map f l) = [].
Proof.
  intros Hf. induction l as [|u l IH]; simpl; [reflexivity|].
  destruct (Hf u) as (to & subject & sent & ->). exact IH.
Qed.

Lemma pushed_user_ids_push (kind k about : string) (uids tokens : list string)
      (evs : list Event) :
  pushed_user_ids kind (PushToUsers k about uids tokens :: evs)
  = ((if (k =? kind)%string then uids else []) ++ pushed_user_ids kind evs)%list.
Proof. reflexivity. Qed.

Lemma pushed_user_ids_notify (cfg : MailConfig) (d : DB) (walk : Walk) :
  pushed_user_ids "new_walk" (notify_previous_participants cfg d walk)
  = map user_id (matched_users d walk).
Proof.
  unfold notify_previous_participants.
  destruct (matched_users d walk) as [|u us]; [reflexivity|].
  unfold send_push_to_users. rewrite pushed_user_ids_push, pushed_user_ids_emails.
  - rewrite String.eqb_refl. apply app_nil_r.
  - intros v. now eexists _, _, _.
Qed.

(** The selection is not the one the specification words.  Carol's stored
    sex "male" normalizes to "M", the only condition of [men_walk], and she
    meets every other condition, but the query accepts the spellings "M" and
    "Male" only and she is not addressed.  [nonbinary_walk] lists a sex condition that
    normalizes to none of M, F and X, so the query has no sex filter and
    Bob, whose sex does not match it, is addressed.  And of the 10001 users
    of [populous_db], who all meet the conditions of [open_walk], the last
    one is not addressed. *)
Lemma notify_selection_differs :
  (In carol (users targeting_db) /\
   spec_alerted men_walk carol = true /\
   ~ In (user_id carol)
        (pushed_user_ids "new_walk"
           (notify_previous_participants mail_configured targeting_db men_walk))) /\
  (In bob (users targeting_db) /\
   spec_alerted nonbinary_walk bob = false /\
   In (user_id bob)
      (pushed_user_ids "new_walk"
         (notify_previous_participants mail_configured targeting_db nonbinary_walk))) /\
  (nth_error (users populous_db) 10000
   = Some (sample_user "user_010000" (Some "F") "Paris" (Some 30) None) /\
   spec_alerted open_walk (sample_user "user_010000" (Some "F") "Paris" (Some 30) None)
   = true /\
   In "user_009999"
      (pushed_user_ids "new_walk"
         (notify_previous_participants mail_configured populous_db open_walk)) /\
   ~ In "user_010000"
        (pushed_user_ids "new_walk"
           (notify_previous_participants mail_configured populous_db open_walk))).
Proof.
  split; [|split].
  - split; [simpl; tauto|]. split; [vm_compute; reflexivity|].
    apply not_in_by_computation. vm_compute. reflexivity.
  - split; [simpl; tauto|]. split; [vm_compute; reflexivity|].
    apply in_by_computation. vm_compute. reflexivity.
  - assert (E : (fun ids : list string =>
                   (str_in "user_009999" ids, str_in "user_010000" ids))
                  (pushed_user_ids "new_walk"
                     (notify_previous_participants mail_configured populous_db open_walk))
                = (true, false)) by (vm_compute; reflexivity).
    cbv beta in E. apply pair_equal_spec in E as [E1 E2].
    split; [vm_compute; reflexivity|]. split; [vm_compute; reflexivity|].
    split; [exact (in_by_computation _ _ E1) | exact (not_in_by_computation _ _ E2)].
Qed.

(** What the function does.  [notify_previous_participants] addresses its
    push to the users it matched, and to them only.  A matched user is one of the first
    10000 documents that pass the base query and meets the age condition;
    passing the base query means: notifications enabled, the walk's city,
    not the organizer and, when some sex condition of the walk normalizes to
    M, F or X, a stored sex that is literally one of the accepted spellings
    of such a condition.  With at most 10000 users passing the base query
    every user meeting the conditions is matched.  The neighborhood of the
    walk and of the users plays no role. *)
Theorem notify_previous_participants_targets (cfg : MailConfig) (d : DB) (walk : Walk) :
  pushed_user_ids "new_walk" (notify_previous_participants cfg d walk)
  = map user_id (matched_users d walk) /\
  (forall u, In u (matched_users d walk) <->
             In u (to_list 10000 (filter (base_query walk) (users d))) /\
             age_condition walk u) /\
  (forall u, base_query walk u = true <-> base_conditions walk u) /\
  (forall u, In u (matched_users d walk) ->
             In u (users d) /\ base_conditions walk u /\ age_condition walk u) /\
  (Z.of_nat (length (filter (base_query walk) (users d))) <= 10000 ->
   forall u, In u (users d) -> base_conditions walk u -> age_condition walk u ->
             In u (matched_users d walk)) /\
  (forall s, In s (accepted_sex_values walk) <->
             exists l w n,
               walk_sex_list walk = Some l /\ In w l /\
               normalize_sex (Some w) = Some n /\ In s (stored_spellings n)) /\
  (forall n, matched_users d (set_walk_neighborhood n walk) = matched_users d walk) /\
  (forall f : User -> option string,
      matched_users (set_users d (map (fun u => set_user_neighborhood (f u) u) (users d)))
                    walk
      = map (fun u => set_user_neighborhood (f u) u) (matched_users d walk)).
Proof.
  split; [apply pushed_user_ids_notify|].
  split; [intros u; apply matched_users_age|].
  split; [intros u; apply base_query_conditions|].
  split; [|split; [|split; [|split]]].
  - intros u Hu. apply matched_users_age in Hu as [Hp Ha].
    apply in_to_list, filter_In in Hp as [Hin Hb].
    apply base_query_conditions in Hb. tauto.
  - intros Hcap u Hin Hb Ha. apply matched_users_age. split; [|assumption].
    unfold potential_users. rewrite to_list_all by assumption.
    apply filter_In. split; [assumption | now apply base_query_conditions].
  - intros s. apply accepted_sex_values_In.
  - reflexivity.
  - intros f. apply matched_users_neighborhood.
Qed.

Lemma notify_previous_participants_targets_witness :
  In bob (matched_users targeting_db adults_walk).
Proof.
  destruct (notify_previous_participants_targets mail_configured targeting_db adults_walk)
    as (_ & _ & _ & _ & H & _).
  apply H.
  - vm_compute. discriminate.
  - right. now left.
  - repeat split; try reflexivity.
    + discriminate.
    + intros _. exists "M". split; [reflexivity|]. vm_compute. tauto.
  - intros _. exists 40, "35-44". repeat split. vm_compute. tauto.
Defined.

Lemma passes_condition_filters_spec (u : User) (walk : Walk) :
  passes_condition_filters u walk = spec_sex_ok walk u && spec_age_ok walk u.
Proof.
  unfold passes_condition_filters, spec_sex_ok, spec_age_ok, walk_sex_list,
    walk_age_groups.
  destruct (conditions walk) as [c|]; [|reflexivity].
  assert (Eage : match cond_age_groups c with
                 | Some (g :: gs) =>
                     match age u with
                     | None => false
                     | Some user_age => age_match (g :: gs) user_age
                     end
                 | _ => true
                 end
                 = match match cond_age_groups c with Some l => l | None => [] end with
                   | [] => true
                   | g :: gs =>
                       match age u with
                       | Some a => existsb (fun g' => age_group_holds g' a) (g :: gs)
                       | None => false
                       end
                   end).
  { destruct (cond_age_groups c) as [[|g gs]|]; try reflexivity.
    destruct (age u) as [a|]; [|reflexivity].
    unfold age_match. now rewrite age_match_flag. }
  rewrite Eage.
  assert (Hif : forall b : bool, (if negb b then false else true) = b)
    by (intros []; reflexivity).
  destruct (cond_sex c) as [[|x l]|]; cbn [negb andb]; try apply Hif.
  destruct (normalize_sex (sex u)) as [n|]; cbn [negb andb]; [|reflexivity].
  destruct (str_in n _); cbn [negb andb]; [apply Hif | reflexivity].
Qed.

(** C1.  The selection of [notify_previous_participants] does not apply the
    sex condition as its documentation ("users with matching city, sex, and
    age group", "add sex filter if walk has sex requirements") and the walk
    list of [get_walks] have it.  When the walk lists sex conditions of
    which none normalizes to M, F or X, the query has no sex filter at all:
    a user of the city who meets the other conditions is alerted although
    his sex matches none of the conditions, and [get_walks] does not show
    him the walk.  And when a condition normalizes to M, F or X, the stored
    sex of the user is compared with a fixed list of spellings without
    being normalized: a user who meets every condition as the specification
    words it, and whom [get_walks] shows the walk, is not alerted when his
    sex is stored in another spelling. *)
Theorem notify_sex_condition_slips (cfg : MailConfig) (d : DB) (walk : Walk) (u : User) :
  (accepted_sex_values walk = [] ->
   spec_sex_ok walk u = false ->
   In u (users d) ->
   Z.of_nat (length (filter (base_query walk) (users d))) <= 10000 ->
   notifications_enabled u = Some true ->
   city u = Some (walk_city walk) ->
   user_id u <> organizer_id walk ->
   age_condition walk u ->
   In (user_id u) (pushed_user_ids "new_walk" (notify_previous_participants cfg d walk)) /\
   spec_alerted walk u = false /\
   passes_condition_filters u walk = false) /\
  (forall s,
      accepted_sex_values walk <> [] ->
      sex u = Some s -> ~ In s (accepted_sex_values walk) ->
      spec_alerted walk u = true ->
      ~ In u (matched_users d walk) /\
      passes_condition_filters u walk = true).
Proof.
  split.
  - intros Hnone Hsex Hin Hcap Hn Hc Ho Hage. split; [|split].
    + rewrite pushed_user_ids_notify. apply in_map. apply matched_users_age.
      split; [|exact Hage]. unfold potential_users. rewrite to_list_all by exact Hcap.
      apply filter_In. split; [exact Hin|]. apply base_query_conditions.
      split; [exact Hn|]. split; [exact Hc|]. split; [exact Ho|].
      intros Hne. now elim Hne.
    + unfold spec_alerted. rewrite Hsex. now rewrite andb_false_r.
    + rewrite passes_condition_filters_spec, Hsex. reflexivity.
  - intros s Hne Hs Hnot Hspec. split.
    + intros Hin. apply matched_users_age in Hin as [Hpot _].
      apply in_to_list, filter_In in Hpot as [_ Hq].
      apply base_query_conditions in Hq as (_ & _ & _ & Hsex).
      destruct (Hsex Hne) as (s' & Es & Hs'). rewrite Hs in Es. injection Es as <-.
      now apply Hnot.
    + rewrite passes_condition_filters_spec. unfold spec_alerted in Hspec.
      apply andb_true_iff in Hspec as [Hspec Hage].
      apply andb_true_iff in Hspec as [_ Hsex]. now rewrite Hsex, Hage.
Qed.

Lemma notify_sex_condition_slips_witness :
  (In "bob" (pushed_user_ids
               "new_walk"
               (notify_previous_participants mail_configured targeting_db nonbinary_walk)) /\
   spec_alerted nonbinary_walk bob = false /\
   passes_condition_filters bob nonbinary_walk = false) /\
  (~ In carol (matched_users targeting_db men_walk) /\
   passes_condition_filters carol men_walk = true).
Proof.
  split.
  - destruct (notify_sex_condition_slips mail_configured targeting_db nonbinary_walk bob)
      as [H _].
    apply H; try reflexivity.
    + right. left. reflexivity.
    + vm_compute. discriminate.
    + discriminate.
    + intros Hgroups. now elim Hgroups.
  - destruct (notify_sex_condition_slips mail_configured targeting_db men_walk carol)
      as [_ H].
    apply (H "male"); try reflexivity.
    + discriminate.
    + apply not_in_by_computation. reflexivity.
Defined.

Example notify_adults_walk :
  notify_previous_participants mail_configured targeting_db adults_walk
  = [PushToUsers "new_walk" "w8" ["bob"] ["ExponentPushToken[b1]"];
     EmailCall "bob@example.org" "New Walk: Walk w8" false].
Proof. vm_compute. reflexivity. Qed.

(** ** E-mail notifications *)

Lemma send_email_notification_false (cfg : MailConfig) (to subject : string) :
  send_email_notification cfg to subject = false.
Proof. unfold send_email_notification. now destruct (_ || _). Qed.

Lemma emails_of_calls (cfg : MailConfig) (subject : string) (l : list User) :
  let calls := map (fun u => EmailCall (email u) subject
                                (send_email_notification cfg (email u) subject)) l in
  emails_attempted calls = map email l /\ emails_sent calls = [].
Proof.
  induction l as [|u l [IH1 IH2]]; simpl; [now split|].
  rewrite send_email_notification_false. simpl in *. split; [now f_equal | assumption].
Qed.

(** C8, as the claim words it, fails: with SendGrid configured, Bob is
    matched for [men_walk] and has e-mail notifications enabled, and no
    e-mail goes out to him. *)
Lemma new_walk_email_not_sent :
  In bob (matched_users targeting_db men_walk) /\
  wants_email bob = true /\
  ~ In (email bob)
       (emails_sent (notify_previous_participants mail_configured targeting_db men_walk)).
Proof.
  split; [vm_compute; tauto|]. split; [reflexivity|].
  vm_compute. tauto.
Qed.

(** C8, amended.  When a new walk is created, [send_email_notification] is
    called, after the push, for exactly the matched users whose
    [email_notifications] is enabled or not set; the call writes a mock line
    to the log and returns [False], with SendGrid configured or not: no
    e-mail is sent. *)
Theorem new_walk_emails_are_mocked (cfg : MailConfig) (d : DB) (walk : Walk) :
  emails_attempted (notify_previous_participants cfg d walk)
  = map email (filter wants_email (matched_users d walk)) /\
  emails_sent (notify_previous_participants cfg d walk) = [] /\
  (forall to subject, send_email_notification cfg to subject = false) /\
  pushed_user_ids "new_walk" (notify_previous_participants cfg d walk)
  = map user_id (matched_users d walk).
Proof.
  split; [|split; [|split]].
  - unfold notify_previous_participants.
    destruct (matched_users d walk) as [|u us] eqn:E; [reflexivity|].
    unfold send_push_to_users.
    apply (emails_of_calls cfg ("New Walk: " ++ title walk) (filter wants_email (u :: us))).
  - unfold notify_previous_participants.
    destruct (matched_users d walk) as [|u us] eqn:E; [reflexivity|].
    unfold send_push_to_users.
    apply (emails_of_calls cfg ("New Walk: " ++ title walk) (filter wants_email (u :: us))).
  - apply send_email_notification_false.
  - apply pushed_user_ids_notify.
Qed.

(** ** The 24-hour reminder job *)

Lemma length_append (s t : string) :
  String.length (s ++ t) = (String.length s + String.length t)%nat.
Proof. induction s as [|c s IH]; simpl; [reflexivity | now rewrite IH]. Qed.

Lemma append_cancel_r (s1 s2 t : string) : s1 ++ t = s2 ++ t -> s1 = s2.
Proof.
  revert s2. induction s1 as [|c s1 IH]; intros [|c2 s2] H; simpl in H.
  - reflexivity.
  - apply (f_equal String.length) in H. simpl in H. rewrite length_append in H. lia.
  - apply (f_equal String.length) in H. simpl in H. rewrite length_append in H. lia.
  - injection H as -> H. f_equal. now apply IH.
Qed.

Lemma append_cancel_l (p s1 s2 : string) : p ++ s1 = p ++ s2 -> s1 = s2.
Proof. induction p as [|c p IH]; simpl; [tauto | intros [= H]; now apply IH]. Qed.

(** For one day, different walks have different keys. *)
Lemma reminder_key_inj (id1 id2 day : string) :
  reminder_key id1 day = reminder_key id2 day -> id1 = id2.
Proof.
  unfold reminder_key. intros H. apply append_cancel_l in H.
  now apply append_cancel_r in H.
Qed.

Lemma utc_day_tomorrow (now : Z) : utc_day (now + timedelta_days 1) = utc_day now + 1.
Proof.
  unfold utc_day, timedelta_days, seconds_per_day. now rewrite Z.div_add by lia.
Qed.

Lemma tomorrow_date_day (now : Z) : tomorrow_date now = format_day (utc_day now + 1).
Proof. unfold tomorrow_date, strftime_ymd. now rewrite utc_day_tomorrow. Qed.

Lemma has_reminder_insert (d : DB) (r : ReminderSent) (k : string) :
  has_reminder (insert_reminder d r) k = has_reminder d k || (key r =? k)%string.
Proof.
  unfold has_reminder, find_one, insert_reminder. cbn [reminders_sent].
  induction (reminders_sent d) as [|x l IH]; simpl.
  - now destruct (key r =? k)%string.
  - destruct (key x =? k)%string; [reflexivity | exact IH].
Qed.

Lemma has_reminder_In (d : DB) (k : string) :
  has_reminder d k = true <-> exists r, In r (reminders_sent d) /\ key r = k.
Proof.
  unfold has_reminder, find_one. split.
  - destruct (find _ _) as [r|] eqn:E; [|discriminate]. intros _.
    apply find_some in E as [Hin Hk]. exists r. split; [assumption | now apply String.eqb_eq].
  - intros (r & Hin & Hk). destruct (find _ _) as [r'|] eqn:E; [reflexivity|].
    apply (find_none _ _ E) in Hin. apply String.eqb_neq in Hin. contradiction.
Qed.

(** [send_walk_reminder] reads users, walks, bookings and push tokens only. *)
Lemma send_walk_reminder_insert (cfg : MailConfig) (d : DB) (r : ReminderSent) (wid : string) :
  send_walk_reminder cfg (insert_reminder d r) wid = send_walk_reminder cfg d wid.
Proof. reflexivity. Qed.

Lemma reminder_step_eq (cfg : MailConfig) (now : Z) (d : DB) (evs : list Event) (w : Walk) :
  reminder_step cfg now (d, evs) w
  = if has_reminder d (reminder_key (walk_id w) (tomorrow_date now)) then (d, evs)
    else (insert_reminder d (reminder_record now (walk_id w)),
          (evs ++ send_walk_reminder cfg d (walk_id w))%list).
Proof. reflexivity. Qed.

Lemma reminder_loop (cfg : MailConfig) (now : Z) (ws : list Walk) :
  forall d evs0, exists ids evs,
    fold_left (reminder_step cfg now) ws (d, evs0)
    = (fst (fold_left (reminder_step cfg now) ws (d, evs0)), (evs0 ++ evs)%list) /\
    reminder_outcome cfg now ws d
                     (fst (fold_left (reminder_step cfg now) ws (d, evs0))) evs ids.
Proof.
  induction ws as [|w ws IH]; intros d evs0.
  - exists [], []. simpl. rewrite app_nil_r. split; [reflexivity|].
    unfold reminder_outcome. simpl. rewrite app_nil_r.
    repeat split; try constructor; try (now destruct d).
    intros [(w & [] & _) _].
  - cbn [fold_left]. rewrite reminder_step_eq.
    set (k := reminder_key (walk_id w) (tomorrow_date now)).
    destruct (has_reminder d k) eqn:Hk.
    + destruct (IH d evs0) as (ids & evs & Hfold & Hd & Hevs & Hnd & Hin).
      exists ids, evs. split; [exact Hfold|].
      split; [exact Hd|]. split; [exact Hevs|]. split; [exact Hnd|].
      intros id. rewrite Hin. split.
      * intros [(w' & Hw' & Hid) Hno]. split; [|assumption].
        exists w'. split; [now right | assumption].
      * intros [(w' & [<- | Hw'] & Hid) Hno].
        -- subst id. fold k in Hno. congruence.
        -- split; [now exists w' | assumption].
    + set (d1 := insert_reminder d (reminder_record now (walk_id w))).
      destruct (IH d1 (evs0 ++ send_walk_reminder cfg d (walk_id w))%list)
        as (ids & evs & Hfold & Hd & Hevs & Hnd & Hin).
      exists (walk_id w :: ids), (send_walk_reminder cfg d (walk_id w) ++ evs)%list.
      split; [rewrite Hfold at 1; now rewrite app_assoc|].
      assert (Hmono : forall id, has_reminder d1 (reminder_key id (tomorrow_date now))
                                 = has_reminder d (reminder_key id (tomorrow_date now))
                                   || (k =? reminder_key id (tomorrow_date now))%string).
      { intros id. unfold d1. now rewrite has_reminder_insert. }
      fold d1.
      split; [|split; [|split]].
      * rewrite Hd. unfold d1, insert_reminder. cbn [users walks bookings push_tokens
          reminders_sent retention_notifications user_sessions map].
        now rewrite <- app_assoc.
      * cbn [flat_map]. now rewrite Hevs.
      * constructor; [|assumption]. intros Hc. apply Hin in Hc as [_ Hc].
        rewrite Hmono in Hc. fold k in Hc. rewrite String.eqb_refl, orb_true_r in Hc.
        discriminate.
      * intros id. split.
        -- intros [<- | H].
           ++ split; [exists w; split; [now left | reflexivity] | exact Hk].
           ++ apply Hin in H as [(w' & Hw' & Hid) H]. split.
              ** exists w'. split; [now right | assumption].
              ** rewrite Hmono in H. now apply orb_false_iff in H.
        -- intros [(w' & Hw' & Hid) Hno].
           destruct (String.eqb_spec k (reminder_key id (tomorrow_date now))) as [E|E].
           ++ left. now apply reminder_key_inj in E.
           ++ right. apply Hin. split.
              ** destruct Hw' as [<- | Hw']; [|now exists w'].
                 subst id. now contradiction E.
              ** rewrite Hmono, Hno. now apply String.eqb_neq.
Qed.

Lemma reminder_skip_all (cfg : MailConfig) (now : Z) (ws : list Walk) (d : DB)
      (evs : list Event) :
  (forall w, In w ws ->
             has_reminder d (reminder_key (walk_id w) (tomorrow_date now)) = true) ->
  fold_left (reminder_step cfg now) ws (d, evs) = (d, evs).
Proof.
  induction ws as [|w ws IH]; intros H; [reflexivity|].
  cbn [fold_left]. rewrite reminder_step_eq, (H w (or_introl eq_refl)).
  apply IH. intros w' Hw'. apply H. now right.
Qed.

Lemma send_walk_reminder_push (cfg : MailConfig) (d : DB) (id : string) :
  (exists w, In w (walks d) /\ walk_id w = id) ->
  forall u, In u (pushed_user_ids "walk_reminder" (send_walk_reminder cfg d id)) <->
            exists b, In b (active_bookings_of d id) /\ b_user_id b = u.
Proof.
  intros (w & Hw & Hid) u. unfold send_walk_reminder.
  destruct (find_one_some (fun w => (walk_id w =? id)%string) (walks d) w Hw)
    as (walk & -> & _ & _); [now apply String.eqb_eq|].
  destruct (active_bookings_of d id) as [|b bs].
  - simpl. split; [intros [] | intros (b & [] & _)].
  - unfold send_push_to_users. rewrite pushed_user_ids_push, pushed_user_ids_emails.
    + rewrite String.eqb_refl, app_nil_r. unfold unique. rewrite nodup_In, in_map_iff.
      split; intros (b' & H1 & H2); exists b'; tauto.
    + intros v. now eexists _, _, _.
Qed.

Lemma active_bookings_of_In (d : DB) (id : string) (b : Booking) :
  In b (active_bookings_of d id) ->
  In b (bookings d) /\ b_walk_id b = id /\ b_status b = "active".
Proof.
  unfold active_bookings_of. intros H. apply in_to_list, filter_In in H as [Hin Hb].
  unfold is_active_on in Hb. apply andb_prop in Hb as [H1 H2].
  apply String.eqb_eq in H1, H2. tauto.
Qed.

Lemma pushed_user_ids_flat_map {A : Type} (kind : string) (f : A -> list Event)
      (l : list A) (u : string) :
  In u (pushed_user_ids kind (flat_map f l)) <->
  exists x, In x l /\ In u (pushed_user_ids kind (f x)).
Proof.
  unfold pushed_user_ids. rewrite in_flat_map. split.
  - intros (e & He & Hu). apply in_flat_map in He as (x & Hx & He).
    exists x. split; [assumption|]. apply in_flat_map. now exists e.
  - intros (x & Hx & Hu). apply in_flat_map in Hu as (e & He & Hu).
    exists e. split; [|assumption]. apply in_flat_map. now exists x.
Qed.

(** The users a run addresses hold an active booking, among the first 1000,
    on a walk the run reminds. *)
Lemma reminders_pushed (cfg : MailConfig) (now : Z) (d : DB) (ids : list string)
      (evs : list Event) (u : string) :
  reminder_outcome cfg now (walks_tomorrow now d) d
                   (fst (check_and_send_24h_reminders cfg now d)) evs ids ->
  In u (pushed_user_ids "walk_reminder" evs) <->
  exists id b, In id ids /\ In b (active_bookings_of d id) /\ b_user_id b = u.
Proof.
  intros (_ & -> & _ & Hin). rewrite pushed_user_ids_flat_map.
  assert (Hex : forall id, In id ids -> exists w, In w (walks d) /\ walk_id w = id).
  { intros id Hid. apply Hin in Hid as [(w & Hw & Hid) _]. exists w.
    split; [|assumption]. apply in_to_list, filter_In in Hw. tauto. }
  split.
  - intros (id & Hid & Hu).
    apply (send_walk_reminder_push cfg d id (Hex id Hid)) in Hu as (b & Hb & Hu).
    now exists id, b.
  - intros (id & b & Hid & Hb & Hu). exists id. split; [assumption|].
    apply (send_walk_reminder_push cfg d id (Hex id Hid)). now exists b.
Qed.

Lemma reminders_run_outcome (cfg : MailConfig) (now : Z) (d : DB) :
  exists ids,
    reminder_outcome cfg now (walks_tomorrow now d) d
                     (fst (check_and_send_24h_reminders cfg now d))
                     (snd (check_and_send_24h_reminders cfg now d)) ids.
Proof.
  unfold check_and_send_24h_reminders.
  destruct (reminder_loop cfg now (walks_tomorrow now d) d []) as (ids & evs & Hf & Ho).
  exists ids. rewrite Hf at 2. exact Ho.
Qed.

(** C2, as the claim words it, fails.  Of 1001 walks on the day after the
    current one, none with a [reminders_sent] record, the run handles the
    first 1000: the last one gets no record, and Bob, who holds an active
    booking on it, is not addressed.  And of the 1001 users with an active
    booking on the walk of [busy_db], the last one is not addressed. *)
Lemma reminders_skip_beyond_1000 :
  (nth_error (walks crowded_db) 1000
   = Some (sample_walk "walk_001000" "2025-11-04" 10 None) /\
   date (sample_walk "walk_001000" "2025-11-04" 10 None)
   = format_day (utc_day nov3_morning + 1) /\
   has_reminder crowded_db (reminder_key "walk_001000" "2025-11-04") = false /\
   In (sample_booking "walk_001000" "bob") (bookings crowded_db) /\
   is_active_on "walk_001000" (sample_booking "walk_001000" "bob") = true /\
   has_reminder (fst (check_and_send_24h_reminders mail_configured nov3_morning crowded_db))
                (reminder_key "walk_001000" "2025-11-04") = false /\
   ~ In "bob"
        (pushed_user_ids "walk_reminder"
           (snd (check_and_send_24h_reminders mail_configured nov3_morning crowded_db)))) /\
  (nth_error (bookings busy_db) 1000 = Some (sample_booking "w5" "user_001000") /\
   is_active_on "w5" (sample_booking "w5" "user_001000") = true /\
   In "user_000999"
      (pushed_user_ids "walk_reminder"
         (snd (check_and_send_24h_reminders mail_configured nov3_morning busy_db))) /\
   ~ In "user_001000"
        (pushed_user_ids "walk_reminder"
           (snd (check_and_send_24h_reminders mail_configured nov3_morning busy_db)))).
Proof.
  assert (Hday : tomorrow_date nov3_morning = "2025-11-04") by reflexivity.
  split.
  - destruct (reminders_run_outcome mail_configured nov3_morning crowded_db)
      as (ids & Ho).
    pose proof (reminders_pushed mail_configured nov3_morning crowded_db ids _ "bob" Ho)
      as Hpushed.
    destruct Ho as (Hd & _ & _ & Hin).
    assert (Hlast : ~ In "walk_001000" ids).
    { intros Hid. apply (proj1 (Hin "walk_001000")) in Hid as [(w & Hw & Hid) _].
      assert (E : forallb (fun w => negb (walk_id w =? "walk_001000")%string)
                          (walks_tomorrow nov3_morning crowded_db) = true)
        by (vm_compute; reflexivity).
      rewrite forallb_forall in E. specialize (E w Hw).
      rewrite Hid, String.eqb_refl in E. discriminate E. }
    split; [vm_compute; reflexivity|].
    split; [vm_compute; reflexivity|].
    split; [vm_compute; reflexivity|].
    split; [exact (or_introl eq_refl)|].
    split; [vm_compute; reflexivity|].
    split.
    + destruct (has_reminder _ _) eqn:E; [exfalso | reflexivity].
      apply (proj1 (has_reminder_In _ _)) in E as (r & Hr & Hk).
      rewrite Hd in Hr. cbn [reminders_sent crowded_db app] in Hr.
      apply (proj1 (in_map_iff _ _ _)) in Hr as (id & <- & Hid).
      cbn [key reminder_record] in Hk.
      rewrite Hday in Hk. apply reminder_key_inj in Hk. subst id. exact (Hlast Hid).
    + intros Hbob. apply (proj1 Hpushed) in Hbob as (id & b & Hid & Hb & _).
      apply active_bookings_of_In in Hb as ([<- | []] & Hw & _).
      cbn [b_walk_id sample_booking] in Hw. subst id. exact (Hlast Hid).
  - destruct (reminders_run_outcome mail_configured nov3_morning busy_db) as (ids & Ho).
    pose proof (reminders_pushed mail_configured nov3_morning busy_db ids _
                                 "user_000999" Ho) as Hin999.
    pose proof (reminders_pushed mail_configured nov3_morning busy_db ids _
                                 "user_001000" Ho) as Hin1000.
    destruct Ho as (_ & _ & _ & Hin).
    assert (Hws : walks_tomorrow nov3_morning busy_db = [sample_walk "w5" "2025-11-04" 10 None])
      by (vm_compute; reflexivity).
    split; [vm_compute; reflexivity|].
    split; [vm_compute; reflexivity|].
    split.
    + apply (proj2 Hin999).
      exists "w5", (sample_booking "w5" "user_000999"). split; [|split; [|reflexivity]].
      * apply (proj2 (Hin "w5")). split; [|vm_compute; reflexivity].
        exists (sample_walk "w5" "2025-11-04" 10 None). rewrite Hws.
        split; [exact (or_introl eq_refl) | reflexivity].
      * apply (nth_error_In _ 999). vm_compute. reflexivity.
    + intros Hu. apply (proj1 Hin1000) in Hu as (id & b & Hid & Hb & Hu).
      apply (proj1 (Hin id)) in Hid as [(w & Hw & Hid) _].
      rewrite Hws in Hw. destruct Hw as [<- | []].
      cbn [walk_id sample_walk] in Hid. subst id.
      assert (E : existsb (fun b => (b_user_id b =? "user_001000")%string)
                          (active_bookings_of busy_db "w5") = false)
        by (vm_compute; reflexivity).
      assert (E' : existsb (fun b => (b_user_id b =? "user_001000")%string)
                           (active_bookings_of busy_db "w5") = true).
      { apply existsb_exists. exists b. split; [exact Hb|].
        rewrite Hu. apply String.eqb_refl. }
      congruence.
Qed.

(** C2, amended.  A run of the job looks at the first 1000 walks whose date
    string is the day after the current UTC date, formatted YYYY-MM-DD (all
    of them when there are at most 1000).  Of these it reminds exactly the
    walks that have no [reminders_sent] record under the key of the walk and
    that date, each once, and inserts the record.  The push of a reminder is
    addressed to exactly the users of the first 1000 active bookings of the
    walk (all of them when there are at most 1000). *)
Theorem check_and_send_24h_reminders_spec (cfg : MailConfig) (now : Z) (d : DB) :
  tomorrow_date now = format_day (utc_day now + 1) /\
  (forall w, In w (walks_tomorrow now d) ->
             In w (walks d) /\ date w = tomorrow_date now) /\
  (Z.of_nat (length (filter (fun w => (date w =? tomorrow_date now)%string) (walks d)))
   <= 1000 ->
   forall w, In w (walks d) -> date w = tomorrow_date now -> In w (walks_tomorrow now d)) /\
  (exists ids,
      reminder_outcome cfg now (walks_tomorrow now d) d
                       (fst (check_and_send_24h_reminders cfg now d))
                       (snd (check_and_send_24h_reminders cfg now d)) ids) /\
  (forall id,
      (exists w, In w (walks d) /\ walk_id w = id) ->
      forall u, In u (pushed_user_ids "walk_reminder" (send_walk_reminder cfg d id)) <->
                exists b, In b (active_bookings_of d id) /\ b_user_id b = u) /\
  (forall id b, In b (active_bookings_of d id) ->
                In b (bookings d) /\ b_walk_id b = id /\ b_status b = "active") /\
  (forall id,
      Z.of_nat (length (filter (is_active_on id) (bookings d))) <= 1000 ->
      forall b, In b (bookings d) -> b_walk_id b = id -> b_status b = "active" ->
                In b (active_bookings_of d id)).
Proof.
  split; [apply tomorrow_date_day|].
  split; [|split; [|split; [|split; [|split]]]].
  - intros w Hw. apply in_to_list, filter_In in Hw as [Hin Hd].
    apply String.eqb_eq in Hd. now split.
  - intros Hcap w Hin Hd. unfold walks_tomorrow. rewrite to_list_all by assumption.
    apply filter_In. split; [assumption | now apply String.eqb_eq].
  - apply reminders_run_outcome.
  - apply send_walk_reminder_push.
  - apply active_bookings_of_In.
  - intros id Hcap b Hin Hw Hs. unfold active_bookings_of.
    rewrite to_list_all by assumption. apply filter_In. split; [assumption|].
    unfold is_active_on. rewrite Hw, Hs. now rewrite String.eqb_refl.
Qed.

Lemma check_and_send_24h_reminders_spec_witness :
  In (sample_walk "w3" "2025-11-04" 10 None) (walks_tomorrow nov3_morning reminder_db) /\
  In (sample_booking "w1" "carol") (active_bookings_of reminder_db "w1") /\
  (In "carol" (pushed_user_ids "walk_reminder"
                 (send_walk_reminder mail_configured reminder_db "w1")) <->
   exists b, In b (active_bookings_of reminder_db "w1") /\ b_user_id b = "carol").
Proof.
  destruct (check_and_send_24h_reminders_spec mail_configured nov3_morning reminder_db)
    as (_ & _ & Hw & _ & Hp & _ & Hb).
  split; [|split].
  - apply Hw; [vm_compute; discriminate | simpl; tauto | reflexivity].
  - apply Hb; [vm_compute; discriminate | simpl; tauto | reflexivity | reflexivity].
  - apply Hp. exists (sample_walk "w1" "2025-11-04" 10 None). split; [simpl; tauto | reflexivity].
Defined.

Example reminders_run :
  check_and_send_24h_reminders mail_configured nov3_morning reminder_db
  = (insert_reminder
       (insert_reminder reminder_db (reminder_record nov3_morning "w1"))
       (reminder_record nov3_morning "w3"),
     [PushToUsers "walk_reminder" "w1" ["bob"; "carol"] ["ExponentPushToken[b1]"];
      EmailCall "bob@example.org" "Reminder: Walk w1 Tomorrow" false;
      EmailCall "carol@example.org" "Reminder: Walk w1 Tomorrow" false]).
Proof. vm_compute. reflexivity. Qed.

Example tomorrow_date_examples :
  tomorrow_date nov3_morning = "2025-11-04" /\
  tomorrow_date 1709164800 = "2024-03-01" /\
  tomorrow_date 1735689599 = "2025-01-01" /\
  strftime_ymd 0 = "1970-01-01".
Proof. repeat split. Qed.

(** C3.  A second run of the job on the same UTC date sends nothing and
    inserts nothing: after the first run every walk the job looks at has a
    [reminders_sent] record under the key of the walk and the target date,
    and a walk with such a record is skipped. *)
Theorem reminders_idempotent (cfg : MailConfig) (now1 now2 : Z) (d : DB) :
  utc_day now1 = utc_day now2 ->
  (forall w, In w (walks_tomorrow now2 (fst (check_and_send_24h_reminders cfg now1 d))) ->
             has_reminder (fst (check_and_send_24h_reminders cfg now1 d))
                          (reminder_key (walk_id w) (tomorrow_date now2)) = true) /\
  check_and_send_24h_reminders cfg now2 (fst (check_and_send_24h_reminders cfg now1 d))
  = (fst (check_and_send_24h_reminders cfg now1 d), []).
Proof.
  intros Hday.
  assert (Hdate : tomorrow_date now2 = tomorrow_date now1)
    by (now rewrite !tomorrow_date_day, Hday).
  unfold check_and_send_24h_reminders at 1 2 4 5.
  destruct (reminder_loop cfg now1 (walks_tomorrow now1 d) d [])
    as (ids & evs & _ & Hd & _ & _ & Hin).
  set (d1 := fst (fold_left (reminder_step cfg now1) (walks_tomorrow now1 d) (d, []))) in *.
  assert (Hws : walks_tomorrow now2 d1 = walks_tomorrow now1 d).
  { unfold walks_tomorrow. rewrite Hdate, Hd. reflexivity. }
  assert (Hall : forall w, In w (walks_tomorrow now2 d1) ->
                           has_reminder d1 (reminder_key (walk_id w) (tomorrow_date now2)) = true).
  { intros w Hw. rewrite Hws in Hw. rewrite Hdate. apply has_reminder_In.
    rewrite Hd. cbn [reminders_sent].
    destruct (has_reminder d (reminder_key (walk_id w) (tomorrow_date now1))) eqn:E.
    - apply has_reminder_In in E as (r & Hr & Hk). exists r. split; [|assumption].
      apply in_or_app. now left.
    - exists (reminder_record now1 (walk_id w)). split; [|reflexivity].
      apply in_or_app. right. apply in_map. apply Hin.
      split; [exists w; split; [exact Hw | reflexivity] | exact E]. }
  split; [exact Hall|].
  unfold check_and_send_24h_reminders. now apply reminder_skip_all.
Qed.

Lemma reminders_idempotent_witness :
  utc_day nov3_morning = utc_day (nov3_morning + 3600) /\
  check_and_send_24h_reminders mail_configured (nov3_morning + 3600)
    (fst (check_and_send_24h_reminders mail_configured nov3_morning reminder_db))
  = (fst (check_and_send_24h_reminders mail_configured nov3_morning reminder_db), []).
Proof.
  split; [reflexivity|].
  apply (reminders_idempotent mail_configured nov3_morning (nov3_morning + 3600) reminder_db).
  reflexivity.
Defined.

(** ** The retention job *)

Lemma delete_one_token_In (uid : string) (l : list PushTokenDoc) (doc : PushTokenDoc) :
  In doc (delete_one_token uid l) -> In doc l.
Proof.
  induction l as [|t l IH]; simpl; [tauto|].
  destruct (pt_user_id t =? uid)%string; simpl; tauto.
Qed.

Lemma recent_retention_none (now : Z) (d : DB) (uid : string) :
  recent_retention now d uid = None <->
  forall r, In r (retention_notifications d) -> rn_user_id r = uid ->
            rn_sent_at r < now - timedelta_days 3.
Proof.
  unfold recent_retention, find_one. split.
  - intros H r Hr Hu. apply (find_none _ _ H) in Hr.
    rewrite Hu, String.eqb_refl in Hr. cbn [andb] in Hr.
    destruct (Z.geb_spec (rn_sent_at r) (now - timedelta_days 3)); [discriminate | lia].
  - intros H. destruct (find _ _) as [r|] eqn:E; [|reflexivity].
    apply find_some in E as [Hr Hq]. apply andb_prop in Hq as [Hu Ht].
    apply String.eqb_eq in Hu. specialize (H r Hr Hu).
    destruct (Z.geb_spec (rn_sent_at r) (now - timedelta_days 3)); [lia | discriminate].
Qed.

(** The two ways a call of [send_retention_notification] can end: nothing
    is sent and no document is inserted, or one push is accepted and its
    document is inserted. *)
Lemma send_retention_notification_cases
      (publish : string -> PublishOutcome) (now : Z) (d : DB) (u : User) :
  (exists d',
      send_retention_notification publish now d u = (d', [], false) /\
      users d' = users d /\
      retention_notifications d' = retention_notifications d /\
      forall doc, In doc (push_tokens d') -> In doc (push_tokens d)) \/
  (exists doc,
      send_retention_notification publish now d u
      = (insert_retention d (mkRetention (user_id u) now),
         [RetentionPush (user_id u) (push_token doc)], true) /\
      In doc (push_tokens d) /\ pt_user_id doc = user_id u /\ push_token doc <> "" /\
      recent_retention now d (user_id u) = None /\
      first_name_raises u = false /\
      publish (push_token doc) = Accepted).
Proof.
  unfold send_retention_notification.
  destruct (find_one _ (push_tokens d)) as [doc|] eqn:Edoc;
    [|left; exists d; repeat split; tauto].
  destruct (truthy (push_token doc)) eqn:Etok; cbn [negb];
    [|left; exists d; repeat split; tauto].
  destruct (recent_retention now d (user_id u)) eqn:Erec;
    [left; exists d; repeat split; tauto|].
  destruct (first_name_raises u) eqn:Ename;
    [left; exists d; repeat split; tauto|].
  destruct (publish (push_token doc)) eqn:Epub.
  - right. exists doc. apply find_some in Edoc as [Hin Hu]. apply String.eqb_eq in Hu.
    repeat split; try assumption. intros E. rewrite E in Etok. discriminate Etok.
  - left. exists (remove_token d (user_id u)). repeat split.
    intros doc'. apply delete_one_token_In.
  - left. exists d. repeat split; tauto.
Qed.


Lemma inactive_users_length (now : Z) (d : DB) :
  (length (inactive_users now d) <= 100)%nat.
Proof.
  unfold inactive_users, to_list. rewrite length_firstn.
  change (Z.to_nat 100) with 100%nat. lia.
Qed.



Lemma retention_step_eq (publish : string -> PublishOutcome) (now : Z) (d : DB)
      (evs : list Event) (u : User) :
  retention_step publish now (d, evs) u
  = (fst (fst (send_retention_notification publish now d u)),
     (evs ++ snd (fst (send_retention_notification publish now d u)))%list).
Proof.
  unfold retention_step.
  now destruct (send_retention_notification publish now d u) as [[d' evs'] ok].
Qed.



(** Who is pushed in a run over the users [us]. *)
Lemma retention_loop_pushes (publish : string -> PublishOutcome) (now : Z) (us : list User) :
  forall d evs0 uid tok,
    In (RetentionPush uid tok)
       (snd (fold_left (retention_step publish now) us (d, evs0))) ->
    In (RetentionPush uid tok) evs0 \/
    ((exists u, In u us /\ user_id u = uid) /\
     recent_retention now d uid = None /\
     tok <> "" /\
     (exists doc, In doc (push_tokens d) /\ pt_user_id doc = uid /\ push_token doc = tok) /\
     publish tok = Accepted).
Proof.
  induction us as [|u us IH]; intros d evs0 uid tok Hin; [now left|].
  cbn [fold_left] in Hin. rewrite retention_step_eq in Hin.
  apply IH in Hin.
  destruct (send_retention_notification_cases publish now d u)
    as [(d' & E & _ & Hret & Htok) | (doc & E & Hdoc & Hu & Hne & Hnone & _ & Hpub)];
    rewrite E in Hin; cbn [fst snd] in Hin.
  - rewrite app_nil_r in Hin. destruct Hin as [Hin | (Hu & Hnone & Hne & Hdoc & Hpub)];
      [now left | right].
    split; [destruct Hu as (u' & Hu' & Hid); exists u'; split; [now right | assumption]|].
    split; [|split; [assumption|split; [|assumption]]].
    + apply recent_retention_none. rewrite <- Hret. now apply recent_retention_none.
    + destruct Hdoc as (doc & Hdoc & Hd). exists doc. split; [now apply Htok | assumption].
  - destruct Hin as [Hin | (Hu' & Hnone' & Hne' & Hdoc' & Hpub')].
    + apply in_app_or in Hin as [Hin | [[= <- <-] | []]]; [now left | right].
      split; [exists u; split; [now left | reflexivity]|].
      split; [assumption|split; [assumption|split; [|assumption]]].
      now exists doc.
    + right.
      split; [destruct Hu' as (u' & Hu' & Hid); exists u'; split; [now right | assumption]|].
      split; [|split; [assumption|split; assumption]].
      apply recent_retention_none. intros r Hr Hid.
      apply (proj1 (recent_retention_none now _ uid) Hnone' r); [|assumption].
      cbn [insert_retention retention_notifications]. apply in_or_app. now left.
Qed.

Lemma retention_pushes_to_In (uid : string) (evs : list Event) (e : Event) :
  In e (retention_pushes_to uid evs) <->
  exists tok, e = RetentionPush uid tok /\ In e evs.
Proof.
  unfold retention_pushes_to. rewrite filter_In. split.
  - intros [Hin Hq]. destruct e as [| |u tok]; try discriminate.
    apply String.eqb_eq in Hq. subst. now exists tok.
  - intros (tok & -> & Hin). split; [assumption | apply String.eqb_refl].
Qed.

Lemma no_retention_push (uid : string) (evs : list Event) :
  (forall tok, ~ In (RetentionPush uid tok) evs) -> retention_pushes_to uid evs = [].
Proof.
  intros H. destruct (retention_pushes_to uid evs) as [|e l] eqn:E; [reflexivity|].
  assert (Hin : In e (retention_pushes_to uid evs)) by (rewrite E; now left).
  apply retention_pushes_to_In in Hin as (tok & -> & Hin). now apply H in Hin.
Qed.




Example retention_run_once :
  check_and_send_retention_notifications always_accepted nov3_morning retention_db
  = (insert_retention retention_db (mkRetention "dan" nov3_morning),
     [RetentionPush "dan" "ExponentPushToken[d1]"]).
Proof. vm_compute. reflexivity. Qed.

Example retention_three_runs :
  snd (retention_runs [(nov3_morning, always_accepted);
                       (nov3_morning + timedelta_days 1, always_accepted);
                       (nov3_morning + timedelta_days 3, always_accepted);
                       (nov3_morning + timedelta_days 3 + 1, always_accepted)]
                      retention_db)
  = [(nov3_morning, RetentionPush "dan" "ExponentPushToken[d1]");
     (nov3_morning + timedelta_days 3 + 1, RetentionPush "dan" "ExponentPushToken[d1]")].
Proof. vm_compute. reflexivity. Qed.

Example retention_blank_name_skipped :
  let blank := mkUser "gus" "gus@example.org" "   " None "user" None None None None
                      None None None None in
  send_retention_notification always_accepted nov3_morning
    (mkDB [blank] [] [] [mkPushToken "gus" "ExponentPushToken[g1]" true] [] [] []) blank
  = (mkDB [blank] [] [] [mkPushToken "gus" "ExponentPushToken[g1]" true] [] [] [], [], false).
Proof. vm_compute. reflexivity. Qed.

(* ================================================================== *)
(** * Part II, continued: more properties of the code                   *)
(* ================================================================== *)

(** ** Badges *)

Lemma get_badge_level_cases (t : Z) :
  (t < 10 /\ get_badge_level t = 0) \/
  (10 <= t < 50 /\ get_badge_level t = 10) \/
  (50 <= t < 100 /\ get_badge_level t = 50) \/
  (100 <= t < 200 /\ get_badge_level t = 100) \/
  (200 <= t < 500 /\ get_badge_level t = 200) \/
  (500 <= t /\ get_badge_level t = 500).
Proof.
  unfold get_badge_level, BADGE_LEVELS. cbn [rev app find].
  repeat match goal with
         | |- context [?x >=? ?y] => destruct (Z.geb_spec x y)
         end; lia.
Qed.

(** X1.  [get_badge_level] returns the greatest badge level that the total
    has reached, and 0 below the first level; it never decreases when the
    total grows. *)
Theorem get_badge_level_greatest (total_walks : Z) :
  (get_badge_level total_walks = 0 \/ In (get_badge_level total_walks) BADGE_LEVELS) /\
  (get_badge_level total_walks = 0 <-> total_walks < 10) /\
  (In (get_badge_level total_walks) BADGE_LEVELS ->
   get_badge_level total_walks <= total_walks) /\
  (forall level, In level BADGE_LEVELS -> level <= total_walks ->
                 level <= get_badge_level total_walks) /\
  (forall more, total_walks <= more ->
                get_badge_level total_walks <= get_badge_level more).
Proof.
  pose proof (get_badge_level_cases total_walks) as H.
  split; [|split; [|split; [|split]]].
  - unfold BADGE_LEVELS. simpl. lia.
  - lia.
  - unfold BADGE_LEVELS. simpl. lia.
  - unfold BADGE_LEVELS. simpl. intros level Hl. lia.
  - intros more Hm. pose proof (get_badge_level_cases more). lia.
Qed.

Lemma get_badge_level_greatest_witness :
  get_badge_level 137 <= 137 /\ 50 <= get_badge_level 137.
Proof.
  destruct (get_badge_level_greatest 137) as (_ & _ & Hle & Hge & _). split.
  - apply Hle. vm_compute. tauto.
  - apply Hge; [vm_compute; tauto | lia].
Defined.

(** X2.  [get_badge_info] asks to celebrate exactly when a badge level lies
    above the last celebrated one and at or below the user's total; once
    [mark_badge_celebrated] has stored the current level, it asks again only
    when the total has reached a higher level. *)
Theorem should_celebrate_new_level (total_walks last_celebrated_badge : Z) :
  (should_celebrate total_walks last_celebrated_badge = true <->
   exists level, In level BADGE_LEVELS /\
                 last_celebrated_badge < level /\ level <= total_walks) /\
  should_celebrate total_walks (get_badge_level total_walks) = false /\
  (forall later,
      should_celebrate later (get_badge_level total_walks) = true <->
      get_badge_level total_walks < get_badge_level later).
Proof.
  assert (Hiff : forall t last,
             should_celebrate t last = true <->
             last < get_badge_level t /\ 0 < get_badge_level t).
  { intros t last. unfold should_celebrate. cbv zeta.
    rewrite andb_true_iff, !Z.gtb_lt. tauto. }
  split; [|split].
  - rewrite Hiff. pose proof (get_badge_level_cases total_walks) as H. split.
    + intros [H1 H2]. exists (get_badge_level total_walks).
      unfold BADGE_LEVELS. simpl. lia.
    + intros (level & Hl & H1 & H2). unfold BADGE_LEVELS in Hl. simpl in Hl. lia.
  - destruct (should_celebrate _ _) eqn:E; [|reflexivity].
    apply Hiff in E. lia.
  - intros later. rewrite Hiff.
    pose proof (get_badge_level_cases total_walks).
    pose proof (get_badge_level_cases later). lia.
Qed.

Lemma should_celebrate_new_level_witness :
  should_celebrate 52 10 = true /\ should_celebrate 52 (get_badge_level 52) = false.
Proof.
  destruct (should_celebrate_new_level 52 10) as (H & _).
  destruct (should_celebrate_new_level 52 0) as (_ & H' & _).
  split; [|exact H'].
  apply H. exists 50. split; [vm_compute; tauto | lia].
Defined.

(** ** Sending a push message in chunks *)

Lemma firstn_next {A : Type} (a n : nat) (l : list A) :
  (firstn a l ++ firstn n (skipn a l))%list = firstn (a + n) l.
Proof.
  rewrite firstn_skipn_comm.
  rewrite <- (firstn_skipn a (firstn (a + n) l)) at 2.
  f_equal. rewrite firstn_firstn. f_equal. lia.
Qed.

Lemma concat_chunks_upto {A : Type} (n m : nat) (l : list A) :
  concat (map (fun i => firstn n (skipn i l)) (map (fun k => (k * n)%nat) (seq 0 m)))
  = firstn (m * n) l.
Proof.
  induction m as [|m IH]; [reflexivity|].
  rewrite seq_S, !map_app, concat_app, IH. cbn [map concat plus].
  rewrite app_nil_r, firstn_next. f_equal. lia.
Qed.

Lemma chunk_count_covers (len n : nat) :
  (0 < n)%nat -> (len <= (len + n - 1) / n * n)%nat.
Proof.
  intros Hn. pose proof (Nat.div_mod_eq (len + n - 1) n) as H.
  pose proof (Nat.mod_upper_bound (len + n - 1) n). nia.
Qed.

Lemma chunk_count_tight (len n k : nat) :
  (0 < n)%nat -> (k < (len + n - 1) / n)%nat -> (k * n < len)%nat.
Proof.
  intros Hn Hk. pose proof (Nat.div_mod_eq (len + n - 1) n) as H.
  pose proof (Nat.mod_upper_bound (len + n - 1) n). nia.
Qed.

(** Every message is in exactly one chunk, in order, and a chunk has between
    one and [chunk_size] messages. *)
Lemma chunks_partition {A : Type} (chunk_size : nat) (messages : list A) :
  (0 < chunk_size)%nat ->
  concat (chunks chunk_size messages) = messages /\
  Forall (fun c => (1 <= length c <= chunk_size)%nat) (chunks chunk_size messages).
Proof.
  intros Hn. unfold chunks, range_step. split.
  - rewrite concat_chunks_upto. apply firstn_all2. now apply chunk_count_covers.
  - apply Forall_forall. intros c Hc.
    apply in_map_iff in Hc as (i & <- & Hi). apply in_map_iff in Hi as (k & <- & Hk).
    apply in_seq in Hk. rewrite length_firstn, length_skipn.
    pose proof (chunk_count_tight (length messages) chunk_size k Hn). lia.
Qed.

Lemma responses_counted (rs : list (option string)) :
  (count_success rs + length (failure_messages rs) = length rs)%nat.
Proof.
  unfold count_success, failure_messages.
  induction rs as [|[m|] rs IH]; simpl; lia.
Qed.

(** The loop over the chunks, under a service that answers every message. *)
Lemma publish_chunks_answered (service : list string -> PublishMultiple) (total : nat)
      (todo : list (list string)) :
  answers_every_message service ->
  forall acc,
    calls (publish_chunks service total todo acc) = (calls acc ++ todo)%list /\
    (sent (publish_chunks service total todo acc)
     + failed (publish_chunks service total todo acc)
     = sent acc + failed acc + length (concat todo))%nat.
Proof.
  intros Hs. induction todo as [|chunk rest IH]; intros acc; cbn [publish_chunks].
  - rewrite app_nil_r. split; [reflexivity | simpl; lia].
  - pose proof (Hs chunk) as Hc. destruct (service chunk) as [rs|exc|exc]; [| |contradiction].
    + destruct (IH (mkPushReport (sent acc + count_success rs)
                                 (failed acc + length (failure_messages rs))
                                 (errors acc ++ failure_messages rs)
                                 (calls acc ++ [chunk]))) as [-> ->].
      cbn [calls sent failed concat]. rewrite <- app_assoc, length_app.
      pose proof (responses_counted rs). split; [reflexivity | lia].
    + destruct (IH (mkPushReport (sent acc) (failed acc + length chunk)
                                 (errors acc ++ [exc]) (calls acc ++ [chunk]))) as [-> ->].
      cbn [calls sent failed concat]. rewrite <- app_assoc, length_app.
      split; [reflexivity | lia].
Qed.

(** The calls made are the first chunks, whatever the service does. *)
Lemma publish_chunks_prefix (service : list string -> PublishMultiple) (total : nat)
      (todo : list (list string)) :
  forall acc, exists done rest,
    calls (publish_chunks service total todo acc) = (calls acc ++ done)%list /\
    todo = (done ++ rest)%list.
Proof.
  induction todo as [|chunk rest IH]; intros acc; cbn [publish_chunks].
  - exists [], []. now rewrite app_nil_r.
  - destruct (service chunk) as [rs|exc|exc].
    + destruct (IH (mkPushReport (sent acc + count_success rs)
                                 (failed acc + length (failure_messages rs))
                                 (errors acc ++ failure_messages rs)
                                 (calls acc ++ [chunk]))) as (done & rest' & -> & ->).
      exists (chunk :: done), rest'. cbn [calls]. now rewrite <- app_assoc.
    + destruct (IH (mkPushReport (sent acc) (failed acc + length chunk)
                                 (errors acc ++ [exc]) (calls acc ++ [chunk])))
        as (done & rest' & -> & ->).
      exists (chunk :: done), rest'. cbn [calls]. now rewrite <- app_assoc.
    + exists [chunk], rest. now split.
Qed.

Lemma send_push_notification_valid (tokens : list string) (t : string) :
  In t (send_push_notification tokens) ->
  In t tokens /\ startswith t "ExponentPushToken[" = true.
Proof.
  unfold send_push_notification. destruct tokens as [|t0 tokens]; [intros []|].
  intros H. apply filter_In in H as [Hin Hv]. apply andb_prop in Hv as [_ Hv]. now split.
Qed.

(** X3.  [send_push_notification] hands the push service between 1 and 100
    messages per call, all of them for tokens of the list that start with
    "ExponentPushToken[", and the calls are the first chunks of the valid
    tokens in their order.  When the service answers every message of a call
    or refuses the call with [PushServerError], every valid token is handed
    over exactly once and [sent + failed] is the number of valid tokens. *)
Theorem send_push_notification_chunks (service : list string -> PublishMultiple)
        (tokens : list string) :
  let report := send_push_notification_report service tokens in
  Forall (fun call => (1 <= length call <= 100)%nat) (calls report) /\
  (forall call t, In call (calls report) -> In t call ->
                  In t tokens /\ startswith t "ExponentPushToken[" = true) /\
  (exists rest, send_push_notification tokens = (concat (calls report) ++ rest)%list) /\
  (answers_every_message service ->
   concat (calls report) = send_push_notification tokens /\
   (sent report + failed report = length (send_push_notification tokens))%nat).
Proof.
  cbv zeta. unfold send_push_notification_report.
  set (valid := send_push_notification tokens).
  destruct (chunks_partition 100 valid) as [Hcat Hlen]; [lia|].
  destruct (publish_chunks_prefix service (length valid) (chunks 100 valid)
                                  (mkPushReport 0 0 [] []))
    as (done & rest & Hcalls & Htodo).
  cbn [calls app] in Hcalls.
  assert (Hvalid : valid = (concat done ++ concat rest)%list).
  { rewrite <- Hcat, Htodo. apply concat_app. }
  split; [|split; [|split]].
  - rewrite Hcalls. rewrite Htodo in Hlen. now apply Forall_app in Hlen.
  - intros call t Hcall Ht. apply send_push_notification_valid. fold valid.
    rewrite Hvalid. apply in_or_app. left. apply in_concat. exists call.
    rewrite Hcalls in Hcall. now split.
  - exists (concat rest). now rewrite Hcalls.
  - intros Hs.
    destruct (publish_chunks_answered service (length valid) (chunks 100 valid) Hs
                                      (mkPushReport 0 0 [] [])) as [E1 E2].
    cbn [calls sent failed app] in E1, E2. rewrite E1, E2, Hcat. split; [reflexivity | lia].
Qed.

Lemma accepting_service_answers : answers_every_message accepting_service.
Proof. intros chunk. unfold accepting_service. apply length_map. Qed.

Lemma send_push_notification_chunks_witness :
  concat (calls (send_push_notification_report accepting_service
                   ["ExponentPushToken[a]"; "bad"; ""; "ExponentPushToken[b]"]))
  = ["ExponentPushToken[a]"; "ExponentPushToken[b]"] /\
  (sent (send_push_notification_report accepting_service
           ["ExponentPushToken[a]"; "bad"; ""; "ExponentPushToken[b]"])
   + failed (send_push_notification_report accepting_service
               ["ExponentPushToken[a]"; "bad"; ""; "ExponentPushToken[b]"])
   = 2)%nat.
Proof.
  destruct (send_push_notification_chunks accepting_service
              ["ExponentPushToken[a]"; "bad"; ""; "ExponentPushToken[b]"])
    as (_ & _ & _ & H).
  exact (H accepting_service_answers).
Defined.

Example send_push_notification_250 :
  let tokens := map (numbered "ExponentPushToken[") (count_from 0 250) in
  map (@length string) (calls (send_push_notification_report accepting_service tokens))
  = [100; 100; 50]%nat /\
  sent (send_push_notification_report accepting_service tokens) = 250%nat.
Proof. vm_compute. split; reflexivity. Qed.

Example send_push_notification_aborted :
  let service chunk := match chunk with
                       | "ExponentPushToken[000000" :: _ => RaisesPushServerError "busy"
                       | _ => RaisesOther "connection lost"
                       end in
  let tokens := map (numbered "ExponentPushToken[") (count_from 0 250) in
  let report := send_push_notification_report service tokens in
  (length (calls report), sent report, failed report, errors report)
  = (2, 0, 350, ["busy"; "connection lost"])%nat.
Proof. vm_compute. reflexivity. Qed.

(** ** Registering and unregistering push tokens *)

Lemma same_user_token_new (uid token : string) (a : bool) :
  same_user_token uid token (mkPushToken uid token a) = true.
Proof. unfold same_user_token. cbn. now rewrite !String.eqb_refl. Qed.

Lemma set_active_first_matched (uid token : string) (a : bool) (l : list PushTokenDoc) :
  snd (set_active_first uid token a l) = existsb (same_user_token uid token) l.
Proof.
  induction l as [|t l IH]; [reflexivity|]. cbn [set_active_first existsb].
  destruct (same_user_token uid token t); [reflexivity|].
  destruct (set_active_first uid token a l) as [r m]. exact IH.
Qed.

Lemma set_active_first_docs (uid token : string) (a : bool) (l : list PushTokenDoc) :
  length (token_docs uid token (fst (set_active_first uid token a l)))
  = length (token_docs uid token l).
Proof.
  unfold token_docs. induction l as [|t l IH]; [reflexivity|]. cbn [set_active_first].
  destruct (same_user_token uid token t) eqn:E.
  - cbn [fst filter]. now rewrite E, same_user_token_new.
  - destruct (set_active_first uid token a l) as [r m]. cbn [fst filter] in *.
    rewrite E. exact IH.
Qed.

Lemma set_active_first_has (uid token : string) (a : bool) (l : list PushTokenDoc) :
  snd (set_active_first uid token a l) = true ->
  In (mkPushToken uid token a) (fst (set_active_first uid token a l)).
Proof.
  induction l as [|t l IH]; [discriminate|]. cbn [set_active_first].
  destruct (same_user_token uid token t).
  - intros _. now left.
  - destruct (set_active_first uid token a l) as [r m]. cbn [fst snd] in *.
    intros H. right. now apply IH.
Qed.

(** The first document of a user and token is the only one that changes. *)
Lemma set_active_first_only (uid token : string) (a : bool) (l : list PushTokenDoc)
      (doc : PushTokenDoc) :
  same_user_token uid token doc = false ->
  In doc (fst (set_active_first uid token a l)) <-> In doc l.
Proof.
  intros Hd. induction l as [|t l IH]; [reflexivity|]. cbn [set_active_first].
  destruct (same_user_token uid token t) eqn:E.
  - cbn [fst In]. split; intros [H | H]; try (right; exact H); exfalso; subst doc.
    + now rewrite same_user_token_new in Hd.
    + congruence.
  - destruct (set_active_first uid token a l) as [r m]. cbn [fst In] in *.
    now rewrite IH.
Qed.

(** With at most one document of the user and token, no such document keeps
    another flag. *)
Lemma set_active_first_single (uid token : string) (a : bool) (l : list PushTokenDoc)
      (doc : PushTokenDoc) :
  (length (token_docs uid token l) <= 1)%nat ->
  In doc (fst (set_active_first uid token a l)) ->
  same_user_token uid token doc = true -> active doc = a.
Proof.
  unfold token_docs.
  induction l as [|t l IH]; [intros _ []|]. cbn [set_active_first filter].
  destruct (same_user_token uid token t) eqn:E.
  - cbn [length fst In]. intros Hlen [<- | Hin] Hd; [reflexivity|].
    assert (Hnil : filter (same_user_token uid token) l = [])
      by (destruct (filter _ l); [reflexivity | simpl in Hlen; lia]).
    assert (Hin' : In doc (filter (same_user_token uid token) l))
      by (apply filter_In; now split).
    rewrite Hnil in Hin'. contradiction.
  - destruct (set_active_first uid token a l) as [r m]. cbn [fst In] in *.
    intros Hlen [<- | Hin] Hd; [congruence | now apply IH].
Qed.

Lemma set_active_first_idempotent (uid token : string) (a : bool) (l : list PushTokenDoc) :
  fst (set_active_first uid token a (fst (set_active_first uid token a l)))
  = fst (set_active_first uid token a l).
Proof.
  induction l as [|t l IH]; [reflexivity|]. cbn [set_active_first].
  destruct (same_user_token uid token t) eqn:E.
  - cbn [fst set_active_first]. now rewrite same_user_token_new.
  - destruct (set_active_first uid token a l) as [r m]. cbn [fst set_active_first] in *.
    rewrite E. destruct (set_active_first uid token a r) as [r' m']. cbn [fst] in *.
    now rewrite IH.
Qed.

Lemma register_push_token_ok (token : string) (d : DB) (u : User) :
  token <> "" -> startswith token "ExponentPushToken[" = true ->
  register_push_token token d u
  = (Ok "Push token registered",
     set_push_tokens d
       (if existsb (same_user_token (user_id u) token) (push_tokens d)
        then fst (set_active_first (user_id u) token true (push_tokens d))
        else (push_tokens d ++ [mkPushToken (user_id u) token true])%list)).
Proof.
  intros Hne Hv. unfold register_push_token.
  destruct token as [|c token]; [contradiction|]. cbn [truthy negb]. rewrite Hv. cbn [negb].
  pose proof (set_active_first_matched (user_id u) (String c token) true (push_tokens d)) as Hm.
  destruct (set_active_first _ _ true (push_tokens d)) as [l m]. cbn [fst snd] in *.
  now rewrite Hm.
Qed.

Lemma send_push_notification_keeps (tokens : list string) (t : string) :
  In t tokens -> t <> "" -> startswith t "ExponentPushToken[" = true ->
  In t (send_push_notification tokens).
Proof.
  intros Hin Hne Hv. unfold send_push_notification.
  destruct tokens as [|t0 tokens]; [contradiction|].
  apply filter_In. split; [assumption|]. rewrite Hv.
  destruct t; [contradiction | reflexivity].
Qed.

(** X4.  [register_push_token] refuses an empty token and one that does not
    start with "ExponentPushToken[", leaving the database as it is.
    Otherwise it leaves an active document of the user and token, without
    adding a second one; registering again changes nothing; and a push to a
    list of users that contains this user is published to the token, as long
    as the addressed users have at most 1000 active tokens. *)
Theorem register_push_token_spec (token : string) (d : DB) (current_user : User) :
  (token = "" \/ startswith token "ExponentPushToken[" = false ->
   exists detail, register_push_token token d current_user = (HTTPException 400 detail, d)) /\
  (token <> "" -> startswith token "ExponentPushToken[" = true ->
   let d' := snd (register_push_token token d current_user) in
   fst (register_push_token token d current_user) = Ok "Push token registered" /\
   In (mkPushToken (user_id current_user) token true) (push_tokens d') /\
   length (token_docs (user_id current_user) token (push_tokens d'))
   = Nat.max 1 (length (token_docs (user_id current_user) token (push_tokens d))) /\
   snd (register_push_token token d' current_user) = d' /\
   (forall kind about uids,
       In (user_id current_user) uids ->
       Z.of_nat (length (filter (fun t => str_in (pt_user_id t) uids && active t)
                                (push_tokens d'))) <= 1000 ->
       In token (device_tokens_of (send_push_to_users d' kind about uids)))).
Proof.
  split.
  - intros [-> | Hv]; unfold register_push_token.
    + eexists. reflexivity.
    + destruct (truthy token); cbn [negb]; [rewrite Hv|]; eexists; reflexivity.
  - intros Hne Hv. cbv zeta. rewrite (register_push_token_ok token d current_user Hne Hv).
    cbn [fst snd]. set (uid := user_id current_user).
    assert (Hdoc : In (mkPushToken uid token true)
                      (if existsb (same_user_token uid token) (push_tokens d)
                       then fst (set_active_first uid token true (push_tokens d))
                       else (push_tokens d ++ [mkPushToken uid token true])%list)).
    { destruct (existsb _ _) eqn:E.
      - apply set_active_first_has. now rewrite set_active_first_matched.
      - apply in_or_app. right. now left. }
    split; [reflexivity|]. split; [exact Hdoc|]. split; [|split].
    + cbn [push_tokens set_push_tokens]. destruct (existsb _ _) eqn:E.
      * rewrite set_active_first_docs.
        apply existsb_exists in E as (doc & Hin & Hd).
        assert (Hin' : In doc (token_docs uid token (push_tokens d)))
          by (apply filter_In; now split).
        destruct (token_docs uid token (push_tokens d)); [contradiction | simpl; lia].
      * unfold token_docs. rewrite filter_app. cbn [filter].
        rewrite same_user_token_new, length_app. cbn [length].
        assert (Hnil : filter (same_user_token uid token) (push_tokens d) = []).
        { destruct (filter _ (push_tokens d)) as [|doc l] eqn:F; [reflexivity|].
          assert (Hin : In doc (filter (same_user_token uid token) (push_tokens d)))
            by (rewrite F; now left).
          apply filter_In in Hin as [Hin Hd].
          assert (existsb (same_user_token uid token) (push_tokens d) = true)
            by (apply existsb_exists; now exists doc).
          congruence. }
        now rewrite Hnil.
    + rewrite (register_push_token_ok token _ current_user Hne Hv).
      cbn [snd push_tokens set_push_tokens]. fold uid.
      assert (E : existsb (same_user_token uid token)
                          (if existsb (same_user_token uid token) (push_tokens d)
                           then fst (set_active_first uid token true (push_tokens d))
                           else (push_tokens d ++ [mkPushToken uid token true])%list) = true).
      { apply existsb_exists. exists (mkPushToken uid token true).
        split; [exact Hdoc | apply same_user_token_new]. }
      rewrite E. unfold set_push_tokens. cbn. f_equal.
      destruct (existsb (same_user_token uid token) (push_tokens d)) eqn:E0.
      * apply set_active_first_idempotent.
      * clear Hdoc E. induction (push_tokens d) as [|t l IH]; cbn [app set_active_first].
        -- now rewrite same_user_token_new.
        -- cbn [existsb] in E0. apply orb_false_iff in E0 as [Et El]. rewrite Et.
           specialize (IH El).
           destruct (set_active_first uid token true (l ++ [mkPushToken uid token true]))
             as [r m]. cbn [fst] in *. now rewrite IH.
    + intros kind about uids Huid Hcap. unfold send_push_to_users. cbn [device_tokens_of].
      rewrite to_list_all by exact Hcap.
      apply send_push_notification_keeps; [|assumption|assumption].
      apply in_map_iff. exists (mkPushToken uid token true). split; [reflexivity|].
      apply filter_In. split; [exact Hdoc|]. cbn [pt_user_id active].
      rewrite andb_true_r. now apply str_in_true.
Qed.

Lemma register_push_token_spec_witness :
  In "ExponentPushToken[c9]"
     (device_tokens_of
        (send_push_to_users
           (snd (register_push_token "ExponentPushToken[c9]" targeting_db carol))
           "new_walk" "w9" ["bob"; "carol"])).
Proof.
  destruct (register_push_token_spec "ExponentPushToken[c9]" targeting_db carol) as (_ & H).
  destruct H as (_ & _ & _ & _ & H); [discriminate | reflexivity |].
  apply H; [simpl; tauto | vm_compute; discriminate].
Defined.

(** X5.  [unregister_push_token] changes no document of another user or
    token, and with at most one document of the user and token, a push to
    this user is no longer published to the token. *)
Theorem unregister_push_token_spec (token : string) (d : DB) (current_user : User) :
  let d' := snd (unregister_push_token token d current_user) in
  fst (unregister_push_token token d current_user) = Ok "Push token unregistered" /\
  (forall doc, same_user_token (user_id current_user) token doc = false ->
               In doc (push_tokens d') <-> In doc (push_tokens d)) /\
  ((length (token_docs (user_id current_user) token (push_tokens d)) <= 1)%nat ->
   forall kind about,
     ~ In token (device_tokens_of
                   (send_push_to_users d' kind about [user_id current_user]))).
Proof.
  cbv zeta. unfold unregister_push_token. cbn [fst snd push_tokens set_push_tokens].
  split; [reflexivity|]. split.
  - intros doc Hd. now apply set_active_first_only.
  - intros Hone kind about Hin. unfold send_push_to_users in Hin.
    cbn [device_tokens_of push_tokens set_push_tokens] in Hin.
    apply send_push_notification_valid in Hin as [Hin _].
    apply in_map_iff in Hin as (doc & Ht & Hin).
    apply in_to_list, filter_In in Hin as [Hin Hq].
    apply andb_prop in Hq as [Hu Ha].
    apply str_in_true in Hu. destruct Hu as [Hu | []].
    assert (Hd : same_user_token (user_id current_user) token doc = true).
    { unfold same_user_token. rewrite <- Hu, Ht. now rewrite !String.eqb_refl. }
    pose proof (set_active_first_single _ _ false _ doc Hone Hin Hd). congruence.
Qed.

Lemma unregister_push_token_spec_witness :
  ~ In "ExponentPushToken[b1]"
       (device_tokens_of
          (send_push_to_users
             (snd (unregister_push_token "ExponentPushToken[b1]" targeting_db bob))
             "new_walk" "w9" [user_id bob])).
Proof.
  destruct (unregister_push_token_spec "ExponentPushToken[b1]" targeting_db bob)
    as (_ & _ & H).
  apply H. vm_compute. lia.
Defined.

Lemma set_active_first_find (uid token : string) (a : bool) (l : list PushTokenDoc)
      (v : string) :
  match find_one (fun t => (pt_user_id t =? v)%string) (fst (set_active_first uid token a l)),
        find_one (fun t => (pt_user_id t =? v)%string) l with
  | Some x, Some y => push_token x = push_token y
  | None, None => True
  | _, _ => False
  end.
Proof.
  unfold find_one. induction l as [|t l IH]; [exact I|]. cbn [set_active_first].
  destruct (same_user_token uid token t) eqn:E.
  - cbn [fst find pt_user_id]. unfold same_user_token in E.
    apply andb_prop in E as [Eu Et]. apply String.eqb_eq in Eu, Et. rewrite Eu.
    destruct (uid =? v)%string; [now cbn|].
    destruct (find _ l); [reflexivity | exact I].
  - destruct (set_active_first uid token a l) as [r m]. cbn [fst find] in *.
    destruct (pt_user_id t =? v)%string; [reflexivity | exact IH].
Qed.

(** X6.  Unregistering a push token does not change what
    [send_retention_notification] does for any user: the function takes the
    first token document of the user whatever its [active] flag, so the
    same push is sent, or none, with the same result. *)
Theorem retention_ignores_unregister
        (publish : string -> PublishOutcome) (now : Z) (d : DB)
        (token : string) (current_user u : User) :
  let d' := snd (unregister_push_token token d current_user) in
  snd (fst (send_retention_notification publish now d' u))
  = snd (fst (send_retention_notification publish now d u)) /\
  snd (send_retention_notification publish now d' u)
  = snd (send_retention_notification publish now d u).
Proof.
  cbv zeta. unfold unregister_push_token. cbn [snd].
  unfold send_retention_notification. cbn [push_tokens set_push_tokens].
  pose proof (set_active_first_find (user_id current_user) token false (push_tokens d)
                                    (user_id u)) as H.
  destruct (find_one _ (fst (set_active_first _ _ _ _))) as [x|];
    destruct (find_one _ (push_tokens d)) as [y|]; try contradiction; [|now split].
  rewrite H. destruct (truthy (push_token y)); cbn [negb]; [|now split].
  change (recent_retention now (set_push_tokens d _) (user_id u))
    with (recent_retention now d (user_id u)).
  destruct (recent_retention now d (user_id u)); [now split|].
  destruct (first_name_raises u); [now split|].
  destruct (publish (push_token y)); now split.
Qed.

Example retention_after_unregister :
  snd (fst (send_retention_notification always_accepted nov3_morning
              (snd (unregister_push_token "ExponentPushToken[d1]" retention_db dan)) dan))
  = [RetentionPush "dan" "ExponentPushToken[d1]"].
Proof. vm_compute. reflexivity. Qed.

(** ** Logging out *)

Lemma delete_one_session_other (t t' : string) (l : list Session) :
  t' <> t ->
  find_one (fun s => (session_token s =? t')%string) (delete_one_session t l)
  = find_one (fun s => (session_token s =? t')%string) l.
Proof.
  intros Hne. unfold find_one. induction l as [|s l IH]; [reflexivity|].
  cbn [delete_one_session]. destruct (String.eqb_spec (session_token s) t) as [E|E].
  - cbn [find]. rewrite E. now rewrite (proj2 (String.eqb_neq t t')) by congruence.
  - cbn [find]. now rewrite IH.
Qed.

Lemma delete_one_session_same (t : string) (l : list Session) :
  NoDup (map session_token l) ->
  find_one (fun s => (session_token s =? t)%string) (delete_one_session t l) = None.
Proof.
  induction l as [|s l IH]; intros Hnd; [reflexivity|].
  cbn [map] in Hnd. inversion Hnd as [|x xs Hnotin Hnd']; subst.
  cbn [delete_one_session]. destruct (String.eqb_spec (session_token s) t) as [E|E].
  - apply find_one_none. intros s' Hs'. apply String.eqb_neq. intros E'.
    apply Hnotin. rewrite E, <- E'. now apply in_map.
  - unfold find_one in *. cbn [find].
    rewrite (proj2 (String.eqb_neq (session_token s) t) E). now apply IH.
Qed.

(** X7.  [logout] without a session token changes nothing.  With one, and
    with no two stored sessions sharing a token, a later request with that
    token is refused as "Invalid session"; requests with another token are
    answered as before. *)
Theorem logout_ends_session (request : Request) (d : DB) :
  (get_session_token request = None \/ get_session_token request = Some "" ->
   logout request d = d) /\
  (forall token,
      get_session_token request = Some token -> token <> "" ->
      (NoDup (map session_token (user_sessions d)) ->
       forall later now,
         get_session_token later = Some token ->
         get_current_user later now (logout request d)
         = HTTPException 401 "Invalid session") /\
      (forall later now other,
          get_session_token later = Some other -> other <> token ->
          get_current_user later now (logout request d) = get_current_user later now d)).
Proof.
  split.
  - unfold logout. intros [-> | ->]; reflexivity.
  - intros token Ht Hne. unfold logout. rewrite Ht.
    destruct token as [|c token]; [contradiction|]. cbn [truthy]. split.
    + intros Hnd later now Hl. unfold get_current_user. rewrite Hl. cbn [truthy negb].
      cbn [user_sessions set_user_sessions]. now rewrite delete_one_session_same.
    + intros later now other Hl Ho. unfold get_current_user. rewrite Hl.
      cbn [user_sessions users set_user_sessions].
      now rewrite delete_one_session_other.
Qed.

Lemma logout_ends_session_witness :
  get_current_user (bearer "tok_alice") 1000 (logout (cookie "tok_alice") auth_db)
  = HTTPException 401 "Invalid session" /\
  get_current_user (cookie "tok_erin") 1000 (logout (cookie "tok_alice") auth_db)
  = get_current_user (cookie "tok_erin") 1000 auth_db.
Proof.
  destruct (logout_ends_session (cookie "tok_alice") auth_db) as (_ & H).
  destruct (H "tok_alice") as (Hsame & Hother); [reflexivity | discriminate |].
  split.
  - apply Hsame; [|reflexivity].
    repeat constructor; simpl; intuition discriminate.
  - apply (Hother _ _ "tok_erin"); [reflexivity | discriminate].
Defined.

Example logout_keeps_duplicate_session :
  let d := mkDB [alice] [] [] [] [] []
                [mkSession "tok" "alice" 2000; mkSession "tok" "alice" 3000] in
  get_current_user (cookie "tok") 1000 (logout (cookie "tok") d) = Ok alice.
Proof. reflexivity. Qed.

(** ** Moderation *)

Lemma find_update_first_same (p : User -> bool) (f : User -> User) (l : list User) :
  find_one p (update_first_user p f l) = option_map f (find_one p l) \/
  exists u, find_one p l = Some u /\ p (f u) = false.
Proof.
  unfold find_one. induction l as [|u l IH]; [now left|]. cbn [update_first_user find].
  destruct (p u) eqn:E.
  - cbn [find]. destruct (p (f u)) eqn:E'; [now left | right; now exists u].
  - cbn [find]. rewrite E. exact IH.
Qed.

Lemma find_update_first_other (p q : User -> bool) (f : User -> User) (l : list User) :
  (forall u, q u = true -> p u = false /\ p (f u) = false) ->
  find_one p (update_first_user q f l) = find_one p l.
Proof.
  intros H. unfold find_one. induction l as [|u l IH]; [reflexivity|].
  cbn [update_first_user find]. destruct (q u) eqn:E.
  - destruct (H u E) as [H1 H2]. cbn [find]. now rewrite H1, H2.
  - cbn [find]. now rewrite IH.
Qed.

Lemma update_user_status_ok (target st : string) (why : option string) (now : Z)
      (d : DB) (log : list ModerationEntry) (cu : User) (msg : string) :
  fst (update_user_status target st why now d log cu) = Ok msg ->
  is_admin cu = true /\ In st ["active"; "suspended"; "blocked"] /\
  target <> user_id cu /\
  exists user,
    find_one (fun u => (user_id u =? target)%string) (users d) = Some user /\
    snd (update_user_status target st why now d log cu)
    = (set_users d (update_first_user (fun u => (user_id u =? target)%string)
                                      (with_status st) (users d)),
       (log ++ [mkModeration "user_status_change" target (email user) st why
                             (user_id cu) (email cu) now])%list).
Proof.
  unfold update_user_status.
  destruct (is_admin cu); cbn [negb]; [|discriminate].
  destruct (str_in st _) eqn:Est; cbn [negb]; [|discriminate].
  destruct (String.eqb_spec target (user_id cu)) as [E|E]; [discriminate|].
  destruct (find_one _ (users d)) as [user|]; [|discriminate].
  intros _. repeat split; try assumption.
  - now apply str_in_true.
  - now exists user.
Qed.

(** X8.  [update_user_status] changes nothing when it refuses, and it
    refuses a caller who is no administrator and an administrator who names
    himself.  When it succeeds, the next request with a valid session of the
    target user is refused with 403 if the new status is "suspended" or
    "blocked" and served if it is "active"; requests of other users are
    answered as before; and one entry naming the administrator and the
    target is added to the moderation log. *)
Theorem update_user_status_takes_effect
        (target st : string) (why : option string) (now : Z) (d : DB)
        (log : list ModerationEntry) (current_user : User) :
  (forall code detail,
      fst (update_user_status target st why now d log current_user)
      = HTTPException code detail ->
      snd (update_user_status target st why now d log current_user) = (d, log)) /\
  (is_admin current_user = false \/ target = user_id current_user ->
   exists code detail,
     fst (update_user_status target st why now d log current_user)
     = HTTPException code detail) /\
  (forall msg,
      fst (update_user_status target st why now d log current_user) = Ok msg ->
      let d' := fst (snd (update_user_status target st why now d log current_user)) in
      let log' := snd (snd (update_user_status target st why now d log current_user)) in
      (exists entry,
          log' = (log ++ [entry])%list /\ target_user_id entry = target /\
          admin_id entry = user_id current_user /\ new_status entry = st) /\
      forall later at_time token session,
        get_session_token later = Some token -> token <> "" ->
        find_one (fun s => (session_token s =? token)%string) (user_sessions d)
        = Some session ->
        at_time <= expires_at session ->
        (s_user_id session = target ->
         (st <> "active" ->
          exists detail, get_current_user later at_time d' = HTTPException 403 detail) /\
         (st = "active" ->
          exists user, get_current_user later at_time d' = Ok user /\
                       user_id user = target /\ status user = Some "active")) /\
        (s_user_id session <> target ->
         get_current_user later at_time d' = get_current_user later at_time d)).
Proof.
  split; [|split].
  - intros code detail. unfold update_user_status.
    destruct (is_admin current_user); cbn [negb]; [|reflexivity].
    destruct (str_in st _); cbn [negb]; [|reflexivity].
    destruct (target =? user_id current_user)%string; [reflexivity|].
    destruct (find_one _ (users d)); [discriminate | reflexivity].
  - unfold update_user_status. intros [-> | ->]; cbn [negb]; [now eexists _, _|].
    destruct (is_admin current_user); cbn [negb]; [|now eexists _, _].
    destruct (str_in st _); cbn [negb]; [|now eexists _, _].
    rewrite String.eqb_refl. now eexists _, _.
  - intros msg Hok. cbv zeta.
    destruct (update_user_status_ok _ _ _ _ _ _ _ _ Hok)
      as (_ & Hst & _ & user & Huser & ->). cbn [fst snd]. split.
    + eexists. split; [reflexivity|]. now cbn.
    + intros later at_time token session Ht Hne Hs Hexp.
      assert (Htr : truthy token = true) by (destruct token; [contradiction | reflexivity]).
      assert (Hlt : (expires_at session <? at_time) = false) by (apply Z.ltb_ge; lia).
      unfold get_current_user. rewrite Ht, Htr. cbn [negb user_sessions users set_users].
      rewrite Hs, Hlt. split.
      * intros ->.
        destruct (find_update_first_same
                    (fun u => (user_id u =? target)%string)
                    (with_status st) (users d)) as [E | (u & Hu & E)];
          [|apply find_some in Hu as [_ Hu]; cbn in E, Hu; congruence].
        rewrite E, Huser. cbn [option_map status with_status].
        cbn in Hst. destruct Hst as [<- | [<- | [<- | []]]]; split;
          try (intros _; cbn; eexists; reflexivity); try congruence; try discriminate.
        intros _. exists (with_status "active" user). cbn. repeat split.
        apply find_some in Huser as [_ Hu]. now apply String.eqb_eq in Hu.
      * intros Hother. rewrite find_update_first_other; [reflexivity|].
        intros u Hu. apply String.eqb_eq in Hu. cbn [user_id with_status].
        split; apply String.eqb_neq; congruence.
Qed.

Lemma update_user_status_takes_effect_witness :
  (exists code detail,
      fst (update_user_status "root" "blocked" None 1500 auth_db [] root_admin)
      = HTTPException code detail) /\
  (exists user,
      get_current_user (cookie "tok_erin") 1000
        (fst (snd (update_user_status "erin" "active" None 1500 auth_db [] root_admin)))
      = Ok user /\ user_id user = "erin" /\ status user = Some "active") /\
  (exists detail,
      get_current_user (cookie "tok_alice") 1000
        (fst (snd (update_user_status "alice" "suspended" None 1500 auth_db [] root_admin)))
      = HTTPException 403 detail) /\
  get_current_user (cookie "tok_alice") 1000
    (fst (snd (update_user_status "erin" "active" None 1500 auth_db [] root_admin)))
  = get_current_user (cookie "tok_alice") 1000 auth_db.
Proof.
  split; [|split; [|split]].
  - destruct (update_user_status_takes_effect "root" "blocked" None 1500 auth_db []
                                              root_admin) as (_ & H & _).
    exact (H (or_intror eq_refl)).
  - destruct (update_user_status_takes_effect "erin" "active" None 1500 auth_db []
                                              root_admin) as (_ & _ & H).
    destruct (H _ eq_refl) as [_ H'].
    destruct (H' (cookie "tok_erin") 1000 "tok_erin" (mkSession "tok_erin" "erin" 2000)
                 eq_refl) as [Ht _]; [discriminate | reflexivity | cbn; lia |].
    exact (proj2 (Ht eq_refl) eq_refl).
  - destruct (update_user_status_takes_effect "alice" "suspended" None 1500 auth_db []
                                              root_admin) as (_ & _ & H).
    destruct (H _ eq_refl) as [_ H'].
    destruct (H' (cookie "tok_alice") 1000 "tok_alice"
                 (mkSession "tok_alice" "alice" 2000) eq_refl) as [Ht _];
      [discriminate | reflexivity | cbn; lia |].
    apply (proj1 (Ht eq_refl)). discriminate.
  - destruct (update_user_status_takes_effect "erin" "active" None 1500 auth_db []
                                              root_admin) as (_ & _ & H).
    destruct (H _ eq_refl) as [_ H'].
    destruct (H' (cookie "tok_alice") 1000 "tok_alice"
                 (mkSession "tok_alice" "alice" 2000) eq_refl) as [_ Ho];
      [discriminate | reflexivity | cbn; lia |].
    apply Ho. discriminate.
Defined.

(** ** Promotion to administrator *)

Lemma get_current_user_ok (request : Request) (now : Z) (d : DB) (u : User) :
  get_current_user request now d = Ok u ->
  exists token session,
    get_session_token request = Some token /\ truthy token = true /\
    find_one (fun s => (session_token s =? token)%string) (user_sessions d)
    = Some session /\
    (expires_at session <? now) = false /\
    find_one (fun v => (user_id v =? s_user_id session)%string) (users d) = Some u /\
    status u <> Some "blocked" /\ status u <> Some "suspended".
Proof.
  unfold get_current_user.
  destruct (get_session_token request) as [token|] eqn:Ht; [|discriminate].
  destruct (truthy token) eqn:Htr; cbn [negb]; [|discriminate].
  destruct (find_one _ (user_sessions d)) as [session|] eqn:Hs; [|discriminate].
  destruct (expires_at session <? now) eqn:Hexp; [discriminate|].
  destruct (find_one _ (users d)) as [v|] eqn:Hv; [|discriminate].
  destruct (String.eqb_spec (match status v with Some s => s | None => "active" end)
                            "blocked") as [E1|E1]; [discriminate|].
  destruct (String.eqb_spec (match status v with Some s => s | None => "active" end)
                            "suspended") as [E2|E2]; [discriminate|].
  intros [= <-]. exists token, session.
  do 5 (split; [first [reflexivity | assumption]|]).
  split; intros E; rewrite E in *; congruence.
Qed.

Lemma find_update_first_both (p q : User -> bool) (f : User -> User) (l : list User)
      (u : User) :
  q (f u) = true ->
  find_one p l = Some u -> find_one q l = Some u ->
  find_one q (update_first_user p f l) = Some (f u).
Proof.
  intros Hq. unfold find_one. induction l as [|x l IH]; [discriminate|].
  cbn [find update_first_user]. destruct (p x) eqn:Ep.
  - intros [= ->]. destruct (q u) eqn:Eq.
    + intros _. cbn [find]. now rewrite Hq.
    + intros H. apply find_some in H as [_ H]. congruence.
  - intros Hp. destruct (q x) eqn:Eq.
    + intros [= ->]. apply find_some in Hp as [_ Hp]. congruence.
    + intros Hq'. cbn [find]. rewrite Eq. now apply IH.
Qed.

(** X9.  [make_admin] does not look at who calls it.  When the first user
    with the e-mail address is no administrator yet, the call succeeds for
    every caller, and every request that was answered for that user before
    passes [require_admin] afterwards; a refusal is a 404 and changes
    nothing. *)
Theorem make_admin_promotes (address : string) (d : DB) (current_user : User) :
  (forall code detail,
      fst (make_admin address d current_user) = HTTPException code detail ->
      code = 404 /\ snd (make_admin address d current_user) = d) /\
  (forall u,
      find_one (fun v => (email v =? address)%string) (users d) = Some u ->
      role u <> "admin" ->
      fst (make_admin address d current_user)
      = Ok ("User " ++ address ++ " is now an admin") /\
      forall later at_time,
        get_current_user later at_time d = Ok u ->
        require_admin (get_current_user later at_time
                                        (snd (make_admin address d current_user)))
        = Ok (with_role "admin" u)).
Proof.
  unfold make_admin. split.
  - intros code detail.
    destruct (find_one _ (users d)) as [u|]; [|now intros [= <- _]].
    destruct (role u =? "admin")%string; [now intros [= <- _] | discriminate].
  - intros u Hu Hrole. rewrite Hu.
    apply String.eqb_neq in Hrole. rewrite Hrole. cbn [fst snd].
    split; [reflexivity|]. intros later at_time Hok.
    destruct (get_current_user_ok _ _ _ _ Hok)
      as (token & session & Ht & Htr & Hs & Hexp & Hfind & Hb & Hsus).
    unfold get_current_user. rewrite Ht, Htr. cbn [negb user_sessions users set_users].
    rewrite Hs, Hexp.
    rewrite (find_update_first_both _ _ (with_role "admin") _ u); try assumption.
    + cbn [status with_role].
      destruct (String.eqb_spec (match status u with Some s => s | None => "active" end)
                                "blocked") as [E|_].
      { destruct (status u); [subst; now elim Hb | discriminate]. }
      destruct (String.eqb_spec (match status u with Some s => s | None => "active" end)
                                "suspended") as [E|_].
      { destruct (status u); [subst; now elim Hsus | discriminate]. }
      reflexivity.
    + cbn [user_id with_role]. apply find_some in Hfind as [_ H]. exact H.
Qed.

Lemma make_admin_promotes_witness :
  fst (make_admin "bob@example.org" auth_db bob)
  = Ok "User bob@example.org is now an admin" /\
  require_admin (get_current_user (cookie "tok_bob") 400 auth_db)
  = HTTPException 403 "Admin access required" /\
  require_admin (get_current_user (cookie "tok_bob") 400
                                  (snd (make_admin "bob@example.org" auth_db bob)))
  = Ok (with_role "admin" bob).
Proof.
  destruct (make_admin_promotes "bob@example.org" auth_db bob) as [_ H].
  destruct (H bob eq_refl) as [H1 H2]; [discriminate|].
  split; [exact H1|]. split; [reflexivity|].
  exact (H2 (cookie "tok_bob") 400 eq_refl).
Defined.

(** ** Deleting a walk *)

Lemma delete_one_walk_other (wid other : string) (l : list Walk) :
  other <> wid ->
  find_one (fun w => (walk_id w =? other)%string) (delete_one_walk wid l)
  = find_one (fun w => (walk_id w =? other)%string) l.
Proof.
  intros Hne. unfold find_one. induction l as [|w l IH]; [reflexivity|].
  cbn [delete_one_walk find]. destruct (String.eqb_spec (walk_id w) wid) as [E|E].
  - destruct (String.eqb_spec (walk_id w) other) as [E'|_]; [congruence | reflexivity].
  - cbn [find]. now rewrite IH.
Qed.

Lemma delete_one_walk_gone (wid : string) (l : list Walk) :
  NoDup (map walk_id l) ->
  find_one (fun w => (walk_id w =? wid)%string) (delete_one_walk wid l) = None.
Proof.
  unfold find_one. induction l as [|w l IH]; [reflexivity|].
  cbn [map delete_one_walk]. intros Hnd. inversion Hnd as [|? ? Hnot Hnd']; subst.
  destruct (String.eqb_spec (walk_id w) wid) as [E|E].
  - apply find_one_none. intros w' Hin. apply String.eqb_neq. intros E'.
    apply Hnot. rewrite E, <- E'. now apply in_map.
  - cbn [find]. apply String.eqb_neq in E. rewrite E. now apply IH.
Qed.

Lemma filter_filter_none {A : Type} (p q : A -> bool) (l : list A) :
  (forall a, p a = true -> q a = false) -> filter p (filter q l) = [].
Proof.
  intros H. induction l as [|a l IH]; [reflexivity|]. cbn [filter].
  destruct (q a) eqn:Eq; [|exact IH]. cbn [filter].
  destruct (p a) eqn:Ep; [|exact IH]. rewrite (H a Ep) in Eq. discriminate.
Qed.

Lemma filter_filter_all {A : Type} (p q : A -> bool) (l : list A) :
  (forall a, p a = true -> q a = true) -> filter p (filter q l) = filter p l.
Proof.
  intros H. induction l as [|a l IH]; [reflexivity|]. cbn [filter].
  destruct (q a) eqn:Eq.
  - cbn [filter]. destruct (p a); now rewrite IH.
  - destruct (p a) eqn:Ep; [|exact IH]. rewrite (H a Ep) in Eq. discriminate.
Qed.

(** X10.  [delete_walk] is refused, with nothing changed, unless the walk
    exists and the caller is its organizer or has the role "admin".  When it
    succeeds the walk has no participants left, the bookings kept are those
    of the other walks, the other walks and their participant counts are as
    before, and, walk identifiers being unique, a booking of the deleted
    walk is answered 404. *)
Theorem delete_walk_spec (wid : string) (d : DB) (current_user : User) :
  (forall code detail,
      fst (delete_walk wid d current_user) = HTTPException code detail ->
      snd (delete_walk wid d current_user) = d) /\
  (find_one (fun w => (walk_id w =? wid)%string) (walks d) = None ->
   fst (delete_walk wid d current_user) = HTTPException 404 "Walk not found") /\
  (forall walk,
      find_one (fun w => (walk_id w =? wid)%string) (walks d) = Some walk ->
      organizer_id walk <> user_id current_user -> role current_user <> "admin" ->
      exists detail, fst (delete_walk wid d current_user) = HTTPException 403 detail) /\
  (forall walk,
      find_one (fun w => (walk_id w =? wid)%string) (walks d) = Some walk ->
      organizer_id walk = user_id current_user \/ role current_user = "admin" ->
      let d' := snd (delete_walk wid d current_user) in
      fst (delete_walk wid d current_user) = Ok "Walk deleted successfully" /\
      current_participants d' wid = 0 /\
      (forall b, In b (bookings d') <-> In b (bookings d) /\ b_walk_id b <> wid) /\
      (forall other,
          other <> wid ->
          current_participants d' other = current_participants d other /\
          find_one (fun w => (walk_id w =? other)%string) (walks d')
          = find_one (fun w => (walk_id w =? other)%string) (walks d)) /\
      (NoDup (map walk_id (walks d)) ->
       forall now uuid_hex user,
         create_booking wid now uuid_hex d' user
         = (HTTPException 404 "Walk not found", d'))).
Proof.
  unfold delete_walk. split; [|split; [|split]].
  - intros code detail. destruct (find_one _ (walks d)) as [walk|]; [|reflexivity].
    destruct (_ && _); [reflexivity | discriminate].
  - now intros ->.
  - intros walk -> Ho Hr. apply String.eqb_neq in Ho, Hr. rewrite Ho, Hr.
    now eexists.
  - intros walk -> Hmay. cbv zeta.
    assert (E : negb (organizer_id walk =? user_id current_user)%string
                && negb (role current_user =? "admin")%string = false).
    { destruct Hmay as [-> | ->]; rewrite String.eqb_refl; cbn [negb andb];
        [reflexivity | apply andb_false_r]. }
    rewrite E. cbn [fst snd]. split; [reflexivity|]. split; [|split; [|split]].
    + unfold current_participants. cbn [bookings]. rewrite filter_filter_none; [reflexivity|].
      intros b Hb. unfold is_active_on in Hb. apply andb_true_iff in Hb as [Hb _].
      now rewrite Hb.
    + intros b. cbn [bookings]. rewrite filter_In, negb_true_iff, String.eqb_neq.
      reflexivity.
    + intros other Hne. split.
      * unfold current_participants. cbn [bookings]. rewrite filter_filter_all; [reflexivity|].
        intros b Hb. unfold is_active_on in Hb. apply andb_true_iff in Hb as [Hb _].
        apply String.eqb_eq in Hb. apply negb_true_iff, String.eqb_neq. congruence.
      * cbn [walks]. now apply delete_one_walk_other.
    + intros Hnd now uuid_hex user. unfold create_booking. cbn [walks].
      now rewrite (delete_one_walk_gone wid (walks d) Hnd).
Qed.

Lemma delete_walk_spec_witness :
  fst (delete_walk "w9" reminder_db alice) = HTTPException 404 "Walk not found" /\
  (exists detail, fst (delete_walk "w1" reminder_db bob) = HTTPException 403 detail) /\
  fst (delete_walk "w1" reminder_db alice) = Ok "Walk deleted successfully" /\
  current_participants (snd (delete_walk "w1" reminder_db alice)) "w1" = 0 /\
  current_participants (snd (delete_walk "w1" reminder_db alice)) "w2" = 1 /\
  create_booking "w1" 0 "abc" (snd (delete_walk "w1" reminder_db alice)) bob
  = (HTTPException 404 "Walk not found", snd (delete_walk "w1" reminder_db alice)).
Proof.
  destruct (delete_walk_spec "w9" reminder_db alice) as (_ & H404 & _).
  destruct (delete_walk_spec "w1" reminder_db bob) as (_ & _ & H403 & _).
  destruct (delete_walk_spec "w1" reminder_db alice) as (_ & _ & _ & Hok).
  destruct (Hok _ eq_refl (or_introl eq_refl)) as (H1 & H2 & _ & H4 & H5).
  split; [exact (H404 eq_refl)|].
  split; [apply (H403 _ eq_refl); discriminate|].
  split; [exact H1|]. split; [exact H2|].
  split.
  - destruct (H4 "w2") as [Hc _]; [discriminate|]. rewrite Hc. reflexivity.
  - apply H5. vm_compute. repeat constructor; cbn; intuition discriminate.
Defined.

(** ** New-walk alerts and the walk list *)

Lemma sex_match_values_normalized (s : string) (l : list string) :
  In s (sex_match_values l) ->
  exists n, In n l /\ normalize_sex (Some s) = Some n.
Proof.
  unfold sex_match_values. rewrite in_flat_map. intros (n & Hn & Hs).
  exists n. split; [exact Hn|].
  destruct (String.eqb_spec n "M") as [->|_].
  { cbn in Hs. destruct Hs as [<- | [<- | []]]; reflexivity. }
  destruct (String.eqb_spec n "F") as [->|_].
  { cbn in Hs. destruct Hs as [<- | [<- | []]]; reflexivity. }
  destruct (String.eqb_spec n "X") as [->|_]; [|destruct Hs].
  cbn in Hs. destruct Hs as [<- | [<- | [<- | [<- | []]]]]; reflexivity.
Qed.

(** X11.  A user whom [notify_previous_participants] selects for a new walk
    passes the sex and age filters that [get_walks] applies to this walk,
    when the walk lists no sex condition or one that names M, F or X in some
    spelling. *)
Theorem alerted_user_passes_filters (d : DB) (walk : Walk) (u : User) :
  In u (matched_users d walk) ->
  walk_sex_list walk = None \/ walk_sex_list walk = Some [] \/
  accepted_sex_values walk <> [] ->
  passes_condition_filters u walk = true.
Proof.
  intros Hin Hsex. apply matched_users_age in Hin as [Hpot Hage].
  apply in_to_list, filter_In in Hpot as [_ Hbase].
  apply base_query_conditions in Hbase as (_ & _ & _ & Hs).
  unfold passes_condition_filters.
  unfold age_condition, walk_age_groups in Hage.
  unfold accepted_sex_values, walk_sex_list in *.
  destruct (conditions walk) as [c|]; [|reflexivity].
  assert (E1 : match cond_sex c with
               | Some (_ :: _) =>
                   match normalize_sex (sex u) with
                   | Some s => str_in s (normalize_sex_list (cond_sex c))
                   | None => false
                   end
               | _ => true
               end = true).
  { destruct (cond_sex c) as [[|x l]|] eqn:Ec; try reflexivity.
    destruct Hsex as [H | [H | H]]; try discriminate.
    destruct (Hs H) as (s & Hsu & Hins).
    apply sex_match_values_normalized in Hins as (n & Hn & Hnorm).
    rewrite Hsu, Hnorm. now apply str_in_true. }
  assert (E2 : match cond_age_groups c with
               | Some (g :: gs) =>
                   match age u with
                   | None => false
                   | Some user_age => age_match (g :: gs) user_age
                   end
               | _ => true
               end = true).
  { destruct (cond_age_groups c) as [[|g gs]|]; try reflexivity.
    destruct Hage as (a & g' & Ha & Hg & Hholds); [discriminate|].
    rewrite Ha. apply age_match_exists. now exists g'. }
  rewrite E1, E2. reflexivity.
Qed.

Lemma alerted_user_passes_filters_witness :
  In bob (matched_users targeting_db adults_walk) /\
  passes_condition_filters bob adults_walk = true.
Proof.
  assert (H : In bob (matched_users targeting_db adults_walk)).
  { vm_compute. left. reflexivity. }
  split; [exact H|].
  apply (alerted_user_passes_filters targeting_db adults_walk bob H).
  right. right. vm_compute. discriminate.
Defined.

(** A walk whose sex condition names none of M, F and X: Bob is selected
    for the alert, and [get_walks] does not show him the walk. *)
Example alerted_user_filtered_out :
  In bob (matched_users targeting_db nonbinary_walk) /\
  passes_condition_filters bob nonbinary_walk = false.
Proof. split; [vm_compute; auto | reflexivity]. Qed.

(** ** Reviews *)

Lemma create_review_cases (wid : string) (stars : Z) (text : option string)
      (now : Z) (uuid_hex : string) (d : DB) (reviews : list WalkReview) (u : User) :
  (exists code detail,
      create_review wid stars text now uuid_hex d reviews u
      = (HTTPException code detail, reviews) /\
      (stars < 1 \/ stars > 5 \/
       find_one (fun w => (walk_id w =? wid)%string) (walks d) = None \/
       find_one (fun b => (b_walk_id b =? wid)%string
                          && (b_user_id b =? user_id u)%string) (bookings d) = None \/
       exists r, In r reviews /\ rv_walk_id r = wid /\ rv_user_id r = user_id u)) \/
  (exists review walk booking,
      create_review wid stars text now uuid_hex d reviews u
      = (Ok review, (reviews ++ [review])%list) /\
      1 <= stars <= 5 /\
      In walk (walks d) /\ walk_id walk = wid /\
      In booking (bookings d) /\ b_walk_id booking = wid /\
      b_user_id booking = user_id u /\
      (forall r, In r reviews -> ~ (rv_walk_id r = wid /\ rv_user_id r = user_id u)) /\
      rv_walk_id review = wid /\ rv_user_id review = user_id u /\ rating review = stars /\
      rv_walk_title review = title walk).
Proof.
  unfold create_review.
  destruct (stars <? 1) eqn:E1; cbn [orb].
  { left. eexists _, _. split; [reflexivity|]. left. now apply Z.ltb_lt. }
  destruct (stars >? 5) eqn:E5.
  { left. eexists _, _. split; [reflexivity|]. right. left.
    apply Z.gtb_lt in E5. lia. }
  destruct (find_one _ (walks d)) as [walk|] eqn:Hw.
  2:{ left. eexists _, _. split; [reflexivity|]. tauto. }
  destruct (find_one _ (bookings d)) as [booking|] eqn:Hb.
  2:{ left. eexists _, _. split; [reflexivity|]. tauto. }
  destruct (find_one _ reviews) as [r|] eqn:Hr.
  { left. eexists _, _. split; [reflexivity|]. right. right. right. right.
    apply find_some in Hr as [Hin Hq]. apply andb_true_iff in Hq as [Hq1 Hq2].
    apply String.eqb_eq in Hq1, Hq2. now exists r. }
  right. eexists _, walk, booking. split; [reflexivity|].
  apply find_some in Hw as [Hw1 Hw2]. apply String.eqb_eq in Hw2.
  apply find_some in Hb as [Hb1 Hb2]. apply andb_true_iff in Hb2 as [Hb2 Hb3].
  apply String.eqb_eq in Hb2, Hb3.
  apply Z.ltb_ge in E1. rewrite Z.gtb_ltb in E5. apply Z.ltb_ge in E5.
  repeat (split; [first [assumption | reflexivity | lia]|]).
  split; [|now repeat split].
  intros r Hin [Hr1 Hr2]. apply (find_none _ _ Hr) in Hin.
  rewrite Hr1, Hr2, !String.eqb_refl in Hin. discriminate.
Qed.

Lemma review_alone_create (rq : ReviewRequest) (d : DB) (reviews : list WalkReview) :
  review_alone d reviews (ReviewArrives rq)
  = (snd (create_review (rq_walk_id rq) (rq_rating rq) (rq_comment rq) (rq_now rq)
                        (rq_uuid_hex rq) d reviews (rq_user rq)),
     Reviewed (fst (create_review (rq_walk_id rq) (rq_rating rq) (rq_comment rq)
                                  (rq_now rq) (rq_uuid_hex rq) d reviews (rq_user rq)))).
Proof.
  unfold review_alone, create_review. cbn [review_step].
  destruct ((rq_rating rq <? 1) || (rq_rating rq >? 5)); cbn [fst snd review_step];
    [reflexivity|].
  destruct (find_one _ (walks d)); cbn [fst snd review_step]; [|reflexivity].
  destruct (find_one _ (bookings d)); cbn [fst snd review_step]; [|reflexivity].
  destruct (find_one _ reviews); reflexivity.
Qed.

Lemma review_step_ratings (d : DB) (reviews : list WalkReview) (t : ReviewTask) :
  (forall r, In r reviews -> 1 <= rating r <= 5) ->
  task_rating_in_range t ->
  (forall r, In r (fst (review_step d reviews t)) -> 1 <= rating r <= 5) /\
  task_rating_in_range (snd (review_step d reviews t)).
Proof.
  intros Hall Ht. destruct t as [rq | rq walk | rq walk | rq walk | rq walk shown | result];
    cbn [review_step].
  - destruct (rq_rating rq <? 1) eqn:E1; cbn [orb]; [now split|].
    destruct (rq_rating rq >? 5) eqn:E5; [now split|].
    apply Z.ltb_ge in E1. rewrite Z.gtb_ltb in E5. apply Z.ltb_ge in E5.
    destruct (find_one _ (walks d)); cbn [fst snd task_rating_in_range];
      (split; [exact Hall | first [exact I | lia]]).
  - destruct (find_one _ (bookings d)); now split.
  - destruct (find_one _ reviews); now split.
  - now split.
  - cbn [fst snd task_rating_in_range] in *. split; [|exact I].
    intros r Hin. apply in_app_or in Hin as [Hin | [<- | []]]; [now apply Hall|].
    exact Ht.
  - now split.
Qed.

Lemma Forall_set_nth {A : Type} (P : A -> Prop) (i : nat) (x : A) (l : list A) :
  Forall P l -> P x -> Forall P (set_nth i x l).
Proof.
  intros Hl Hx. revert i. induction Hl as [|y l Hy Hl IH]; intros i;
    [destruct i; constructor|].
  destruct i as [|i]; cbn [set_nth]; constructor; auto.
Qed.

Lemma run_reviews_ratings (schedule : list (nat * DB)) :
  forall reviews tasks,
    (forall r, In r reviews -> 1 <= rating r <= 5) ->
    Forall task_rating_in_range tasks ->
    (forall r, In r (fst (run_reviews schedule reviews tasks)) -> 1 <= rating r <= 5) /\
    Forall task_rating_in_range (snd (run_reviews schedule reviews tasks)).
Proof.
  unfold run_reviews.
  induction schedule as [|[i d] schedule IH]; intros reviews tasks Hall Htasks;
    cbn [fold_left fst snd]; [now split|].
  destruct (nth_error tasks i) as [t|] eqn:Et; [|now apply IH].
  assert (Ht : task_rating_in_range t).
  { apply nth_error_In in Et. rewrite Forall_forall in Htasks. now apply Htasks. }
  destruct (review_step_ratings d reviews t Hall Ht) as [H1 H2].
  apply IH; [exact H1 | now apply Forall_set_nth].
Qed.

Lemma arriving_reviews_in_range (requests : list ReviewRequest) :
  Forall task_rating_in_range (map ReviewArrives requests).
Proof. induction requests; cbn [map]; constructor; [exact I | assumption]. Qed.

Lemma run_reviews_turn (i : nat) (d : DB) (schedule : list (nat * DB))
      (reviews reviews' : list WalkReview) (tasks : list ReviewTask) (t t' : ReviewTask) :
  nth_error tasks i = Some t -> review_step d reviews t = (reviews', t') ->
  run_reviews ((i, d) :: schedule) reviews tasks
  = run_reviews schedule reviews' (set_nth i t' tasks).
Proof.
  intros Ht Hstep. unfold run_reviews. cbn [fold_left fst snd]. now rewrite Ht, Hstep.
Qed.

Lemma create_review_interleaved (d : DB) (reviews : list WalkReview) (u : User)
      (wid : string) (walk : Walk) (booking : Booking)
      (stars1 stars2 : Z) (text1 text2 : option string) (now1 now2 : Z)
      (hex1 hex2 : string) :
  1 <= stars1 <= 5 -> 1 <= stars2 <= 5 ->
  find_one (fun w => (walk_id w =? wid)%string) (walks d) = Some walk ->
  find_one (fun b => (b_walk_id b =? wid)%string && (b_user_id b =? user_id u)%string)
           (bookings d) = Some booking ->
  find_one (fun r => (rv_walk_id r =? wid)%string && (rv_user_id r =? user_id u)%string)
           reviews = None ->
  exists first second,
    run_reviews (map (fun i => (i, d)) [0; 1; 0; 1; 0; 1; 0; 1; 0; 1]%nat) reviews
                [ReviewArrives (mkReviewRequest u wid stars1 text1 now1 hex1);
                 ReviewArrives (mkReviewRequest u wid stars2 text2 now2 hex2)]
    = ((reviews ++ [first; second])%list, [Reviewed (Ok first); Reviewed (Ok second)]) /\
    rv_walk_id first = wid /\ rv_user_id first = user_id u /\ rating first = stars1 /\
    rv_walk_id second = wid /\ rv_user_id second = user_id u /\ rating second = stars2.
Proof.
  intros Hs1 Hs2 Hw Hb Hnone.
  assert (Sarr : forall stars text now hex,
             1 <= stars <= 5 ->
             review_step d reviews (ReviewArrives (mkReviewRequest u wid stars text now hex))
             = (reviews, AwaitBooking (mkReviewRequest u wid stars text now hex) walk)).
  { intros stars text now hex Hs. cbn [review_step rq_rating rq_walk_id].
    destruct (Z.ltb_spec stars 1); [lia|]. rewrite Z.gtb_ltb.
    destruct (Z.ltb_spec 5 stars); [lia|]. cbn [orb]. now rewrite Hw. }
  assert (Sbook : forall rq,
             rq_walk_id rq = wid -> rq_user rq = u ->
             review_step d reviews (AwaitBooking rq walk)
             = (reviews, AwaitExistingReview rq walk)).
  { intros rq E1 E2. cbn [review_step]. now rewrite E1, E2, Hb. }
  assert (Sex : forall rq,
             rq_walk_id rq = wid -> rq_user rq = u ->
             review_step d reviews (AwaitExistingReview rq walk)
             = (reviews, AwaitPseudonym rq walk)).
  { intros rq E1 E2. cbn [review_step]. now rewrite E1, E2, Hnone. }
  eexists _, _. split.
  - cbn [map].
    erewrite (run_reviews_turn 0); [cbn [set_nth] | reflexivity | now apply Sarr].
    erewrite (run_reviews_turn 1); [cbn [set_nth] | reflexivity | now apply Sarr].
    erewrite (run_reviews_turn 0); [cbn [set_nth] | reflexivity | now apply Sbook].
    erewrite (run_reviews_turn 1); [cbn [set_nth] | reflexivity | now apply Sbook].
    erewrite (run_reviews_turn 0); [cbn [set_nth] | reflexivity | now apply Sex].
    erewrite (run_reviews_turn 1); [cbn [set_nth] | reflexivity | now apply Sex].
    erewrite (run_reviews_turn 0); [cbn [set_nth] | reflexivity | reflexivity].
    erewrite (run_reviews_turn 1); [cbn [set_nth] | reflexivity | reflexivity].
    erewrite (run_reviews_turn 0); [cbn [set_nth] | reflexivity | reflexivity].
    erewrite (run_reviews_turn 1); [cbn [set_nth] | reflexivity | reflexivity].
    unfold run_reviews. cbn [fold_left]. rewrite <- app_assoc. reflexivity.
  - cbn. repeat split.
Qed.

(** X12.  A [create_review] whose five awaited operations run with no
    operation of another request in between does what the function
    [create_review] says: it stores a review exactly when the rating is
    between 1 and 5, the walk exists, the caller has a booking on it
    (cancelled or not) and has not reviewed it yet; a refusal stores
    nothing; and such a call keeps the stored reviews at one review for
    each walk and user.  However the operations of the requests take turns,
    the stored ratings stay between 1 and 5.  That a user has one review of
    a walk does not survive every interleaving: when the operations of two
    requests of one user for one walk take turns, both find no review of
    his and both reviews are stored. *)
Theorem create_review_spec (wid : string) (stars : Z) (text : option string)
        (now : Z) (uuid_hex : string) (d : DB) (reviews : list WalkReview)
        (current_user : User) :
  review_alone d reviews
               (ReviewArrives (mkReviewRequest current_user wid stars text now uuid_hex))
  = (snd (create_review wid stars text now uuid_hex d reviews current_user),
     Reviewed (fst (create_review wid stars text now uuid_hex d reviews current_user))) /\
  ((exists review,
       create_review wid stars text now uuid_hex d reviews current_user
       = (Ok review, (reviews ++ [review])%list) /\
       rv_walk_id review = wid /\ rv_user_id review = user_id current_user /\
       rating review = stars)
   <->
   (1 <= stars <= 5 /\
    (exists walk, In walk (walks d) /\ walk_id walk = wid) /\
    (exists booking, In booking (bookings d) /\ b_walk_id booking = wid /\
                     b_user_id booking = user_id current_user) /\
    (forall r, In r reviews ->
               ~ (rv_walk_id r = wid /\ rv_user_id r = user_id current_user)))) /\
  (forall code detail,
      fst (create_review wid stars text now uuid_hex d reviews current_user)
      = HTTPException code detail ->
      snd (create_review wid stars text now uuid_hex d reviews current_user) = reviews) /\
  (reviews_well_formed reviews ->
   reviews_well_formed
     (fst (review_alone
             d reviews
             (ReviewArrives (mkReviewRequest current_user wid stars text now uuid_hex))))) /\
  (forall schedule others,
      (forall r, In r reviews -> 1 <= rating r <= 5) ->
      forall r,
        In r (fst (run_reviews
                     schedule reviews
                     (map ReviewArrives
                          (mkReviewRequest current_user wid stars text now uuid_hex
                                           :: others)))) ->
        1 <= rating r <= 5) /\
  (forall walk booking stars' text' now' uuid_hex',
      1 <= stars <= 5 -> 1 <= stars' <= 5 ->
      find_one (fun w => (walk_id w =? wid)%string) (walks d) = Some walk ->
      find_one (fun b => (b_walk_id b =? wid)%string
                         && (b_user_id b =? user_id current_user)%string)
               (bookings d) = Some booking ->
      find_one (fun r => (rv_walk_id r =? wid)%string
                         && (rv_user_id r =? user_id current_user)%string)
               reviews = None ->
      exists first second,
        fst (run_reviews
               (map (fun i => (i, d)) [0; 1; 0; 1; 0; 1; 0; 1; 0; 1]%nat) reviews
               [ReviewArrives (mkReviewRequest current_user wid stars text now uuid_hex);
                ReviewArrives (mkReviewRequest current_user wid stars' text' now' uuid_hex')])
        = (reviews ++ [first; second])%list /\
        rv_walk_id first = wid /\ rv_user_id first = user_id current_user /\
        rv_walk_id second = wid /\ rv_user_id second = user_id current_user).
Proof.
  split; [apply (review_alone_create
                   (mkReviewRequest current_user wid stars text now uuid_hex))|].
  rewrite (review_alone_create (mkReviewRequest current_user wid stars text now uuid_hex)).
  cbn [fst rq_walk_id rq_rating rq_comment rq_now rq_uuid_hex rq_user].
  assert (Hturns : forall schedule others,
             (forall r, In r reviews -> 1 <= rating r <= 5) ->
             forall r,
               In r (fst (run_reviews
                            schedule reviews
                            (map ReviewArrives
                                 (mkReviewRequest current_user wid stars text now uuid_hex
                                                  :: others)))) ->
               1 <= rating r <= 5).
  { intros schedule others Hall.
    apply (run_reviews_ratings schedule reviews _ Hall).
    apply arriving_reviews_in_range. }
  assert (Htwice : forall walk booking stars' text' now' uuid_hex',
             1 <= stars <= 5 -> 1 <= stars' <= 5 ->
             find_one (fun w => (walk_id w =? wid)%string) (walks d) = Some walk ->
             find_one (fun b => (b_walk_id b =? wid)%string
                                && (b_user_id b =? user_id current_user)%string)
                      (bookings d) = Some booking ->
             find_one (fun r => (rv_walk_id r =? wid)%string
                                && (rv_user_id r =? user_id current_user)%string)
                      reviews = None ->
             exists first second,
               fst (run_reviews
                      (map (fun i => (i, d)) [0; 1; 0; 1; 0; 1; 0; 1; 0; 1]%nat) reviews
                      [ReviewArrives
                         (mkReviewRequest current_user wid stars text now uuid_hex);
                       ReviewArrives
                         (mkReviewRequest current_user wid stars' text' now' uuid_hex')])
               = (reviews ++ [first; second])%list /\
               rv_walk_id first = wid /\ rv_user_id first = user_id current_user /\
               rv_walk_id second = wid /\ rv_user_id second = user_id current_user).
  { intros walk booking stars' text' now' uuid_hex' Hs Hs' Hw Hb Hnone.
    destruct (create_review_interleaved d reviews current_user wid walk booking
                                        stars stars' text text' now now' uuid_hex uuid_hex'
                                        Hs Hs' Hw Hb Hnone)
      as (first & second & E & H1 & H2 & _ & H3 & H4 & _).
    exists first, second. rewrite E. now repeat split. }
  destruct (create_review_cases wid stars text now uuid_hex d reviews current_user)
    as [(code & detail & E & Hwhy)
       | (review & walk & booking & E & Hs & Hw1 & Hw2 & Hb1 & Hb2 & Hb3 & Hnew
          & Hr1 & Hr2 & Hr3 & _)].
  - rewrite E. cbn [fst snd]. split; [|split; [|split]].
    + split.
      * intros (review & [=] & _).
      * intros (Hs & (walk & Hw1 & Hw2) & (booking & Hb1 & Hb2 & Hb3) & Hnew).
        exfalso. destruct Hwhy as [H | [H | [H | [H | (r & Hin & H1 & H2)]]]]; try lia.
        -- apply (find_none _ _ H) in Hw1. rewrite Hw2, String.eqb_refl in Hw1.
           discriminate.
        -- apply (find_none _ _ H) in Hb1. rewrite Hb2, Hb3, !String.eqb_refl in Hb1.
           discriminate.
        -- now apply (Hnew r Hin).
    + reflexivity.
    + trivial.
    + split; [exact Hturns | exact Htwice].
  - rewrite E. cbn [fst snd]. split; [|split; [|split]].
    + split.
      * intros _. split; [exact Hs|]. split; [now exists walk|].
        split; [now exists booking | exact Hnew].
      * intros _. now exists review.
    + discriminate.
    + intros [Hrate Hnd]. split.
      * intros r Hin. apply in_app_or in Hin as [Hin | [<- | []]]; [now apply Hrate|].
        now rewrite Hr3.
      * rewrite map_app. cbn [map]. apply NoDup_app.
        -- exact Hnd.
        -- constructor; [intros [] | constructor].
        -- intros key Hin1 [<- | []]. apply in_map_iff in Hin1 as (r & [= H1 H2] & Hin).
           apply (Hnew r Hin). split; congruence.
    + split; [exact Hturns | exact Htwice].
Qed.

Lemma create_review_spec_witness :
  (exists review,
      create_review "w1" 5 (Some " a fine walk ") 100 "0123456789ab" reminder_db [] bob
      = (Ok review, [review]) /\
      rv_walk_id review = "w1" /\ rv_user_id review = "bob" /\ rating review = 5) /\
  reviews_well_formed
    (fst (review_alone
            reminder_db []
            (ReviewArrives (mkReviewRequest bob "w1" 5 (Some " a fine walk ") 100
                                            "0123456789ab")))) /\
  forall r,
    In r (fst (run_reviews
                 [(0, reminder_db); (1, reminder_db); (0, reminder_db); (1, reminder_db)]%nat
                 []
                 (map ReviewArrives
                      [mkReviewRequest bob "w1" 5 (Some " a fine walk ") 100 "0123456789ab";
                       mkReviewRequest carol "w1" 9 None 101 "ba9876543210"]))) ->
    1 <= rating r <= 5.
Proof.
  destruct (create_review_spec "w1" 5 (Some " a fine walk ") 100 "0123456789ab"
                               reminder_db [] bob) as (_ & Hiff & _ & Hwf & Hturns & _).
  split; [|split].
  - apply Hiff. split; [lia|]. split; [|split].
    + eexists. split; [left; reflexivity | reflexivity].
    + eexists. split; [left; reflexivity | split; reflexivity].
    + intros r [].
  - apply Hwf. split; [intros r [] | constructor].
  - apply (Hturns [(0, reminder_db); (1, reminder_db); (0, reminder_db); (1, reminder_db)]%nat
                  [mkReviewRequest carol "w1" 9 None 101 "ba9876543210"]).
    intros r [].
Defined.

(** Bob sends his review of w1 twice; the operations of the two requests
    take turns, both find no review of his, and both are stored. *)
Example create_review_double_submit :
  let turns := map (fun i => (i, reminder_db)) [0; 1; 0; 1; 0; 1; 0; 1; 0; 1]%nat in
  let after :=
    run_reviews turns []
                [ReviewArrives (mkReviewRequest bob "w1" 5 (Some "Fine") 100 "0123456789ab");
                 ReviewArrives (mkReviewRequest bob "w1" 4 (Some "Fine") 100 "0123456789ac")] in
  map (fun r => (rv_walk_id r, rv_user_id r, rating r)) (fst after)
  = [("w1", "bob", 5); ("w1", "bob", 4)] /\
  ~ reviews_well_formed (fst after).
Proof.
  cbv zeta. split; [reflexivity|].
  intros [_ Hnd]. cbn in Hnd. inversion Hnd as [|? ? Hnot _]. apply Hnot. now left.
Qed.

Lemma get_reviewable_walks_In (d : DB) (reviews : list WalkReview) (u : User)
      (walk : Walk) :
  In walk (get_reviewable_walks d reviews u) ->
  In walk (walks d) /\
  (exists b, In b (bookings d) /\ b_user_id b = user_id u /\ b_walk_id b = walk_id walk) /\
  ~ In (walk_id walk) (map rv_walk_id (to_list 1000 (reviews_of reviews u))).
Proof.
  unfold get_reviewable_walks, reviews_of.
  destruct (map b_walk_id _) as [|i0 ids0] eqn:E1; [intros []|].
  destruct (filter _ (i0 :: ids0)) as [|i1 ids1] eqn:E2; [intros []|].
  intros H. apply in_to_list, filter_In in H as [Hw Hid]. split; [exact Hw|].
  apply str_in_true in Hid. rewrite <- E2 in Hid. apply filter_In in Hid as [Hb Hr].
  rewrite <- E1 in Hb. apply in_map_iff in Hb as (b & Hbw & Hb).
  apply in_to_list, filter_In in Hb as [Hb Hbu]. apply String.eqb_eq in Hbu.
  split; [now exists b|].
  apply negb_true_iff in Hr. now apply not_in_by_computation.
Qed.

Lemma reviews_of_app (reviews : list WalkReview) (r : WalkReview) (u : User) :
  rv_user_id r = user_id u ->
  reviews_of (reviews ++ [r]) u = (reviews_of reviews u ++ [r])%list.
Proof.
  intros E. unfold reviews_of. rewrite filter_app. cbn [filter].
  now rewrite E, String.eqb_refl.
Qed.

(** X13.  For a user with no more than 1000 reviews, [create_review]
    accepts every rating from 1 to 5 for each walk that
    [get_reviewable_walks] offers; and once a review of a walk is stored,
    the walk is offered no more. *)
Theorem get_reviewable_walks_spec (d : DB) (reviews : list WalkReview)
        (current_user : User) :
  (Z.of_nat (length (reviews_of reviews current_user)) <= 1000 ->
   forall walk,
     In walk (get_reviewable_walks d reviews current_user) ->
     forall stars text now uuid_hex,
       1 <= stars <= 5 ->
       exists review,
         fst (create_review (walk_id walk) stars text now uuid_hex d reviews current_user)
         = Ok review) /\
  (Z.of_nat (length (reviews_of reviews current_user)) < 1000 ->
   forall wid stars text now uuid_hex review,
     fst (create_review wid stars text now uuid_hex d reviews current_user) = Ok review ->
     forall walk,
       In walk (get_reviewable_walks
                  d (snd (create_review wid stars text now uuid_hex d reviews current_user))
                  current_user) ->
       walk_id walk <> wid).
Proof.
  split.
  - intros Hlen walk Hin stars text now uuid_hex Hs.
    apply get_reviewable_walks_In in Hin as (Hw & (b & Hb & Hbu & Hbw) & Hnot).
    rewrite to_list_all in Hnot by exact Hlen.
    destruct (create_review_cases (walk_id walk) stars text now uuid_hex d reviews
                                  current_user)
      as [(code & detail & E & Hwhy) | (review & _ & _ & E & _)].
    + exfalso. destruct Hwhy as [H | [H | [H | [H | (r & Hr & H1 & H2)]]]]; try lia.
      * apply (find_none _ _ H) in Hw. rewrite String.eqb_refl in Hw. discriminate.
      * apply (find_none _ _ H) in Hb. rewrite Hbw, Hbu, !String.eqb_refl in Hb.
        discriminate.
      * apply Hnot. rewrite <- H1. apply in_map. unfold reviews_of.
        apply filter_In. split; [exact Hr|]. rewrite H2. apply String.eqb_refl.
    + exists review. now rewrite E.
  - intros Hlen wid stars text now uuid_hex review Hok walk.
    destruct (create_review_cases wid stars text now uuid_hex d reviews current_user)
      as [(code & detail & E & _)
         | (review' & _ & _ & E & _ & _ & _ & _ & _ & _ & _ & Hr1 & Hr2 & _)].
    { rewrite E in Hok. discriminate. }
    rewrite E. cbn [snd]. intros Hin.
    apply get_reviewable_walks_In in Hin as (_ & _ & Hnot).
    rewrite (reviews_of_app _ _ _ Hr2) in Hnot.
    rewrite to_list_all in Hnot by (rewrite length_app; cbn [length]; lia).
    intros Eid. apply Hnot. rewrite map_app. apply in_or_app. right.
    left. congruence.
Qed.

Lemma get_reviewable_walks_spec_witness :
  In (sample_walk "w1" "2025-11-04" 10 None) (get_reviewable_walks reminder_db [] bob) /\
  (exists review,
      fst (create_review "w1" 4 None 100 "0123456789ab" reminder_db [] bob) = Ok review) /\
  forall walk,
    In walk (get_reviewable_walks
               reminder_db
               (snd (create_review "w1" 4 None 100 "0123456789ab" reminder_db [] bob)) bob) ->
    walk_id walk <> "w1".
Proof.
  destruct (get_reviewable_walks_spec reminder_db [] bob) as [H1 H2].
  assert (Hin : In (sample_walk "w1" "2025-11-04" 10 None)
                   (get_reviewable_walks reminder_db [] bob)).
  { vm_compute. left. reflexivity. }
  split; [exact Hin|]. split.
  - apply (H1 ltac:(cbn; lia) _ Hin 4 None 100 "0123456789ab"). lia.
  - apply (H2 ltac:(cbn; lia) "w1" 4 None 100 "0123456789ab" _ eq_refl).
Defined.

(** ** Feedback *)

Lemma length_lstrip (s : string) : (String.length (lstrip s) <= String.length s)%nat.
Proof.
  induction s as [|c s IH]; [apply Nat.le_refl|]. cbn [lstrip].
  destruct (is_space c); cbn [String.length]; lia.
Qed.

Lemma length_rstrip (s : string) : (String.length (rstrip s) <= String.length s)%nat.
Proof.
  induction s as [|c s IH]; [apply Nat.le_refl|]. cbn [rstrip].
  destruct (rstrip s) as [|c' r]; [destruct (is_space c)|]; cbn [String.length] in *; lia.
Qed.

Lemma len_strip (s : string) : 0 <= len (strip s) <= len s.
Proof.
  unfold len, strip. pose proof (length_lstrip (rstrip s)). pose proof (length_rstrip s).
  lia.
Qed.

Lemma create_feedback_in_order (wid text : string) (now : Z) (uuid_hex : string)
      (d : DB) (feedback : list Feedback) (u : User) :
  Forall feedback_in_order feedback ->
  Forall feedback_in_order (snd (create_feedback wid text now uuid_hex d feedback u)).
Proof.
  intros H. unfold create_feedback.
  destruct (find_one _ (walks d)) as [walk|]; [|exact H].
  destruct (String.eqb_spec (organizer_id walk) (user_id u)) as [E|E]; [exact H|].
  destruct (negb (truthy text) || (len (strip text) <? 5)) eqn:E5; [exact H|].
  destruct (len text >? 2000) eqn:E2; [exact H|]. cbn [snd].
  apply Forall_app. split; [exact H|]. constructor; [|constructor].
  apply orb_false_iff in E5 as [_ E5]. apply Z.ltb_ge in E5.
  rewrite Z.gtb_ltb in E2. apply Z.ltb_ge in E2. pose proof (len_strip text).
  split; [|split]; cbn; [congruence | lia | intros r []].
Qed.

Lemma push_reply_in_order (fid : string) (reply : FeedbackReply) (item : Feedback)
      (l : list Feedback) :
  find_one (fun f => (feedback_id f =? fid)%string) l = Some item ->
  (fr_from_user_id reply = from_user_id item \/ fr_from_user_id reply = to_organizer_id item) ->
  1 <= len (fr_message reply) <= 1000 ->
  Forall feedback_in_order l -> Forall feedback_in_order (push_reply fid reply l).
Proof.
  intros Hfind Hby Hlen. unfold find_one in Hfind.
  induction l as [|f l IH]; [constructor|].
  cbn [find push_reply] in *. intros Hall. inversion Hall as [|? ? Hf Hl]; subst.
  destruct (feedback_id f =? fid)%string.
  - injection Hfind as ->. constructor; [|exact Hl].
    destruct Hf as (H1 & H2 & H3). split; [|split]; cbn; [exact H1 | exact H2 |].
    intros r Hr. apply in_app_or in Hr as [Hr | [<- | []]]; [now apply H3 | now split].
  - constructor; [exact Hf | now apply IH].
Qed.

Lemma reply_to_feedback_in_order (fid text : string) (now : Z) (uuid_hex : string)
      (d : DB) (feedback : list Feedback) (u : User) :
  Forall feedback_in_order feedback ->
  Forall feedback_in_order (snd (reply_to_feedback fid text now uuid_hex d feedback u)).
Proof.
  intros H. unfold reply_to_feedback.
  destruct (find_one _ feedback) as [item|] eqn:Hfind; [|exact H].
  destruct (String.eqb_spec (user_id u) (to_organizer_id item)) as [E1|E1];
    destruct (String.eqb_spec (user_id u) (from_user_id item)) as [E2|E2];
    cbn [negb andb]; try exact H;
    (destruct (negb (truthy text) || (len (strip text) <? 1)) eqn:El; [exact H|];
     destruct (len text >? 1000) eqn:Eh; [exact H|]; cbn [snd];
     apply orb_false_iff in El as [_ El]; apply Z.ltb_ge in El;
     rewrite Z.gtb_ltb in Eh; apply Z.ltb_ge in Eh; pose proof (len_strip text);
     apply (push_reply_in_order fid _ item); cbn; auto; lia).
Qed.

(** X14.  Whatever requests the two feedback endpoints serve, starting from
    an empty collection: no stored feedback is addressed to its own sender,
    every stored message has 5 to 2000 characters, and every reply stored
    under a feedback has 1 to 1000 characters and was written by the sender
    of that feedback or by the organizer it is addressed to. *)
Theorem feedback_stays_in_order (requests : list (DB * FeedbackRequest)) :
  Forall feedback_in_order (serve_feedback_requests requests []).
Proof.
  unfold serve_feedback_requests.
  assert (H : Forall feedback_in_order []) by constructor.
  revert H. generalize (@nil Feedback).
  induction requests as [|[d r] requests IH]; intros fs H; [exact H|].
  cbn [fold_left fst snd]. apply IH. destruct r; cbn [serve_feedback].
  - now apply create_feedback_in_order.
  - now apply reply_to_feedback_in_order.
Qed.

(** Alice organizes w1: Bob writes to her, she answers, Carol's answer is
    refused and Alice cannot write to herself. *)
Example feedback_exchange :
  fst (create_feedback "w1" "  Lovely route  " 10 "f1" reminder_db [] bob)
  = Ok (mkFeedback "feedback_f1" "w1" "Walk w1" "bob" "bob" "alice" "alice"
                   "Lovely route" 10 []) /\
  (let stored := snd (create_feedback "w1" "  Lovely route  " 10 "f1" reminder_db [] bob) in
   fst (reply_to_feedback "feedback_f1" "Thanks!" 20 "r1" reminder_db stored alice)
   = Ok (mkReply "reply_r1" "feedback_f1" "alice" "alice" "Thanks!" 20) /\
   fst (reply_to_feedback "feedback_f1" "Me too" 20 "r2" reminder_db stored carol)
   = HTTPException 403 "You can only reply to feedback you received or sent") /\
  fst (create_feedback "w1" "Well done, me" 10 "f2" reminder_db [] alice)
  = HTTPException 400 "Cannot send feedback to yourself".
Proof. repeat split. Qed.

(** ** Cancelling and booking again *)

Lemma cancel_first_spec (q : Booking -> bool) (l : list Booking) :
  (snd (cancel_first q l) = false /\ fst (cancel_first q l) = l /\
   forall b, In b l -> q b = false) \/
  (exists before b after,
      l = (before ++ b :: after)%list /\ q b = true /\
      (forall x, In x before -> q x = false) /\
      cancel_first q l = ((before ++ cancelled b :: after)%list, true)).
Proof.
  induction l as [|x l IH]; [left; repeat split; intros b []|].
  cbn [cancel_first]. destruct (q x) eqn:Eq.
  - right. exists [], x, l. repeat split; [exact Eq | intros y []].
  - destruct (cancel_first q l) as [r m]. cbn [fst snd] in *.
    destruct IH as [(-> & -> & Hno) | (before & b & after & -> & Hb & Hbefore & [= -> ->])].
    + left. repeat split. intros b [<- | Hin]; [exact Eq | now apply Hno].
    + right. exists (x :: before), b, after. repeat split; [exact Hb|].
      intros y [<- | Hin]; [exact Eq | now apply Hbefore].
Qed.

(** X15.  [cancel_booking] answers 404, and changes nothing, exactly when
    the caller has no booking with the identifier.  Otherwise the first
    such booking gets the status "cancelled" and every other booking stays
    as it is, in its place; so nobody cancels the booking of another
    user. *)
Theorem cancel_booking_spec (bid : string) (d : DB) (current_user : User) :
  (cancel_booking bid d current_user = (HTTPException 404 "Booking not found", d) /\
   forall b, In b (bookings d) ->
             ~ (booking_id b = bid /\ b_user_id b = user_id current_user)) \/
  (exists before b after,
      bookings d = (before ++ b :: after)%list /\
      booking_id b = bid /\ b_user_id b = user_id current_user /\
      (forall x, In x before ->
                 ~ (booking_id x = bid /\ b_user_id x = user_id current_user)) /\
      fst (cancel_booking bid d current_user) = Ok "Booking cancelled successfully" /\
      bookings (snd (cancel_booking bid d current_user))
      = (before ++ cancelled b :: after)%list /\
      forall other,
        In other (bookings d) -> b_user_id other <> user_id current_user ->
        In other (bookings (snd (cancel_booking bid d current_user)))).
Proof.
  unfold cancel_booking.
  set (q := fun b => (booking_id b =? bid)%string
                     && (b_user_id b =? user_id current_user)%string).
  assert (Hq : forall b, q b = false ->
                         ~ (booking_id b = bid /\ b_user_id b = user_id current_user)).
  { intros b Hb [E1 E2]. unfold q in Hb. rewrite E1, E2, !String.eqb_refl in Hb.
    discriminate. }
  destruct (cancel_first_spec q (bookings d))
    as [(Hm & Hl & Hno) | (before & b & after & Hl & Hb & Hbefore & E)].
  - left. destruct (cancel_first q (bookings d)) as [bs m]. cbn [fst snd] in *. subst m.
    split; [reflexivity|]. intros b Hin. apply Hq. now apply Hno.
  - right. exists before, b, after. rewrite E. cbn [fst snd bookings].
    unfold q in Hb. apply andb_true_iff in Hb as [Hb1 Hb2].
    apply String.eqb_eq in Hb1, Hb2.
    split; [exact Hl|]. split; [exact Hb1|]. split; [exact Hb2|].
    split; [intros x Hx; apply Hq; now apply Hbefore|].
    split; [reflexivity|]. split; [reflexivity|].
    intros other Hin Hother. rewrite Hl in Hin. apply in_or_app.
    apply in_app_or in Hin as [Hin | [<- | Hin]]; [now left | congruence |].
    right. now right.
Qed.

Lemma cancel_first_fresh (q : Booking -> bool) (l : list Booking) (b : Booking) :
  (forall x, In x l -> q x = false) -> q b = true ->
  cancel_first q (l ++ [b]) = ((l ++ [cancelled b])%list, true).
Proof.
  intros Hno Hb. induction l as [|x l IH]; cbn [app cancel_first].
  - now rewrite Hb.
  - rewrite (Hno x (or_introl eq_refl)). rewrite IH; [reflexivity|].
    intros y Hy. apply Hno. now right.
Qed.

Lemma create_booking_ok (wid : string) (now : Z) (uuid_hex : string) (d : DB) (u : User)
      (b : Booking) :
  fst (create_booking wid now uuid_hex d u) = Ok b ->
  b = mkBooking ("booking_" ++ uuid_hex) wid (user_id u) (display_name u) (email u) now
                "active" /\
  snd (create_booking wid now uuid_hex d u) = insert_booking d b /\
  (exists walk, find_one (fun w => (walk_id w =? wid)%string) (walks d) = Some walk) /\
  current_participants d wid < HARD_LIMIT /\
  find_one (fun x => (b_walk_id x =? wid)%string
                     && (b_user_id x =? user_id u)%string
                     && (b_status x =? "active")%string) (bookings d) = None.
Proof.
  unfold create_booking.
  destruct (find_one _ (walks d)) as [walk|]; [|discriminate].
  destruct (current_participants d wid >=? HARD_LIMIT) eqn:Ec; [discriminate|].
  destruct (find_one _ (bookings d)); [discriminate|].
  cbn [fst snd]. intros [= <-]. repeat split; [now exists walk|].
  rewrite Z.geb_leb in Ec. apply Z.leb_gt in Ec. exact Ec.
Qed.

(** X16.  A booking made with a fresh identifier can be cancelled by the
    user who made it; after that the number of participants of every walk
    is what it was before the booking, and the user can book the walk
    again. *)
Theorem booking_round_trip (wid : string) (now : Z) (uuid_hex : string) (d : DB)
        (current_user : User) (booking : Booking) :
  (forall b, In b (bookings d) -> booking_id b <> "booking_" ++ uuid_hex) ->
  fst (create_booking wid now uuid_hex d current_user) = Ok booking ->
  let booked := snd (create_booking wid now uuid_hex d current_user) in
  let freed := snd (cancel_booking (booking_id booking) booked current_user) in
  current_participants booked wid = current_participants d wid + 1 /\
  fst (cancel_booking (booking_id booking) booked current_user)
  = Ok "Booking cancelled successfully" /\
  bookings freed = (bookings d ++ [cancelled booking])%list /\
  (forall w, current_participants freed w = current_participants d w) /\
  forall now' uuid_hex',
  exists again, fst (create_booking wid now' uuid_hex' freed current_user) = Ok again.
Proof.
  intros Hfresh Hok. cbv zeta.
  destruct (create_booking_ok _ _ _ _ _ _ Hok) as (Hb & -> & (walk & Hw) & Hc & Hnone).
  assert (Hid : booking_id booking = "booking_" ++ uuid_hex) by now rewrite Hb.
  assert (Hu : b_user_id booking = user_id current_user) by now rewrite Hb.
  assert (Hwid : b_walk_id booking = wid) by now rewrite Hb.
  assert (Hst : b_status booking = "active") by now rewrite Hb.
  unfold cancel_booking. cbn [bookings insert_booking].
  rewrite cancel_first_fresh.
  2:{ intros x Hx. apply andb_false_iff. left. apply String.eqb_neq.
      rewrite Hid. now apply Hfresh. }
  2:{ now rewrite Hu, !String.eqb_refl. }
  cbn [fst snd insert_booking users walks bookings push_tokens reminders_sent
           retention_notifications user_sessions].
  split; [|split; [reflexivity|split; [reflexivity|split]]].
  - rewrite current_participants_insert. unfold is_active_on.
    now rewrite Hwid, Hst, !String.eqb_refl.
  - intros w. unfold current_participants. cbn [bookings]. rewrite filter_app.
    cbn [filter]. unfold is_active_on at 2. cbn [b_status cancelled].
    rewrite andb_false_r, app_nil_r. reflexivity.
  - intros now' uuid_hex'. unfold create_booking. cbn [walks]. rewrite Hw.
    assert (Ec : current_participants
                   (mkDB (users d) (walks d) (bookings d ++ [cancelled booking])
                         (push_tokens d) (reminders_sent d) (retention_notifications d)
                         (user_sessions d)) wid = current_participants d wid).
    { unfold current_participants. cbn [bookings]. rewrite filter_app.
      cbn [filter]. unfold is_active_on at 2. cbn [b_status cancelled].
      rewrite andb_false_r, app_nil_r. reflexivity. }
    rewrite Ec. apply Z.ltb_lt in Hc. rewrite Z.geb_leb, Z.leb_antisym, Hc. cbn [negb].
    cbn [bookings]. rewrite find_one_none; [now eexists|].
    intros x Hx. apply in_app_or in Hx as [Hx | [<- | []]].
    + apply (find_none _ _ Hnone x Hx).
    + cbn [b_status cancelled]. apply andb_false_r.
Qed.

Lemma booking_round_trip_witness :
  current_participants (snd (create_booking "w3" 50 "0123456789ab" reminder_db carol)) "w3"
  = 1 /\
  (forall w,
      current_participants
        (snd (cancel_booking "booking_0123456789ab"
                             (snd (create_booking "w3" 50 "0123456789ab" reminder_db carol))
                             carol)) w
      = current_participants reminder_db w) /\
  exists again,
    fst (create_booking
           "w3" 60 "ba9876543210"
           (snd (cancel_booking "booking_0123456789ab"
                                (snd (create_booking "w3" 50 "0123456789ab" reminder_db carol))
                                carol))
           carol) = Ok again.
Proof.
  assert (Hfresh : forall b, In b (bookings reminder_db) ->
                             booking_id b <> "booking_" ++ "0123456789ab").
  { intros b [<- | [<- | [<- | [<- | []]]]]; discriminate. }
  destruct (booking_round_trip "w3" 50 "0123456789ab" reminder_db carol _ Hfresh eq_refl)
    as (H1 & _ & _ & H4 & H5).
  split; [exact H1|]. split; [exact H4 | exact (H5 60 "ba9876543210")].
Defined.

(** ** The manual trigger of the retention notifications *)

(** What the loop of the endpoint keeps true: the counters add up to the
    users seen so far, one entry of the details and at most one push for
    each; every push is counted as sent and has its record. *)
Lemma test_retention_loop (publish : string -> PublishOutcome) (now : Z) (us : list User) :
  forall d evs results,
    notifications_sent results = Z.of_nat (length evs) ->
    (forall uid tok, In (RetentionPush uid tok) evs ->
                     exists r, In r (retention_notifications d) /\
                               rn_user_id r = uid /\ rn_sent_at r = now) ->
    let '(d', evs', results') :=
      fold_left (test_retention_step publish now) us (d, evs, results) in
    total_inactive_users results' = total_inactive_users results /\
    notifications_sent results' + notifications_skipped results'
    = notifications_sent results + notifications_skipped results + Z.of_nat (length us) /\
    length (details results') = (length (details results) + length us)%nat /\
    notifications_sent results' = Z.of_nat (length evs') /\
    users d' = users d /\
    (forall uid tok, In (RetentionPush uid tok) evs' ->
                     exists r, In r (retention_notifications d') /\
                               rn_user_id r = uid /\ rn_sent_at r = now) /\
    (forall e, In e evs' ->
               In e evs \/ exists u tok, In u us /\ e = RetentionPush (user_id u) tok).
Proof.
  induction us as [|u us IH]; intros d evs results Hsent Hrec.
  { cbn [fold_left length]. repeat split; try lia; try assumption. now left. }
  cbn [fold_left]. unfold test_retention_step at 2.
  destruct (match find_one _ (push_tokens d) with
            | Some doc => truthy (push_token doc)
            | None => false
            end).
  - destruct (send_retention_notification_cases publish now d u)
      as [(d1 & E & Hu & Hret & _) | (doc & E & _)]; rewrite E.
    + specialize (IH d1 (evs ++ [])%list
                     (count_skipped results
                        (mkDetail (name u) "skipped (already sent recently)"
                                  (lastLoginAt u)))).
      destruct (fold_left _ us _) as [[d' evs'] results'].
      destruct IH as (H1 & H2 & H3 & H4 & H5 & H6 & H7).
      * rewrite app_nil_r. exact Hsent.
      * rewrite app_nil_r, Hret. exact Hrec.
      * cbn [count_skipped total_inactive_users notifications_sent
                           notifications_skipped details] in *.
        rewrite length_app in H3. cbn [length] in *.
        repeat split; try assumption; try lia; try congruence.
        intros e He. destruct (H7 e He) as [Hin | (u' & tok & Hu' & ->)].
        -- left. now rewrite app_nil_r in Hin.
        -- right. exists u', tok. split; [now right | reflexivity].
    + specialize (IH (insert_retention d (mkRetention (user_id u) now))
                     (evs ++ [RetentionPush (user_id u) (push_token doc)])%list
                     (count_sent results (mkDetail (name u) "sent" (lastLoginAt u)))).
      destruct (fold_left _ us _) as [[d' evs'] results'].
      destruct IH as (H1 & H2 & H3 & H4 & H5 & H6 & H7).
      * cbn [count_sent notifications_sent]. rewrite length_app. cbn [length]. lia.
      * intros uid tok Hin. cbn [insert_retention retention_notifications].
        apply in_app_or in Hin as [Hin | [[= <- <-] | []]].
        -- destruct (Hrec uid tok Hin) as (r & Hr & Hr').
           exists r. split; [apply in_or_app; now left | exact Hr'].
        -- exists (mkRetention (user_id u) now).
           split; [apply in_or_app; right; now left | split; reflexivity].
      * cbn [count_sent total_inactive_users notifications_sent
                        notifications_skipped details] in *.
        rewrite length_app in H3. cbn [length] in *.
        repeat split; try assumption; try lia.
        intros e He. destruct (H7 e He) as [Hin | (u' & tok & Hu' & ->)].
        -- apply in_app_or in Hin as [Hin | [<- | []]]; [now left | right].
           exists u, (push_token doc). split; [now left | reflexivity].
        -- right. exists u', tok. split; [now right | reflexivity].
  - specialize (IH d evs
                   (count_skipped results
                      (mkDetail (name u) "skipped (no push token)" (lastLoginAt u)))
                   Hsent Hrec).
    destruct (fold_left _ us _) as [[d' evs'] results'].
    destruct IH as (H1 & H2 & H3 & H4 & H5 & H6 & H7).
    cbn [count_skipped total_inactive_users notifications_sent
                       notifications_skipped details] in *.
    rewrite length_app in H3. cbn [length] in *.
    repeat split; try assumption; try lia.
    intros e He. destruct (H7 e He) as [Hin | (u' & tok & Hu' & ->)]; [now left | right].
    exists u', tok. split; [now right | reflexivity].
Qed.

(** X17.  [test_retention_notifications] refuses who is no administrator
    and then sends nothing.  For an administrator it looks at no more than
    100 inactive users, counts each of them once, as sent or as skipped,
    and counts as sent exactly the pushes made; and a user it has nudged is
    not nudged by a run of the daily job within the three days that
    follow. *)
Theorem test_retention_notifications_spec
        (publish : string -> PublishOutcome) (now : Z) (d : DB) (current_user : User) :
  (is_admin current_user = false ->
   test_retention_notifications publish now d current_user
   = (HTTPException 403 "Admin access required", (d, []))) /\
  (is_admin current_user = true ->
   exists results d' evs,
     test_retention_notifications publish now d current_user = (Ok results, (d', evs)) /\
     total_inactive_users results = Z.of_nat (length (inactive_users now d)) /\
     total_inactive_users results <= 100 /\
     notifications_sent results + notifications_skipped results
     = total_inactive_users results /\
     Z.of_nat (length (details results)) = total_inactive_users results /\
     notifications_sent results = Z.of_nat (length evs) /\
     (forall e, In e evs ->
                exists u tok, In u (inactive_users now d) /\
                              e = RetentionPush (user_id u) tok) /\
     forall uid tok,
       In (RetentionPush uid tok) evs ->
       forall publish' later,
         now <= later <= now + timedelta_days 3 ->
         retention_pushes_to
           uid (snd (check_and_send_retention_notifications publish' later d')) = []).
Proof.
  unfold test_retention_notifications. split; intros Hadm; rewrite Hadm; cbn [negb].
  { reflexivity. }
  pose proof (test_retention_loop
                publish now (inactive_users now d) d []
                (mkResults (Z.of_nat (length (inactive_users now d))) 0 0 [])
                eq_refl) as H.
  destruct (fold_left _ (inactive_users now d) _) as [[d' evs] results].
  destruct H as (H1 & H2 & H3 & H4 & H5 & H6 & H7); [intros uid tok []|].
  cbn [total_inactive_users notifications_sent notifications_skipped details length] in *.
  pose proof (inactive_users_length now d) as Hlen.
  exists results, d', evs. split; [reflexivity|].
  repeat (split; [first [assumption | lia]|]). split.
  - intros e He. destruct (H7 e He) as [[] | H]. exact H.
  - intros uid tok Hin publish' later Hlater.
    destruct (H6 uid tok Hin) as (r & Hr & Hru & Hrt).
    apply no_retention_push. intros tok' Hpush.
    unfold check_and_send_retention_notifications in Hpush.
    apply retention_loop_pushes in Hpush as [[] | (_ & Hnone & _)].
    pose proof (proj1 (recent_retention_none later d' uid) Hnone r Hr Hru). lia.
Qed.

Lemma test_retention_notifications_spec_witness :
  is_admin root_admin = true /\
  exists results d' evs,
    test_retention_notifications always_accepted nov3_morning retention_db root_admin
    = (Ok results, (d', evs)) /\
    notifications_sent results + notifications_skipped results
    = total_inactive_users results /\
    notifications_sent results = Z.of_nat (length evs).
Proof.
  split; [reflexivity|].
  destruct (proj2 (test_retention_notifications_spec always_accepted nov3_morning
                                                     retention_db root_admin) eq_refl)
    as (results & d' & evs & E & _ & _ & Hsum & _ & Hsent & _).
  exists results, d', evs. split; [exact E|]. split; [exact Hsum | exact Hsent].
Defined.

(** Dan is nudged, Eve has no push token, and Fay is not inactive. *)
Example test_retention_notifications_run :
  test_retention_notifications always_accepted nov3_morning retention_db root_admin
  = (Ok (mkResults 2 1 1
                   [mkDetail "Dan Walker" "sent" (Some 1761642000);
                    mkDetail "Eve" "skipped (no push token)" None]),
     (insert_retention retention_db (mkRetention "dan" nov3_morning),
      [RetentionPush "dan" "ExponentPushToken[d1]"])).
Proof. vm_compute. reflexivity. Qed.

(** ** Retention statistics *)

Lemma count_documents_le {A : Type} (p q : A -> bool) (l : list A) :
  (forall x, p x = true -> q x = true) ->
  0 <= count_documents p l <= count_documents q l.
Proof.
  intros H. unfold count_documents. split; [lia|]. apply inj_le.
  induction l as [|x l IH]; [apply Nat.le_refl|]. cbn [filter].
  destruct (p x) eqn:Ep; [rewrite (H x Ep); cbn [length]; lia|].
  destruct (q x); cbn [length]; lia.
Qed.

Lemma count_documents_split {A : Type} (p q : A -> bool) (l : list A) :
  (forall x, q x = negb (p x)) ->
  count_documents p l + count_documents q l = count_documents (fun _ => true) l.
Proof.
  intros H. unfold count_documents.
  induction l as [|x l IH]; [reflexivity|]. cbn [filter]. rewrite H.
  destruct (p x); cbn [negb length]; lia.
Qed.

(** X18.  The numbers of [get_retention_stats], which only an
    administrator gets, fit together: the active and the inactive users
    are all users, the active ones are among those with a recorded login,
    the notifications of the last seven days are among all notifications,
    and the daily job at that instant considers no more users than are
    counted inactive. *)
Theorem get_retention_stats_consistent (now : Z) (d : DB) (current_user : User) :
  (is_admin current_user = false ->
   get_retention_stats now d current_user = HTTPException 403 "Admin access required") /\
  (is_admin current_user = true ->
   exists stats,
     get_retention_stats now d current_user = Ok stats /\
     active_users_3_days stats + inactive_users_3_days stats = total_users stats /\
     0 <= active_users_3_days stats <= users_with_login_tracking stats /\
     users_with_login_tracking stats <= total_users stats /\
     0 <= notifications_sent_last_7_days stats
     <= total_retention_notifications_sent stats /\
     Z.of_nat (length (inactive_users now d)) <= inactive_users_3_days stats).
Proof.
  unfold get_retention_stats. split; intros ->; cbn [negb]; [reflexivity|].
  eexists. split; [reflexivity|].
  cbn [total_users users_with_login_tracking active_users_3_days inactive_users_3_days
       total_retention_notifications_sent notifications_sent_last_7_days].
  split; [|split; [|split; [|split]]].
  - apply count_documents_split. intros u. destruct (lastLoginAt u) as [t|]; [|reflexivity].
    rewrite Z.geb_leb. apply Z.ltb_antisym.
  - apply count_documents_le. intros u. now destruct (lastLoginAt u).
  - now apply count_documents_le.
  - now apply count_documents_le.
  - unfold inactive_users, to_list. rewrite length_firstn.
    etransitivity; [apply inj_le, Nat.le_min_r|].
    apply (count_documents_le
             (fun u => match lastLoginAt u with
                       | Some t => t <? now - timedelta_days 3
                       | None => true
                       end
                       && match notifications_enabled u with
                          | Some false => false
                          | _ => true
                          end)).
    intros u Hu. now apply andb_true_iff in Hu.
Qed.

Lemma get_retention_stats_consistent_witness :
  get_retention_stats nov3_morning retention_db bob
  = HTTPException 403 "Admin access required" /\
  exists stats,
    get_retention_stats nov3_morning retention_db root_admin = Ok stats /\
    active_users_3_days stats + inactive_users_3_days stats = total_users stats.
Proof.
  destruct (get_retention_stats_consistent nov3_morning retention_db bob) as [H403 _].
  destruct (get_retention_stats_consistent nov3_morning retention_db root_admin)
    as [_ Hok].
  split; [exact (H403 eq_refl)|].
  destruct (Hok eq_refl) as (stats & E & Hsum & _).
  exists stats. split; [exact E | exact Hsum].
Defined.

(** ** Creating a walk *)

Lemma delete_one_walk_fresh (wid : string) (l : list Walk) (w : Walk) :
  (forall x, In x l -> walk_id x <> wid) -> walk_id w = wid ->
  delete_one_walk wid (l ++ [w]) = l.
Proof.
  intros Hfresh Hw. induction l as [|x l IH]; cbn [app delete_one_walk].
  - now rewrite Hw, String.eqb_refl.
  - destruct (String.eqb_spec (walk_id x) wid) as [E|_].
    + elim (Hfresh x (or_introl eq_refl) E).
    + rewrite IH; [reflexivity|]. intros y Hy. apply Hfresh. now right.
Qed.

Lemma find_one_fresh_walk (wid : string) (l : list Walk) (w : Walk) :
  (forall x, In x l -> walk_id x <> wid) -> walk_id w = wid ->
  find_one (fun x => (walk_id x =? wid)%string) (l ++ [w]) = Some w.
Proof.
  intros Hfresh Hw. unfold find_one. induction l as [|x l IH]; cbn [app find].
  - now rewrite Hw, String.eqb_refl.
  - destruct (String.eqb_spec (walk_id x) wid) as [E|_].
    + elim (Hfresh x (or_introl eq_refl) E).
    + apply IH. intros y Hy. apply Hfresh. now right.
Qed.

(** X19.  [create_walk] alerts users of the city of the walk who have
    notifications enabled, and never the organizer.  When the identifier
    drawn is new to walks and bookings, the walk starts without
    participants, every user can book it, and its organizer can delete it,
    which leaves the database as it was before the walk was created. *)
Theorem create_walk_spec (walk_data : WalkCreate) (uuid_hex : string) (cfg : MailConfig)
        (d : DB) (current_user : User) :
  let '(walk, d', evs) := create_walk walk_data uuid_hex cfg d current_user in
  organizer_id walk = user_id current_user /\
  walks d' = (walks d ++ [walk])%list /\
  (forall uid,
      In uid (pushed_user_ids "new_walk" evs) ->
      uid <> user_id current_user /\
      exists u, In u (users d) /\ user_id u = uid /\
                city u = Some (wc_city walk_data) /\
                notifications_enabled u = Some true) /\
  ((forall w, In w (walks d) -> walk_id w <> "walk_" ++ uuid_hex) ->
   (forall b, In b (bookings d) -> b_walk_id b <> "walk_" ++ uuid_hex) ->
   current_participants d' (walk_id walk) = 0 /\
   (forall now booking_hex user,
       exists booking,
         fst (create_booking (walk_id walk) now booking_hex d' user) = Ok booking) /\
   delete_walk (walk_id walk) d' current_user = (Ok "Walk deleted successfully", d)).
Proof.
  unfold create_walk. cbn [organizer_id walk_id insert_walk walks].
  split; [reflexivity|]. split; [reflexivity|]. split.
  - intros uid Hin. rewrite pushed_user_ids_notify in Hin.
    apply in_map_iff in Hin as (u & <- & Hu).
    apply matched_users_age in Hu as [Hu _].
    apply in_to_list, filter_In in Hu as [Hu Hq]. cbn [users] in Hu.
    apply base_query_conditions in Hq as (Hn & Hc & Ho & _).
    cbn [organizer_id walk_city] in *. split; [exact Ho|]. now exists u.
  - intros Hw Hb.
    assert (Hcount : forall l,
               (forall b, In b l -> b_walk_id b <> "walk_" ++ uuid_hex) ->
               filter (is_active_on ("walk_" ++ uuid_hex)) l = []).
    { intros l Hl. induction l as [|b l IH]; [reflexivity|]. cbn [filter].
      unfold is_active_on at 1.
      destruct (String.eqb_spec (b_walk_id b) ("walk_" ++ uuid_hex)) as [E|_].
      - elim (Hl b (or_introl eq_refl) E).
      - cbn [andb]. apply IH. intros y Hy. apply Hl. now right. }
    split; [|split].
    + unfold current_participants. cbn [bookings insert_walk]. now rewrite Hcount.
    + intros now booking_hex user. unfold create_booking. cbn [walks insert_walk].
      rewrite find_one_fresh_walk by (reflexivity || assumption).
      unfold current_participants. cbn [bookings insert_walk]. rewrite (Hcount _ Hb).
      cbn [length Z.of_nat]. change (0 >=? HARD_LIMIT) with false. cbv iota.
      rewrite find_one_none; [now eexists|].
      intros b Hin. destruct (String.eqb_spec (b_walk_id b) ("walk_" ++ uuid_hex)) as [E|_].
      * elim (Hb b Hin E).
      * reflexivity.
    + unfold delete_walk. cbn [walks insert_walk].
      rewrite find_one_fresh_walk by (reflexivity || assumption).
      cbn [organizer_id]. rewrite String.eqb_refl. cbn [negb andb].
      cbn [users walks bookings push_tokens reminders_sent retention_notifications
           user_sessions insert_walk].
      rewrite delete_one_walk_fresh by (reflexivity || assumption).
      assert (Hkeep : forall l,
                 (forall b, In b l -> b_walk_id b <> "walk_" ++ uuid_hex) ->
                 filter (fun b => negb (b_walk_id b =? "walk_" ++ uuid_hex)%string) l = l).
      { intros l Hl. induction l as [|b l IH]; [reflexivity|]. cbn [filter].
        destruct (String.eqb_spec (b_walk_id b) ("walk_" ++ uuid_hex)) as [E|_].
        - elim (Hl b (or_introl eq_refl) E).
        - cbn [negb]. rewrite IH; [reflexivity|]. intros y Hy. apply Hl. now right. }
      rewrite (Hkeep _ Hb). now destruct d.
Qed.

Lemma create_walk_spec_witness :
  current_participants
    (snd (fst (create_walk sample_walk_data "0123456789ab" mail_configured reminder_db bob)))
    "walk_0123456789ab" = 0 /\
  delete_walk
    "walk_0123456789ab"
    (snd (fst (create_walk sample_walk_data "0123456789ab" mail_configured reminder_db bob)))
    bob
  = (Ok "Walk deleted successfully", reminder_db).
Proof.
  pose proof (create_walk_spec sample_walk_data "0123456789ab" mail_configured
                               reminder_db bob) as H.
  cbv beta iota zeta delta [create_walk] in H.
  destruct H as (_ & _ & _ & H). destruct H as (H0 & _ & Hdel).
  - intros w [<- | [<- | [<- | []]]]; discriminate.
  - intros b [<- | [<- | [<- | [<- | []]]]]; discriminate.
  - split; [exact H0 | exact Hdel].
Defined.

(** Bob's walk for women and men from 25 to 44 in Paris: Alice is
    alerted; Carol, whose stored sex is spelled "male", is not, and neither
    is Bob, the organizer. *)
Example create_walk_alerts :
  pushed_user_ids "new_walk"
    (snd (create_walk sample_walk_data "0123456789ab" mail_configured targeting_db bob))
  = ["alice"].
Proof. vm_compute. reflexivity. Qed.

(** ** The e-mail pattern *)

Lemma append_empty_r (s : string) : s ++ "" = s.
Proof. induction s as [|c s IH]; simpl; [reflexivity | now rewrite IH]. Qed.

Lemma append_associative (a b c : string) : (a ++ b) ++ c = a ++ (b ++ c).
Proof. induction a as [|x a IH]; simpl; [reflexivity | now rewrite IH]. Qed.

Lemma append_is_empty (a b : string) : a ++ b = "" -> a = "" /\ b = "".
Proof. destruct a; simpl; [now split | discriminate]. Qed.

Lemma in_language_cat (r1 r2 : Regex) (s : string) :
  in_language (Cat r1 r2) s <->
  exists s1 s2, s = s1 ++ s2 /\ in_language r1 s1 /\ in_language r2 s2.
Proof.
  split.
  - intros H. inversion H; subst. now eexists _, _.
  - intros (s1 & s2 & -> & H1 & H2). now constructor.
Qed.

Lemma nullable_spec (r : Regex) : nullable r = true <-> in_language r "".
Proof.
  induction r as [| | items | r1 IH1 r2 IH2 | r1 IH1 r2 IH2 | r IH]; cbn [nullable].
  - split; [discriminate | intros H; inversion H].
  - split; [constructor | reflexivity].
  - split; [discriminate | intros H; inversion H].
  - rewrite andb_true_iff, IH1, IH2. split.
    + intros [H1 H2]. now apply (lang_cat r1 r2 "" "").
    + intros H. apply in_language_cat in H as (s1 & s2 & E & H1 & H2).
      symmetry in E. apply append_is_empty in E as [-> ->]. now split.
  - rewrite orb_true_iff, IH1, IH2. split.
    + intros [H | H]; [now apply lang_alt_l | now apply lang_alt_r].
    + intros H. inversion H; subst; [now left | now right].
  - split; [constructor | reflexivity].
Qed.

Lemma in_language_star_cons (r : Regex) (c : ascii) (s : string) :
  in_language (Star r) (String c s) ->
  exists s1 s2, s = s1 ++ s2 /\ in_language r (String c s1) /\ in_language (Star r) s2.
Proof.
  intros H. remember (Star r) as r' eqn:Er. remember (String c s) as w eqn:Ew.
  revert s Ew. induction H as [| | | | | |r0 s1 s2 H1 _ H2 IH2]; try discriminate.
  injection Er as ->. intros s Ew. destruct s1 as [|c1 s1].
  - cbn in Ew. now apply IH2.
  - cbn in Ew. injection Ew as -> <-. now exists s1, s2.
Qed.

Lemma derivative_spec (c : ascii) (r : Regex) :
  forall s, in_language (derivative c r) s <-> in_language r (String c s).
Proof.
  induction r as [| | items | r1 IH1 r2 IH2 | r1 IH1 r2 IH2 | r IH];
    intros s; cbn [derivative].
  - split; intros H; inversion H.
  - split; intros H; inversion H.
  - destruct (in_class items c) eqn:E; split; intros H; inversion H; subst.
    + now constructor.
    + constructor.
    + congruence.
  - split.
    + intros H. inversion H as [| | |? ? ? H'|? ? ? H'| |]; subst.
      * apply in_language_cat in H' as (s1 & s2 & -> & H1 & H2).
        apply IH1 in H1. now apply (lang_cat r1 r2 (String c s1) s2).
      * destruct (nullable r1) eqn:En; [|inversion H'].
        apply nullable_spec in En. apply IH2 in H'.
        now apply (lang_cat r1 r2 "" (String c s)).
    + intros H. apply in_language_cat in H as (s1 & s2 & E & H1 & H2).
      destruct s1 as [|c1 s1].
      * cbn in E. subst s2. apply lang_alt_r.
        apply nullable_spec in H1. rewrite H1. now apply IH2.
      * cbn in E. injection E as <- ->. apply lang_alt_l.
        constructor; [now apply IH1 | exact H2].
  - split.
    + intros H. inversion H; subst;
        [apply lang_alt_l; now apply IH1 | apply lang_alt_r; now apply IH2].
    + intros H. inversion H; subst;
        [apply lang_alt_l; now apply IH1 | apply lang_alt_r; now apply IH2].
  - split.
    + intros H. apply in_language_cat in H as (s1 & s2 & -> & H1 & H2).
      apply IH in H1. now apply (lang_star_cons r (String c s1) s2).
    + intros H. apply in_language_star_cons in H as (s1 & s2 & -> & H1 & H2).
      constructor; [now apply IH | exact H2].
Qed.

Lemma fullmatch_spec (r : Regex) (s : string) :
  fullmatch r s = true <-> in_language r s.
Proof.
  revert r. induction s as [|c s IH]; intros r; cbn [fullmatch].
  - apply nullable_spec.
  - rewrite IH. apply derivative_spec.
Qed.

Lemma in_language_char (items : list ClassItem) (s : string) :
  in_language (Class items) s <-> exists c, s = String c "" /\ in_class items c = true.
Proof.
  split.
  - intros H. inversion H; subst. now eexists.
  - intros (c & -> & H). now constructor.
Qed.

Lemma in_language_star_class (items : list ClassItem) (s : string) :
  in_language (Star (Class items)) s <-> all_in_class items s = true.
Proof.
  split.
  - intros H. remember (Star (Class items)) as r eqn:Er.
    induction H as [| | | | | |r0 s1 s2 H1 _ H2 IH2]; try discriminate; [reflexivity|].
    injection Er as ->. apply in_language_char in H1 as (c & -> & Hc).
    cbn. rewrite Hc. now apply IH2.
  - induction s as [|c s IH]; [constructor|]. cbn [all_in_class].
    intros H. apply andb_true_iff in H as [Hc Hs].
    apply (lang_star_cons (Class items) (String c "") s); [now constructor | now apply IH].
Qed.

Lemma in_language_plus_class (items : list ClassItem) (s : string) :
  in_language (Plus (Class items)) s <-> s <> "" /\ all_in_class items s = true.
Proof.
  unfold Plus. rewrite in_language_cat. split.
  - intros (s1 & s2 & -> & H1 & H2). apply in_language_char in H1 as (c & -> & Hc).
    apply in_language_star_class in H2. cbn. rewrite Hc, H2. now split.
  - intros [Hne H]. destruct s as [|c s]; [contradiction|].
    cbn [all_in_class] in H. apply andb_true_iff in H as [Hc Hs].
    exists (String c ""), s. split; [reflexivity|].
    split; [now constructor | now apply in_language_star_class].
Qed.

Lemma in_language_atleast2_class (items : list ClassItem) (s : string) :
  in_language (AtLeast2 (Class items)) s <->
  (2 <= String.length s)%nat /\ all_in_class items s = true.
Proof.
  unfold AtLeast2. rewrite in_language_cat. split.
  - intros (s1 & s2 & -> & H1 & H2). apply in_language_char in H1 as (c & -> & Hc).
    apply in_language_plus_class in H2 as [Hne H2]. cbn. rewrite Hc, H2.
    split; [|reflexivity]. destruct s2; [contradiction | cbn; lia].
  - intros [Hlen H]. destruct s as [|c [|c' s]]; cbn in Hlen; try lia.
    cbn [all_in_class] in H. apply andb_true_iff in H as [Hc Hs].
    exists (String c ""), (String c' s). split; [reflexivity|].
    split; [now constructor|]. apply in_language_plus_class. split; [discriminate|exact Hs].
Qed.

Lemma without_final_newline_spec (s s' : string) :
  without_final_newline s = Some s' <-> s = s' ++ String "010" "".
Proof.
  revert s'. induction s as [|c s IH]; intros s'.
  - cbn. split; [discriminate|]. intros H. symmetry in H.
    apply append_is_empty in H as [_ H]. discriminate.
  - cbn [without_final_newline]. destruct s as [|c1 s1].
    + destruct s' as [|x t]; cbn.
      * destruct (Ascii.eqb_spec c "010") as [->|Hc]; split;
          try reflexivity; try discriminate. intros [= ->]. now elim Hc.
      * split; [destruct (Ascii.eqb c "010"); discriminate|].
        intros [= _ H]. destruct t; discriminate.
    + destruct (without_final_newline (String c1 s1)) as [t|] eqn:E; cbn [option_map].
      * pose proof (proj1 (IH t) eq_refl) as Et. split.
        -- intros [= <-]. cbn. now rewrite <- Et.
        -- destruct s' as [|x s']; cbn; intros [= H1 H2].
           subst x. f_equal. f_equal. rewrite Et in H2. now apply append_cancel_r in H2.
      * split; [discriminate|]. destruct s' as [|x s']; cbn; intros [= H1 H2].
        apply IH in H2. discriminate.
Qed.

Lemma count_char_append (c : ascii) (a b : string) :
  count_char c (a ++ b) = (count_char c a + count_char c b)%nat.
Proof. induction a as [|x a IH]; cbn; [reflexivity | rewrite IH; lia]. Qed.

Lemma count_char_outside (items : list ClassItem) (c : ascii) (s : string) :
  in_class items c = false -> all_in_class items s = true -> count_char c s = O.
Proof.
  intros Hc. induction s as [|x s IH]; [reflexivity|]. cbn.
  intros H. apply andb_true_iff in H as [Hx Hs]. rewrite (IH Hs).
  destruct (Ascii.eqb_spec x c) as [->|_]; [congruence | reflexivity].
Qed.

(** X20.  [is_valid_email] accepts exactly the strings made of a local
    part, "@", a domain, "." and at least two letters, the two parts not
    empty and of the characters the pattern lists, followed by nothing or by
    one line feed.  So an accepted address has exactly one "@", and a line
    feed after the address passes. *)
Theorem is_valid_email_spec (email : string) :
  (is_valid_email email = true <->
   exists local domain tld ending,
     email = local ++ "@" ++ domain ++ "." ++ tld ++ ending /\
     local <> "" /\ all_in_class local_class local = true /\
     domain <> "" /\ all_in_class domain_class domain = true /\
     (2 <= String.length tld)%nat /\ all_in_class letter_class tld = true /\
     (ending = "" \/ ending = String "010" "")) /\
  (is_valid_email email = true -> count_char "@" email = 1%nat).
Proof.
  assert (Hpattern : forall s,
             in_language email_pattern s <->
             exists local domain tld,
               s = local ++ "@" ++ domain ++ "." ++ tld /\
               local <> "" /\ all_in_class local_class local = true /\
               domain <> "" /\ all_in_class domain_class domain = true /\
               (2 <= String.length tld)%nat /\ all_in_class letter_class tld = true).
  { intros s. unfold email_pattern. split.
    - intros H.
      apply in_language_cat in H as (local & s1 & -> & Hl & H).
      apply in_language_cat in H as (at_sign & s2 & -> & Ha & H).
      apply in_language_cat in H as (domain & s3 & -> & Hd & H).
      apply in_language_cat in H as (dot & tld & -> & Hdot & Ht).
      apply in_language_plus_class in Hl as [Hl1 Hl2].
      apply in_language_plus_class in Hd as [Hd1 Hd2].
      apply in_language_atleast2_class in Ht as [Ht1 Ht2].
      apply in_language_char in Ha as (a & -> & Ha).
      apply in_language_char in Hdot as (b & -> & Hb).
      unfold in_class in Ha, Hb. cbn [existsb in_item] in Ha, Hb.
      rewrite orb_false_r in Ha, Hb.
      apply Ascii.eqb_eq in Ha, Hb. subst a b.
      now exists local, domain, tld.
    - intros (local & domain & tld & -> & Hl1 & Hl2 & Hd1 & Hd2 & Ht1 & Ht2).
      apply lang_cat; [now apply in_language_plus_class|].
      apply (lang_cat _ _ "@"); [now constructor|].
      apply lang_cat; [now apply in_language_plus_class|].
      apply (lang_cat _ _ "."); [now constructor|].
      now apply in_language_atleast2_class. }
  assert (Hspec : is_valid_email email = true <->
                  exists local domain tld ending,
                    email = local ++ "@" ++ domain ++ "." ++ tld ++ ending /\
                    local <> "" /\ all_in_class local_class local = true /\
                    domain <> "" /\ all_in_class domain_class domain = true /\
                    (2 <= String.length tld)%nat /\ all_in_class letter_class tld = true /\
                    (ending = "" \/ ending = String "010" "")).
  { unfold is_valid_email, re_match_to_dollar. rewrite orb_true_iff. split.
    - intros [H | H].
      + apply fullmatch_spec, Hpattern in H as (local & domain & tld & -> & H).
        exists local, domain, tld, "". rewrite append_empty_r.
        split; [reflexivity|]. tauto.
      + destruct (without_final_newline email) as [s'|] eqn:E; [|discriminate].
        apply without_final_newline_spec in E.
        apply fullmatch_spec, Hpattern in H as (local & domain & tld & -> & H).
        exists local, domain, tld, (String "010" "").
        split; [|tauto]. rewrite E, !append_associative. reflexivity.
    - intros (local & domain & tld & ending & -> & Hl1 & Hl2 & Hd1 & Hd2 & Ht1 & Ht2
              & [-> | ->]).
      + left. apply fullmatch_spec, Hpattern. exists local, domain, tld.
        rewrite append_empty_r. tauto.
      + right.
        assert (E : local ++ "@" ++ domain ++ "." ++ tld ++ String "010" ""
                    = (local ++ "@" ++ domain ++ "." ++ tld) ++ String "010" "").
        { rewrite !append_associative. reflexivity. }
        apply without_final_newline_spec in E. rewrite E.
        apply fullmatch_spec, Hpattern. exists local, domain, tld. tauto. }
  split; [exact Hspec|].
  intros H. apply Hspec in H
    as (local & domain & tld & ending & -> & _ & Hl & _ & Hd & _ & Ht & Hend).
  rewrite !count_char_append.
  rewrite (count_char_outside local_class "@" local eq_refl Hl).
  rewrite (count_char_outside domain_class "@" domain eq_refl Hd).
  rewrite (count_char_outside letter_class "@" tld eq_refl Ht).
  destruct Hend as [-> | ->]; reflexivity.
Qed.

Lemma is_valid_email_spec_witness :
  is_valid_email "bob@example.org" = true /\ count_char "@" "bob@example.org" = 1%nat.
Proof.
  split; [reflexivity|].
  apply (proj2 (is_valid_email_spec "bob@example.org")). reflexivity.
Defined.

Example is_valid_email_samples :
  is_valid_email "first.last+tag@mail.example.co" = true /\
  is_valid_email (String "a" (String "@" (String "b" (String "." (String "f"
                   (String "r" (String "010" ""))))))) = true /\
  is_valid_email "bob@example" = false /\
  is_valid_email "bob@example.c" = false /\
  is_valid_email "bob@@example.org" = false /\
  is_valid_email "bob smith@example.org" = false /\
  is_valid_email "" = false.
Proof. repeat split. Qed.

(** ** Badges and bookings *)

Lemma count_documents_ext {A : Type} (p q : A -> bool) (l : list A) :
  (forall x, In x l -> p x = q x) -> count_documents p l = count_documents q l.
Proof.
  intros H. unfold count_documents. f_equal. f_equal. now apply filter_ext_in.
Qed.

Lemma count_documents_or {A : Type} (p q : A -> bool) (l : list A) :
  (forall x, In x l -> p x = true -> q x = false) ->
  count_documents (fun x => p x || q x) l = count_documents p l + count_documents q l.
Proof.
  intros H. unfold count_documents. induction l as [|x l IH]; [reflexivity|].
  cbn [filter]. pose proof (H x (or_introl eq_refl)) as Hx.
  assert (IH' := IH (fun y Hy => H y (or_intror Hy))).
  destruct (p x); cbn [orb].
  - rewrite (Hx eq_refl). cbn [length]. lia.
  - destruct (q x); cbn [length]; lia.
Qed.

Lemma count_documents_none {A : Type} (p : A -> bool) (l : list A) :
  (forall x, In x l -> p x = false) -> count_documents p l = 0.
Proof.
  intros H. unfold count_documents. induction l as [|x l IH]; [reflexivity|].
  cbn [filter]. rewrite (H x (or_introl eq_refl)). apply IH.
  intros y Hy. apply H. now right.
Qed.

Lemma count_unique_walk (wid today : string) (l : list Walk) (walk : Walk) :
  NoDup (map walk_id l) ->
  find_one (fun w => (walk_id w =? wid)%string) l = Some walk ->
  count_documents (fun w => (walk_id w =? wid)%string && String.ltb (date w) today) l
  = if String.ltb (date walk) today then 1 else 0.
Proof.
  unfold find_one, count_documents. induction l as [|x l IH]; [discriminate|].
  cbn [map find filter]. intros Hnd Hfind. inversion Hnd as [|? ? Hnot Hnd']; subst.
  destruct (String.eqb_spec (walk_id x) wid) as [E|E].
  - injection Hfind as <-. cbn [andb].
    assert (Hrest : filter (fun w => (walk_id w =? wid)%string
                                     && String.ltb (date w) today) l = []).
    { clear IH Hnd Hnd'. induction l as [|y l IHl]; [reflexivity|]. cbn [filter].
      destruct (String.eqb_spec (walk_id y) wid) as [Ey|_].
      - exfalso. apply Hnot. left. congruence.
      - cbn [andb]. apply IHl. intros Hin. apply Hnot. now right. }
    destruct (String.ltb (date x) today); cbn [length]; now rewrite Hrest.
  - cbn [andb]. now apply IH.
Qed.

Lemma participated_count_eq (today : string) (d : DB) (uid : string) :
  participated_count today d uid
  = count_documents
      (fun w => str_in (walk_id w)
                       (map b_walk_id
                            (to_list 10000
                               (filter (fun b => (b_user_id b =? uid)%string
                                                 && (b_status b =? "active")%string)
                                       (bookings d))))
                && String.ltb (date w) today)
      (walks d).
Proof.
  unfold participated_count.
  destruct (map b_walk_id _) as [|i ids]; [|reflexivity].
  symmetry. now apply count_documents_none.
Qed.

(** X21.  Walk identifiers being unique and the user having fewer than
    10000 active bookings: a booking raises the number of walks achieved of
    the user who books by one when the date of the walk is before today, and
    not at all otherwise; the numbers of the other users stay as they
    are. *)
Theorem badge_credit_on_booking (today wid : string) (now : Z) (uuid_hex : string)
        (d : DB) (current_user : User) (booking : Booking) (walk : Walk) :
  NoDup (map walk_id (walks d)) ->
  Z.of_nat (length (filter (fun b => (b_user_id b =? user_id current_user)%string
                                     && (b_status b =? "active")%string)
                           (bookings d))) < 10000 ->
  fst (create_booking wid now uuid_hex d current_user) = Ok booking ->
  find_one (fun w => (walk_id w =? wid)%string) (walks d) = Some walk ->
  let d' := snd (create_booking wid now uuid_hex d current_user) in
  ub_total_walks (get_user_badge today d' (user_id current_user))
  = ub_total_walks (get_user_badge today d (user_id current_user))
    + (if String.ltb (date walk) today then 1 else 0) /\
  forall other,
    other <> user_id current_user ->
    get_user_badge today d' other = get_user_badge today d other.
Proof.
  intros Hnd Hcap Hok Hwalk. cbv zeta.
  destruct (create_booking_ok _ _ _ _ _ _ Hok) as (Hb & -> & _ & _ & Hnone).
  assert (Hu : b_user_id booking = user_id current_user) by now rewrite Hb.
  assert (Hwid : b_walk_id booking = wid) by now rewrite Hb.
  assert (Hst : b_status booking = "active") by now rewrite Hb.
  unfold get_user_badge. cbn [ub_total_walks]. split.
  - assert (Ho : organized_count today (insert_booking d booking) (user_id current_user)
                 = organized_count today d (user_id current_user)) by reflexivity.
    rewrite Ho, !participated_count_eq. cbn [insert_booking bookings walks].
    rewrite filter_app. cbn [filter]. rewrite Hu, Hst, !String.eqb_refl. cbn [andb].
    rewrite (to_list_all 10000 (_ ++ [booking]))
      by (rewrite length_app; cbn [length]; lia).
    rewrite (to_list_all 10000 (filter _ (bookings d))) by lia.
    rewrite map_app. cbn [map]. rewrite Hwid.
    rewrite (count_documents_ext
               _ (fun w => (str_in (walk_id w)
                                   (map b_walk_id
                                        (filter (fun b => (b_user_id b =? user_id current_user)%string
                                                          && (b_status b =? "active")%string)
                                                (bookings d)))
                            && String.ltb (date w) today)
                           || ((walk_id w =? wid)%string && String.ltb (date w) today))).
    2:{ intros w _. unfold str_in. rewrite existsb_app. cbn [existsb].
        rewrite orb_false_r. now destruct (existsb _ _), (walk_id w =? wid)%string,
                                 (String.ltb (date w) today). }
    rewrite count_documents_or.
    + rewrite (count_unique_walk wid today (walks d) walk Hnd Hwalk). lia.
    + intros w _ Hw. apply andb_true_iff in Hw as [Hw _].
      apply str_in_true, in_map_iff in Hw as (b & Hbw & Hin).
      apply filter_In in Hin as [Hin Hq].
      destruct (String.eqb_spec (walk_id w) wid) as [E|_]; [|reflexivity].
      exfalso. apply (find_none _ _ Hnone) in Hin.
      apply andb_true_iff in Hq as [Hq1 Hq2].
      rewrite Hbw, E, String.eqb_refl, Hq1, Hq2 in Hin. discriminate.
  - intros other Hother. unfold organized_count, participated_count.
    cbn [insert_booking bookings walks]. rewrite filter_app. cbn [filter].
    rewrite Hu. apply not_eq_sym in Hother. apply String.eqb_neq in Hother.
    rewrite Hother. cbn [andb]. now rewrite app_nil_r.
Qed.

Lemma badge_credit_on_booking_witness :
  ub_total_walks (get_user_badge "2025-11-10" reminder_db "carol") = 1 /\
  ub_total_walks
    (get_user_badge "2025-11-10"
                    (snd (create_booking "w3" 50 "0123456789ab" reminder_db carol)) "carol")
  = 2.
Proof.
  assert (Hnd : NoDup (map walk_id (walks reminder_db))).
  { cbn. repeat constructor; cbn; intuition discriminate. }
  assert (Hcap : Z.of_nat
                   (length (filter (fun b => (b_user_id b =? user_id carol)%string
                                             && (b_status b =? "active")%string)
                                   (bookings reminder_db))) < 10000).
  { cbn. lia. }
  destruct (badge_credit_on_booking
              "2025-11-10" "w3" 50 "0123456789ab" reminder_db carol
              (mkBooking "booking_0123456789ab" "w3" "carol" "carol" "carol@example.org"
                         50 "active")
              (sample_walk "w3" "2025-11-04" 10 None) Hnd Hcap eq_refl eq_refl) as [H _].
  split; [reflexivity | exact H].
Defined.

(** ** The tallies of the statistics *)

Lemma dict_get_increment (k k' : string) (dict : list (string * Z)) :
  dict_get k (dict_increment k' dict)
  = dict_get k dict + (if (k' =? k)%string then 1 else 0).
Proof.
  induction dict as [|[k0 n] rest IH]; cbn [dict_increment dict_get].
  - destruct (k' =? k)%string; lia.
  - destruct (String.eqb_spec k0 k') as [E0|E0]; cbn [dict_get].
    + subst k0. destruct (k' =? k)%string; lia.
    + destruct (String.eqb_spec k0 k) as [E1|E1]; [|exact IH].
      subst k0. apply not_eq_sym, String.eqb_neq in E0. rewrite E0. lia.
Qed.

Lemma dict_total_increment (k : string) (dict : list (string * Z)) :
  dict_total (dict_increment k dict) = dict_total dict + 1.
Proof.
  unfold dict_total. induction dict as [|[k0 n] rest IH]; cbn [dict_increment fold_right snd].
  - lia.
  - destruct (k0 =? k)%string; cbn [fold_right snd]; lia.
Qed.

Lemma dict_keys_increment (k : string) (dict : list (string * Z)) :
  (NoDup (map fst dict) -> NoDup (map fst (dict_increment k dict))) /\
  forall k', In k' (map fst (dict_increment k dict)) <-> k' = k \/ In k' (map fst dict).
Proof.
  induction dict as [|[k0 n] rest [IH1 IH2]]; cbn [dict_increment map fst].
  - split; [intros _; repeat constructor; intros [] | intros k'; cbn; intuition].
  - destruct (String.eqb_spec k0 k) as [E|E]; cbn [map fst].
    + subst k0. split; [trivial|]. intros k'. cbn. intuition.
    + split.
      * intros Hnd. inversion Hnd as [|? ? Hnot Hnd']; subst. constructor; [|now apply IH1].
        intros Hin. apply IH2 in Hin as [Hin | Hin]; [congruence | contradiction].
      * intros k'. cbn. rewrite IH2. intuition.
Qed.

Lemma tally_spec {A : Type} (f : A -> string) (l : list A) :
  forall acc,
    let dict := fold_left (fun acc x => dict_increment (f x) acc) l acc in
    (forall k, dict_get k dict
               = dict_get k acc + count_documents (fun x => (f x =? k)%string) l) /\
    dict_total dict = dict_total acc + Z.of_nat (length l) /\
    (NoDup (map fst acc) -> NoDup (map fst dict)) /\
    (forall k, In k (map fst dict) <-> In k (map fst acc) \/ exists x, In x l /\ f x = k).
Proof.
  induction l as [|x l IH]; intros acc; cbn [fold_left].
  - cbv zeta. split; [|split; [|split]].
    + intros k. unfold count_documents. cbn. lia.
    + cbn. lia.
    + trivial.
    + intros k. split; [now left | intros [H | (x & [] & _)]; exact H].
  - specialize (IH (dict_increment (f x) acc)). cbv zeta in *.
    destruct IH as (H1 & H2 & H3 & H4).
    destruct (dict_keys_increment (f x) acc) as [K1 K2].
    split; [|split; [|split]].
    + intros k. rewrite H1, dict_get_increment. unfold count_documents. cbn [filter].
      destruct (f x =? k)%string; cbn [length]; lia.
    + rewrite H2, dict_total_increment. cbn [length]. lia.
    + intros Hnd. apply H3. now apply K1.
    + intros k. rewrite H4, K2. split.
      * intros [[-> | H] | (y & Hy & Hk)];
          [right; exists x; split; [now left | reflexivity] | now left |].
        right. exists y. split; [now right | exact Hk].
      * intros [H | (y & [<- | Hy] & Hk)];
          [left; now right | left; left; now symmetry |].
        right. now exists y.
Qed.

Lemma user_statistics_tallies (us : list User) :
  forall acc,
    let step := fun acc user =>
                  mkUserStatistics
                    (dict_increment (or_unknown (sex user)) (users_by_sex acc))
                    (dict_increment (stats_age_group (age user)) (users_by_age_group acc))
                    (dict_increment (or_unknown (city user)) (users_by_city acc)) in
    users_by_sex (fold_left step us acc)
    = fold_left (fun a u => dict_increment (or_unknown (sex u)) a) us (users_by_sex acc) /\
    users_by_age_group (fold_left step us acc)
    = fold_left (fun a u => dict_increment (stats_age_group (age u)) a) us
                (users_by_age_group acc) /\
    users_by_city (fold_left step us acc)
    = fold_left (fun a u => dict_increment (or_unknown (city u)) a) us (users_by_city acc).
Proof.
  induction us as [|u us IH]; intros acc; cbn [fold_left]; [now repeat split|].
  cbv zeta in *. apply IH.
Qed.

Lemma stats_age_group_label (a : option Z) : In (stats_age_group a) ("Unknown" :: age_bands).
Proof.
  unfold stats_age_group, age_bands. destruct a as [a|]; [|now left].
  repeat match goal with |- context [if ?b then _ else _] => destruct b end;
    cbn; tauto.
Qed.

(** X22.  In the user tallies of [get_admin_statistics] every user is
    counted once by sex, once by age group and once by city: the entry of a
    key is the number of users with that key, the entries of each tally add
    up to the number of users, no key occurs twice, and the age groups are
    among "Unknown" and the seven bands. *)
Theorem user_statistics_counts (users : list User) :
  let stats := user_statistics users in
  (forall k, dict_get k (users_by_sex stats)
             = count_documents (fun u => (or_unknown (sex u) =? k)%string) users) /\
  (forall k, dict_get k (users_by_age_group stats)
             = count_documents (fun u => (stats_age_group (age u) =? k)%string) users) /\
  (forall k, dict_get k (users_by_city stats)
             = count_documents (fun u => (or_unknown (city u) =? k)%string) users) /\
  dict_total (users_by_sex stats) = Z.of_nat (length users) /\
  dict_total (users_by_age_group stats) = Z.of_nat (length users) /\
  dict_total (users_by_city stats) = Z.of_nat (length users) /\
  NoDup (map fst (users_by_sex stats)) /\
  NoDup (map fst (users_by_age_group stats)) /\
  NoDup (map fst (users_by_city stats)) /\
  forall k, In k (map fst (users_by_age_group stats)) -> In k ("Unknown" :: age_bands).
Proof.
  cbv zeta. unfold user_statistics.
  destruct (user_statistics_tallies users (mkUserStatistics [] [] [])) as (-> & -> & ->).
  cbn [users_by_sex users_by_age_group users_by_city].
  destruct (tally_spec (fun u => or_unknown (sex u)) users []) as (S1 & S2 & S3 & _).
  destruct (tally_spec (fun u => stats_age_group (age u)) users []) as (A1 & A2 & A3 & A4).
  destruct (tally_spec (fun u => or_unknown (city u)) users []) as (C1 & C2 & C3 & _).
  cbv zeta in *.
  repeat split; try (intros k; first [rewrite S1 | rewrite A1 | rewrite C1]; reflexivity);
    try (first [rewrite S2 | rewrite A2 | rewrite C2]; reflexivity);
    try (first [apply S3 | apply A3 | apply C3]; constructor).
  intros k Hk. apply A4 in Hk as [[] | (u & _ & <-)]. apply stats_age_group_label.
Qed.

Example user_statistics_sample :
  user_statistics [alice; bob; carol; erin]
  = mkUserStatistics [("F", 1); ("M", 1); ("male", 1); ("X", 1)]
                     [("25-34", 2); ("35-44", 1); ("Unknown", 1)]
                     [("Paris", 3); ("Lyon", 1)].
Proof. reflexivity. Qed.

Lemma add_rating_total (stars : Z) (dict : list (Z * Z)) :
  In stars (map fst dict) ->
  map fst (add_rating stars dict) = map fst dict /\
  dict_total (add_rating stars dict) = dict_total dict + 1.
Proof.
  unfold dict_total. induction dict as [|[k n] rest IH]; [intros []|].
  cbn [map fst add_rating]. intros Hin. destruct (Z.eqb_spec k stars) as [E|E].
  - cbn [map fst fold_right snd]. split; [reflexivity | lia].
  - destruct Hin as [Hin | Hin]; [contradiction|]. destruct (IH Hin) as [IH1 IH2].
    cbn [map fst fold_right snd]. split; [now rewrite IH1 | lia].
Qed.

Lemma ratings_distribution_total (reviews : list WalkReview) :
  (forall r, In r reviews -> 1 <= rating r <= 5) ->
  dict_total (ratings_distribution reviews) = Z.of_nat (length reviews).
Proof.
  unfold ratings_distribution.
  assert (H : forall dict,
             map fst dict = [1; 2; 3; 4; 5] ->
             (forall r, In r reviews -> 1 <= rating r <= 5) ->
             dict_total
               (fold_left (fun dict review =>
                             if negb (rating review =? 0)
                                && ((1 <=? rating review) && (rating review <=? 5))
                             then add_rating (rating review) dict
                             else dict) reviews dict)
             = dict_total dict + Z.of_nat (length reviews)).
  { induction reviews as [|r reviews IH]; intros dict Hkeys Hall; cbn [fold_left length].
    - lia.
    - pose proof (Hall r (or_introl eq_refl)) as Hr.
      assert (E : negb (rating r =? 0) && ((1 <=? rating r) && (rating r <=? 5)) = true).
      { apply andb_true_iff. split; [apply negb_true_iff, Z.eqb_neq; lia|].
        apply andb_true_iff. split; apply Z.leb_le; lia. }
      rewrite E.
      assert (Hin : In (rating r) (map fst dict)).
      { rewrite Hkeys. cbn.
        assert (rating r = 1 \/ rating r = 2 \/ rating r = 3 \/ rating r = 4
                \/ rating r = 5) by lia.
        intuition. }
      destruct (add_rating_total _ _ Hin) as [K T].
      rewrite IH; [rewrite T; lia | congruence | intros r' Hr'; apply Hall; now right]. }
  intros Hall. now rewrite H.
Qed.

Lemma ratings_distribution_keys (reviews : list WalkReview) :
  map fst (ratings_distribution reviews) = [1; 2; 3; 4; 5].
Proof.
  unfold ratings_distribution.
  assert (K : forall dict,
             map fst
               (fold_left (fun dict review =>
                             if negb (rating review =? 0)
                                && ((1 <=? rating review) && (rating review <=? 5))
                             then add_rating (rating review) dict
                             else dict) reviews dict)
             = map fst dict).
  { induction reviews as [|r reviews IH]; intros dict; cbn [fold_left]; [reflexivity|].
    rewrite IH. destruct (_ && _); [|reflexivity].
    clear IH. induction dict as [|[k n] rest IHd]; [reflexivity|].
    cbn [add_rating]. destruct (k =? rating r); cbn [map fst]; [reflexivity|].
    now rewrite IHd. }
  now rewrite K.
Qed.

(** X23.  Whatever [create_review] requests are served, starting without
    reviews, and however their awaited operations take turns: for every
    list of stored reviews that [get_admin_statistics] fetches (its date
    filter and the cut at 10000 documents choose among the stored ones),
    the five entries of [ratings_distribution] add up to [total_reviews],
    the length of that list. *)
Theorem reviews_all_counted (schedule : list (nat * DB)) (requests : list ReviewRequest)
        (fetched : list WalkReview) :
  (forall r, In r fetched ->
             In r (fst (run_reviews schedule [] (map ReviewArrives requests)))) ->
  map fst (ratings_distribution fetched) = [1; 2; 3; 4; 5] /\
  dict_total (ratings_distribution fetched) = Z.of_nat (length fetched).
Proof.
  intros Hfetched. split; [apply ratings_distribution_keys|].
  apply ratings_distribution_total. intros r Hr.
  apply (run_reviews_ratings schedule [] (map ReviewArrives requests));
    [intros r' [] | apply arriving_reviews_in_range | now apply Hfetched].
Qed.

Lemma reviews_all_counted_witness :
  let stored :=
    fst (run_reviews
           (map (fun i => (i, reminder_db)) [0; 1; 0; 1; 0; 1; 0; 1; 0; 1]%nat) []
           (map ReviewArrives
                [mkReviewRequest bob "w1" 5 (Some "Fine") 100 "0123456789ab";
                 mkReviewRequest carol "w1" 9 None 101 "ba9876543210"])) in
  length stored = 1%nat /\
  dict_total (ratings_distribution stored) = 1.
Proof.
  cbv zeta. split; [reflexivity|].
  exact (proj2 (reviews_all_counted
                  (map (fun i => (i, reminder_db)) [0; 1; 0; 1; 0; 1; 0; 1; 0; 1]%nat)
                  [mkReviewRequest bob "w1" 5 (Some "Fine") 100 "0123456789ab";
                   mkReviewRequest carol "w1" 9 None 101 "ba9876543210"]
                  _ (fun r H => H))).
Defined.

(** ** The participants of a walk *)

Lemma flat_map_at_most_one {A B : Type} (f : A -> list B) (l : list A) :
  (forall x, (length (f x) <= 1)%nat) -> (length (flat_map f l) <= length l)%nat.
Proof.
  intros H. induction l as [|x l IH]; [apply Nat.le_refl|].
  cbn [flat_map]. rewrite length_app. cbn [length]. specialize (H x). lia.
Qed.

Lemma user_map_get_some (users_list : list User) (uid : string) (user : User) :
  user_map_get users_list uid = Some user -> In user users_list /\ user_id user = uid.
Proof.
  unfold user_map_get. intros H. apply find_some in H as [Hin Hid].
  split; [now apply in_rev | now apply String.eqb_eq].
Qed.

Lemma user_map_get_found (users_list : list User) (u : User) :
  In u users_list ->
  exists user, user_map_get users_list (user_id u) = Some user.
Proof.
  intros Hin. unfold user_map_get.
  destruct (find _ (rev users_list)) as [user|] eqn:E; [now exists user|].
  apply in_rev in Hin. apply (find_none _ _ E) in Hin.
  rewrite String.eqb_refl in Hin. discriminate.
Qed.

(** X24.  [get_walk_participants] answers 404 for a walk that does not
    exist.  Otherwise it lists at most one entry for each active booking of
    the walk; every entry belongs to an active booking of the walk and to a
    stored user, and shows the walks achieved and the badge level that
    [get_user_badge] gives for that user.  With no more than 1000 active
    bookings and 1000 users, every active booking of a stored user has its
    entry. *)
Theorem get_walk_participants_spec (today wid : string) (d : DB) (current_user : User) :
  (find_one (fun w => (walk_id w =? wid)%string) (walks d) = None ->
   get_walk_participants today wid d current_user = HTTPException 404 "Walk not found") /\
  (find_one (fun w => (walk_id w =? wid)%string) (walks d) <> None ->
   exists participants,
     get_walk_participants today wid d current_user = Ok participants /\
     Z.of_nat (length participants) <= current_participants d wid /\
     Z.of_nat (length participants) <= 1000 /\
     (forall p,
         In p participants ->
         (exists b, In b (bookings d) /\ is_active_on wid b = true /\
                    b_user_id b = p_user_id p /\ booked_at b = p_booked_at p) /\
         (exists u, In u (users d) /\ user_id u = p_user_id p /\ name u = p_name p /\
                    email u = p_email p) /\
         p_total_walks p = ub_total_walks (get_user_badge today d (p_user_id p)) /\
         p_badge_level p = ub_badge_level (get_user_badge today d (p_user_id p))) /\
     (current_participants d wid <= 1000 ->
      Z.of_nat (length (users d)) <= 1000 ->
      forall b u,
        In b (bookings d) -> is_active_on wid b = true ->
        In u (users d) -> user_id u = b_user_id b ->
        exists p, In p participants /\ p_user_id p = b_user_id b /\
                  p_booked_at p = booked_at b)).
Proof.
  unfold get_walk_participants. split; [now intros ->|].
  intros Hwalk. destruct (find_one _ (walks d)) as [walk|]; [clear Hwalk|contradiction].
  set (users_of := fun bookings : list Booking =>
                     to_list 1000
                             (filter (fun u => str_in (user_id u)
                                                      (unique (map b_user_id bookings)))
                                     (users d))).
  set (entry := fun (bookings : list Booking) (booking : Booking) =>
                  match user_map_get (users_of bookings) (b_user_id booking) with
                  | Some user =>
                      [mkParticipant
                         (user_id user) (name user) (pseudonym user) (email user)
                         (age user) (sex user) (booked_at booking)
                         (get_badge_level (organized_count today d (user_id user)
                                           + participated_count today d (user_id user)))
                         (organized_count today d (user_id user)
                          + participated_count today d (user_id user))]
                  | None => []
                  end).
  exists (flat_map (entry (active_bookings_of d wid)) (active_bookings_of d wid)).
  split; [destruct (active_bookings_of d wid); reflexivity|].
  assert (Hlen : (length (flat_map (entry (active_bookings_of d wid))
                                   (active_bookings_of d wid))
                  <= length (active_bookings_of d wid))%nat).
  { apply flat_map_at_most_one. intros b. unfold entry.
    destruct (user_map_get _ _); cbn [length]; lia. }
  assert (Hcap : (length (active_bookings_of d wid)
                  <= Nat.min 1000 (length (filter (is_active_on wid) (bookings d))))%nat).
  { unfold active_bookings_of, to_list. rewrite length_firstn.
    change (Z.to_nat 1000) with 1000%nat. lia. }
  split; [unfold current_participants; lia|]. split; [lia|]. split.
  - intros p Hp. apply in_flat_map in Hp as (b & Hb & Hp). unfold entry in Hp.
    destruct (user_map_get _ _) as [user|] eqn:Eu; [|destruct Hp].
    destruct Hp as [<- | []]. cbn [p_user_id p_booked_at p_name p_email p_total_walks
                                   p_badge_level].
    apply user_map_get_some in Eu as [Hin Hid].
    unfold users_of in Hin. apply in_to_list, filter_In in Hin as [Hin _].
    apply in_to_list, filter_In in Hb as [Hb Hact].
    split; [exists b; now rewrite Hid|]. split; [now exists user|].
    split; reflexivity.
  - intros Hfew Husers b u Hb Hact Hu Hid.
    assert (Eall : active_bookings_of d wid = filter (is_active_on wid) (bookings d)).
    { apply to_list_all. exact Hfew. }
    assert (Hb' : In b (active_bookings_of d wid)).
    { rewrite Eall. now apply filter_In. }
    assert (Hu' : In u (users_of (active_bookings_of d wid))).
    { unfold users_of. rewrite to_list_all.
      - apply filter_In. split; [exact Hu|]. apply str_in_true.
        unfold unique. apply nodup_In. rewrite Hid. now apply in_map.
      - etransitivity; [|exact Husers]. apply inj_le, filter_length_le. }
    destruct (user_map_get_found _ _ Hu') as (user & Euser).
    pose proof (user_map_get_some _ _ _ Euser) as [_ Huid].
    eexists. split.
    + apply in_flat_map. exists b. split; [exact Hb'|]. unfold entry.
      rewrite <- Hid, Euser. left. reflexivity.
    + cbn [p_user_id p_booked_at]. split; [congruence | reflexivity].
Qed.

Lemma get_walk_participants_spec_witness :
  exists participants,
    get_walk_participants "2025-11-10" "w1" reminder_db alice = Ok participants /\
    Z.of_nat (length participants) <= current_participants reminder_db "w1" /\
    exists p, In p participants /\ p_user_id p = "carol".
Proof.
  destruct (get_walk_participants_spec "2025-11-10" "w1" reminder_db alice) as [_ H].
  destruct H as (participants & E & Hlen & _ & _ & Hall); [discriminate|].
  exists participants. split; [exact E|]. split; [exact Hlen|].
  destruct (Hall ltac:(cbn; lia) ltac:(cbn; lia) (sample_booking "w1" "carol") carol)
    as (p & Hp & Hid & _).
  - right. left. reflexivity.
  - reflexivity.
  - right. right. left. reflexivity.
  - reflexivity.
  - now exists p.
Defined.
